(** * py-xiaozhi transport layer: the datagram codec and the two transports

    A shallow embedding of [src/protocols/protocol.py],
    [src/protocols/mqtt_protocol.py] and [src/protocols/websocket_protocol.py].

    - Python [bytes] are lists of [byte]; a Python [str] is a [string] of
      8-bit characters, a list of [ascii] where it is sliced or decoded;
      Python [int] is [Z]; what [json.loads] returns is a [pyval].
    - Methods are computations in a small state / exception / trace monad: a
      method receives the object's fields, returns or raises, leaves the
      fields as they are at that point, and records the calls it made to its
      collaborators (logger, sockets, threads, cipher, listeners).
    - Collaborators are objects that say what each of their methods does
      when called: return, or raise. Starting and joining a thread are taken
      to return. A coroutine handed to the event loop is run at once.
    - Counter mode is written out around the block function of a [backend].
      The theorems hold for every backend; AES itself is defined after
      FIPS-197 and is the backend of the examples.
    - [connect], the callbacks of the MQTT client and the message loop of
      the WebSocket connection run against the libraries ([json], paho,
      [websockets]) given by what their calls return or raise. What arrives
      while [connect] waits for the server hello is an argument of
      [connect]. *)

From Stdlib Require Import List String Ascii Bool Arith NArith ZArith Lia.
From Stdlib.Strings Require Import Byte.
From Corelib Require Import SpecFloat.
Import ListNotations.

(** ** Exceptions and results of pure library calls *)

Inductive exn : Type :=
| ValueError | TypeError | AttributeError | OverflowError | OSError
| RuntimeError
| ProtocolError | ConnectionError | MessageError.

Inductive outcome (A : Type) : Type :=
| Returned (a : A)
| Raised (e : exn).

Arguments Returned {A} a.
Arguments Raised {A} e.

Definition outcome_bind {A B} (o : outcome A) (k : A -> outcome B) : outcome B :=
  match o with
  | Returned a => k a
  | Raised e => Raised e
  end.

Definition outcome_map {A B} (f : A -> B) (o : outcome A) : outcome B :=
  outcome_bind o (fun a => Returned (f a)).

(** ** Bytes *)

Definition bytes := list byte.

(** The byte whose value is [n mod 256]. *)
Definition byte_of_N (n : N) : byte :=
  match Byte.of_N (n mod 256) with
  | Some b => b
  | None => x00
  end.

(** Bitwise exclusive or of two bytes, through their eight bits. *)
Definition byte_xor (a b : byte) : byte :=
  let '(a0, (a1, (a2, (a3, (a4, (a5, (a6, a7))))))) := Byte.to_bits a in
  let '(b0, (b1, (b2, (b3, (b4, (b5, (b6, b7))))))) := Byte.to_bits b in
  Byte.of_bits (xorb a0 b0, (xorb a1 b1, (xorb a2 b2, (xorb a3 b3,
               (xorb a4 b4, (xorb a5 b5, (xorb a6 b6, xorb a7 b7))))))).

(** [n.to_bytes(w, 'big')] for [0 <= n < 256^w]; the low [w] bytes otherwise. *)
Fixpoint be_bytes (w : nat) (n : N) : bytes :=
  match w with
  | O => []
  | S w' => be_bytes w' (n / 256) ++ [byte_of_N n]
  end.

(** [int.from_bytes(bs, 'big')]. *)
Definition be_value (bs : bytes) : N :=
  fold_left (fun acc b => 256 * acc + Byte.to_N b)%N bs 0%N.

(** ** Hexadecimal text: [bytes.hex], [bytes.fromhex], [format(n, '0wx')] *)

Definition pystr := list ascii.

Definition hex_char (n : N) : ascii :=
  match n with
  | 0 => "0" | 1 => "1" | 2 => "2" | 3 => "3" | 4 => "4" | 5 => "5"
  | 6 => "6" | 7 => "7" | 8 => "8" | 9 => "9" | 10 => "a" | 11 => "b"
  | 12 => "c" | 13 => "d" | 14 => "e" | _ => "f"
  end%N%char.

Definition hex_value (c : ascii) : option N :=
  let n := N_of_ascii c in
  if ((48 <=? n) && (n <=? 57))%N then Some (n - 48)%N
  else if ((97 <=? n) && (n <=? 102))%N then Some (n - 87)%N
  else if ((65 <=? n) && (n <=? 70))%N then Some (n - 55)%N
  else None.

(** [Py_ISSPACE]: space, \t, \n, \v, \f, \r. *)
Definition is_space (c : ascii) : bool :=
  let n := N_of_ascii c in
  ((n =? 32) || ((9 <=? n) && (n <=? 13)))%N.

(** [bytes.hex()]: two lowercase digits per byte. *)
Fixpoint bytes_hex (bs : bytes) : pystr :=
  match bs with
  | [] => []
  | b :: bs' =>
      hex_char (Byte.to_N b / 16) :: hex_char (Byte.to_N b mod 16) :: bytes_hex bs'
  end.

(** [bytes.fromhex(s)]: white space is skipped between bytes, never inside
    one; anything else that is not a pair of hexadecimal digits raises
    [ValueError]. *)
Fixpoint fromhex (s : pystr) : outcome bytes :=
  match s with
  | [] => Returned []
  | c :: s' =>
      if is_space c then fromhex s'
      else
        match hex_value c, s' with
        | Some hi, d :: s'' =>
            match hex_value d with
            | Some lo =>
                outcome_map (cons (byte_of_N (16 * hi + lo))) (fromhex s'')
            | None => Raised ValueError
            end
        | _, _ => Raised ValueError
        end
  end.

(** [k] hexadecimal digits of [n], most significant first. *)
Fixpoint hex_fixed (k : nat) (n : N) : pystr :=
  match k with
  | O => []
  | S k' => hex_fixed k' (n / 16) ++ [hex_char (n mod 16)]
  end.

(** The number of hexadecimal digits [format(n, 'x')] prints. *)
Definition hex_width (n : N) : nat :=
  if (n =? 0)%N then 1 else S (N.to_nat (N.log2 n / 4)).

(** [format(z, '0wx')]: at least [w] characters, zero-filled after the sign. *)
Definition format_hex (w : nat) (z : Z) : pystr :=
  if (z <? 0)%Z
  then "-"%char :: hex_fixed (Nat.max (w - 1) (hex_width (Z.abs_N z))) (Z.abs_N z)
  else hex_fixed (Nat.max w (hex_width (Z.to_N z))) (Z.to_N z).

Definition py (s : string) : pystr := list_ascii_of_string s.

(** ** Values decoded by [json.loads] and the built-ins applied to them *)

#[warnings="-register-all"]
Inductive pyval : Type :=
| PNone
| PBool (b : bool)
| PInt (z : Z)
| PFloat (f : spec_float)
| PStr (s : string)
| PList (l : list pyval)
| PDict (d : list (string * pyval)).

(** Truth value of an object, as [not x], [if x] and [all([...])] test it. *)
Definition truthy (v : pyval) : bool :=
  match v with
  | PNone => false
  | PBool b => b
  | PInt z => negb (z =? 0)%Z
  | PFloat (S754_zero _) => false
  | PFloat _ => true
  | PStr s => negb (String.eqb s "")
  | PList l => match l with [] => false | _ => true end
  | PDict d => match d with [] => false | _ => true end
  end.

(** [x == "literal"]: only a [str] with the same characters is equal. *)
Definition str_eqb (v : pyval) (lit : string) : bool :=
  match v with
  | PStr s => String.eqb s lit
  | _ => false
  end.

(** A [dict] lists its entries; a key is looked up from the front. *)
Fixpoint dict_lookup (d : list (string * pyval)) (k : string) : option pyval :=
  match d with
  | [] => None
  | (k', v) :: d' => if String.eqb k' k then Some v else dict_lookup d' k
  end.

(** [d.get(k, default)] on a [dict]. *)
Definition dict_get (d : list (string * pyval)) (k : string) (default : pyval) : pyval :=
  match dict_lookup d k with
  | Some v => v
  | None => default
  end.

(** [x.get(k, default)] on whatever [x] is: only a [dict] has [get]. *)
Definition py_get (x : pyval) (k : string) (default : pyval) : outcome pyval :=
  match x with
  | PDict d => Returned (dict_get d k default)
  | _ => Raised AttributeError
  end.

Definition digit_value (c : ascii) : option Z :=
  let n := N_of_ascii c in
  if ((48 <=? n) && (n <=? 57))%N then Some (Z.of_N (n - 48)) else None.

(** The digits of an integer literal: single underscores between digits. *)
Fixpoint int_digits (acc : Z) (after_digit : bool) (s : pystr) : option Z :=
  match s with
  | [] => if after_digit then Some acc else None
  | c :: s' =>
      match digit_value c with
      | Some d => int_digits (10 * acc + d)%Z true s'
      | None =>
          if (Ascii.eqb c "_" && after_digit)%bool
          then int_digits acc false s'
          else None
      end
  end.

(** What [int] strips at both ends of a [str], for characters below 256:
    the ASCII white space of [Py_ISSPACE], and the two white-space
    characters above 127, NEL and the no-break space. *)
Definition is_int_space (c : ascii) : bool :=
  let n := N_of_ascii c in
  (is_space c || (n =? 133) || (n =? 160))%N.

Fixpoint lstrip (s : pystr) : pystr :=
  match s with
  | c :: s' => if is_int_space c then lstrip s' else s
  | [] => []
  end.

Definition strip (s : pystr) : pystr := rev (lstrip (rev (lstrip s))).

(** [int(s)] for a [str] of 8-bit characters, base 10: optional sign, then
    digits, white space allowed around but not inside. *)
Definition int_of_str (s : pystr) : outcome Z :=
  let parse sign body :=
    match int_digits 0 false body with
    | Some z => Returned (sign * z)%Z
    | None => Raised ValueError
    end in
  match strip s with
  | "-"%char :: body => parse (-1)%Z body
  | "+"%char :: body => parse 1%Z body
  | body => parse 1%Z body
  end.

(** [int(x)]. *)
Definition py_int (x : pyval) : outcome Z :=
  match x with
  | PNone => Raised TypeError
  | PBool b => Returned (if b then 1 else 0)%Z
  | PInt z => Returned z
  | PFloat (S754_zero _) => Returned 0%Z
  | PFloat (S754_finite s m e) =>
      let mag := match e with
                 | Zneg p => Z.shiftr (Zpos m) (Zpos p)
                 | _ => Z.shiftl (Zpos m) e
                 end in
      Returned (if s then - mag else mag)%Z
  | PFloat S754_nan => Raised ValueError
  | PFloat (S754_infinity _) => Raised OverflowError
  | PStr s => int_of_str (py s)
  | PList _ => Raised TypeError
  | PDict _ => Raised TypeError
  end.

(** ** Collaborators: listeners, sockets, clients, and the calls made to them *)

(** A registered listener, by what a call to it does: return, or raise. *)
Record listener : Type := Listener { listener_raises : option exn }.

Inductive level : Type := INFO | ERROR.

Inductive ws_message : Type :=
| WsText (s : string)
| WsBinary (b : bytes).

Inductive action : Type :=
| Log (l : level)
| CallIncomingJson (data : pyval)
| CallIncomingAudio (data : bytes)
| CallAudioChannelOpened
| CallNetworkError
| SocketCreate
| SocketClose
| SocketSettimeout
| SocketSendto (packet : bytes) (host : pyval) (port : Z)
| ThreadStart
| ThreadJoin
| EventSet
| CipherEncrypt (key nonce data : bytes)
| CipherDecrypt (key nonce data : bytes)
| MqttPublish (topic : pyval) (message : string)
| MqttLoopStop
| MqttDisconnect
| WsSend (m : ws_message)
| WsClose.

(** A UDP socket object: what [close] and [sendto] do when called. *)
Record socket_obj : Type := {
  sock_close : option exn;
  sock_sendto : bytes -> option exn
}.

(** A paho client: [publish] followed by [wait_for_publish] and
    [is_published] raises or tells whether the message went out. *)
Record mqtt_client_obj : Type := {
  client_publish : string -> outcome bool;
  client_loop_stop : option exn;
  client_disconnect : option exn
}.

(** A websockets connection. *)
Record ws_obj : Type := {
  ws_send : ws_message -> option exn;
  ws_close : option exn
}.

(** ** The monad of methods

    A method maps the object's fields to its result, the fields it leaves
    behind and the calls it made, in order. Fields written before an
    exception stay written. *)

Definition M (S A : Type) : Type := S -> outcome A * S * list action.

Definition ret {S A} (a : A) : M S A := fun s => (Returned a, s, []).

Definition raise {S A} (e : exn) : M S A := fun s => (Raised e, s, []).

(** What a computation did, after the calls [t1] made before it. *)
Definition after {S A} (t1 : list action) (r : outcome A * S * list action)
  : outcome A * S * list action :=
  let '(o, s, t2) := r in (o, s, t1 ++ t2).

Definition bind {S A B} (m : M S A) (k : A -> M S B) : M S B :=
  fun s =>
    match m s with
    | (Returned a, s1, t1) => after t1 (k a s1)
    | (Raised e, s1, t1) => (Raised e, s1, t1)
    end.

Declare Scope py_scope.
Delimit Scope py_scope with py.
Notation "x <- m ;; k" := (bind m (fun x => k))
  (at level 61, m at next level, right associativity) : py_scope.
Notation "m ;; k" := (bind m (fun _ => k))
  (at level 61, right associativity) : py_scope.
Open Scope py_scope.

Definition gets {S A} (f : S -> A) : M S A := fun s => (Returned (f s), s, []).

Definition modify {S} (f : S -> S) : M S unit := fun s => (Returned tt, f s, []).

Definition emit {S} (a : action) : M S unit := fun s => (Returned tt, s, [a]).

Definition lift {S A} (o : outcome A) : M S A := fun s => (o, s, []).

(** A call that raises [e] when [r = Some e] and returns otherwise. *)
Definition may_raise {S} (r : option exn) : M S unit :=
  match r with
  | Some e => raise e
  | None => ret tt
  end.

(** [try: m  except Exception as e: h e]. *)
Definition try_except {S A} (m : M S A) (h : exn -> M S A) : M S A :=
  fun s =>
    match m s with
    | (Returned a, s1, t1) => (Returned a, s1, t1)
    | (Raised e, s1, t1) => after t1 (h e s1)
    end.

(** [try: m  finally: f]: [f] runs either way; what [m] did stands unless
    [f] itself raises. *)
Definition try_finally {S A} (m : M S A) (f : M S unit) : M S A :=
  fun s =>
    let '(r, s1, t1) := m s in
    match f s1 with
    | (Returned _, s2, t2) => (r, s2, t1 ++ t2)
    | (Raised e, s2, t2) => (Raised e, s2, t1 ++ t2)
    end.

Definition when {S} (b : bool) (m : M S unit) : M S unit :=
  if b then m else ret tt.

(** [if self._on_x: self._on_x(...)]: an empty slot is skipped. *)
Definition notify {S} (slot : option listener) (call : action) : M S unit :=
  match slot with
  | Some l => emit call ;; may_raise (listener_raises l)
  | None => ret tt
  end.

Definition result_of {S A} (r : outcome A * S * list action) : outcome A := fst (fst r).
Definition state_of {S A} (r : outcome A * S * list action) : S := snd (fst r).
Definition trace_of {S A} (r : outcome A * S * list action) : list action := snd r.

(** The constants of [AudioConfig] the client hello quotes; their values
    are set outside the three files. *)
Record AudioConfig : Type := {
  INPUT_SAMPLE_RATE : Z;
  CHANNELS : Z;
  FRAME_DURATION : Z
}.

(** ** [protocol.py]: the fields and helpers every transport inherits *)

Module Protocol.

Record t : Type := {
  session_id : pyval;
  _on_incoming_json : option listener;
  _on_incoming_audio : option listener;
  _on_audio_channel_opened : option listener;
  _on_audio_channel_closed : option listener;
  _on_network_error : option listener;
  _on_audio_config_changed : option listener
}.

Definition __init__ : t :=
  {| session_id := PStr "";
     _on_incoming_json := None;
     _on_incoming_audio := None;
     _on_audio_channel_opened := None;
     _on_audio_channel_closed := None;
     _on_network_error := None;
     _on_audio_config_changed := None |}.

Definition set_callbacks
  (on_json on_audio on_audio_channel_opened on_audio_channel_closed
   on_network_error on_audio_config_changed : option listener) (self : t) : t :=
  {| session_id := session_id self;
     _on_incoming_json := on_json;
     _on_incoming_audio := on_audio;
     _on_audio_channel_opened := on_audio_channel_opened;
     _on_audio_channel_closed := on_audio_channel_closed;
     _on_network_error := on_network_error;
     _on_audio_config_changed := on_audio_config_changed |}.

Definition set_session_id (v : pyval) (self : t) : t :=
  {| session_id := v;
     _on_incoming_json := _on_incoming_json self;
     _on_incoming_audio := _on_incoming_audio self;
     _on_audio_channel_opened := _on_audio_channel_opened self;
     _on_audio_channel_closed := _on_audio_channel_closed self;
     _on_network_error := _on_network_error self;
     _on_audio_config_changed := _on_audio_config_changed self |}.

(** [_handle_error]: log, then tell the network-error listener if there is
    one. The listener is called unguarded. *)
Definition _handle_error {S} (base : S -> t) (error : exn) : M S unit :=
  emit (Log ERROR) ;;
  slot <- gets (fun self => _on_network_error (base self)) ;;
  notify slot CallNetworkError.

End Protocol.

(** ** The cipher of the [cryptography] package

    [default_backend()] supplies the AES block encryption: a key and a
    128-bit block, read as a big-endian number, give a 128-bit block. *)

Record backend : Type := { aes_block_encrypt : bytes -> N -> N }.

(** [Cipher(algorithms.AES(key), modes.CTR(nonce))]: [AES] accepts keys of
    128, 192, 256 and 512 bits, [CTR] refuses the last and any nonce that is
    not one block long; each refusal is a [ValueError]. *)
Definition Cipher_AES_CTR (key nonce : bytes) : outcome (bytes * N) :=
  let bits := (8 * List.length key)%nat in
  if negb ((bits =? 128) || (bits =? 192) || (bits =? 256) || (bits =? 512))%nat
  then Raised ValueError
  else if (256 <? bits)%nat then Raised ValueError
  else if negb (8 * List.length nonce =? 128)%nat then Raised ValueError
  else Returned (key, be_value nonce).

(** Byte [i] of the key stream: byte [i mod 16] of the encryption of the
    counter block, which started at [iv] and was incremented [i / 16] times
    modulo [2^128]. *)
Definition keystream_byte (be : backend) (key : bytes) (iv : N) (i : N) : byte :=
  let block := aes_block_encrypt be key ((iv + i / 16) mod 2 ^ 128)%N in
  byte_of_N (block / 2 ^ (8 * (15 - i mod 16)))%N.

(** [update(data)] of a counter-mode context positioned at byte [i]. *)
Fixpoint ctr_update (be : backend) (key : bytes) (iv : N) (i : N) (data : bytes) : bytes :=
  match data with
  | [] => []
  | d :: data' =>
      byte_xor d (keystream_byte be key iv i) :: ctr_update be key iv (N.succ i) data'
  end.

(** ** AES, as FIPS-197 defines it

    The block function the program runs with. The theorems hold for any
    [backend]; the examples run on this one, which is checked below on the
    vectors of FIPS-197 and of SP 800-38A. *)

Module AES.

Local Open Scope N_scope.

(** Multiplication by [x] in GF(2^8) modulo [x^8 + x^4 + x^3 + x + 1]. *)
Definition xtime (a : N) : N :=
  N.lxor ((2 * a) mod 256) (if 128 <=? a then 27 else 0).

(** Product in GF(2^8), by the bits of [b], lowest first. *)
Fixpoint gmul_bits (bits : nat) (a b : N) : N :=
  match bits with
  | O => 0
  | S bits' =>
      N.lxor (if N.odd b then a else 0) (gmul_bits bits' (xtime a) (b / 2))
  end.

Definition gmul (a b : N) : N := gmul_bits 8 a b.

Definition gsquare (a : N) : N := gmul a a.

(** The inverse, [a^254]; 0 for 0. *)
Definition ginv (a : N) : N :=
  let a2 := gsquare a in
  let a4 := gsquare a2 in
  let a8 := gsquare a4 in
  let a16 := gsquare a8 in
  let a32 := gsquare a16 in
  let a64 := gsquare a32 in
  let a128 := gsquare a64 in
  gmul a128 (gmul a64 (gmul a32 (gmul a16 (gmul a8 (gmul a4 a2))))).

Definition rotl8 (a : N) (k : N) : N :=
  ((a * 2 ^ k) mod 256) + (a / 2 ^ (8 - k)).

(** The S-box: the inverse followed by the affine map. *)
Definition sbox_of (a : N) : N :=
  let b := ginv a in
  N.lxor b (N.lxor (rotl8 b 1) (N.lxor (rotl8 b 2)
    (N.lxor (rotl8 b 3) (N.lxor (rotl8 b 4) 99)))).

Definition sbox_table : list N :=
  Eval vm_compute in map (fun i => sbox_of (N.of_nat i)) (seq 0 256).

Definition sbox (a : N) : N := nth (N.to_nat a) sbox_table 0.

Definition xor_bytes (a b : list N) : list N :=
  map (fun p => N.lxor (fst p) (snd p)) (combine a b).

(** The state is the block as 16 bytes, column after column. *)
Definition sub_bytes (s : list N) : list N := map sbox s.

Definition shift_rows (s : list N) : list N :=
  map (fun i => nth ((i mod 4) + 4 * (((i / 4) + (i mod 4)) mod 4))%nat s 0)
      (seq 0 16).

Definition mix_column (c : list N) : list N :=
  match c with
  | [a0; a1; a2; a3] =>
      [N.lxor (gmul 2 a0) (N.lxor (gmul 3 a1) (N.lxor a2 a3));
       N.lxor a0 (N.lxor (gmul 2 a1) (N.lxor (gmul 3 a2) a3));
       N.lxor a0 (N.lxor a1 (N.lxor (gmul 2 a2) (gmul 3 a3)));
       N.lxor (gmul 3 a0) (N.lxor a1 (N.lxor a2 (gmul 2 a3)))]
  | _ => c
  end.

Definition mix_columns (s : list N) : list N :=
  flat_map (fun c => mix_column (firstn 4 (skipn (4 * c) s))) (seq 0 4).

(** Key expansion: [words] so far, most recent last; [i] is the index of
    the next word, [rcon] the next round constant. *)
Fixpoint expand (fuel : nat) (nk : nat) (i : nat) (rcon : N) (words : list (list N))
  : list (list N) :=
  match fuel with
  | O => words
  | S fuel' =>
      let prev := nth (i - 1) words [] in
      let back := nth (i - nk) words [] in
      let '(temp, rcon') :=
        if (i mod nk =? 0)%nat
        then (xor_bytes (map sbox (skipn 1 prev ++ firstn 1 prev)) [rcon; 0; 0; 0],
              xtime rcon)
        else if ((6 <? nk) && (i mod nk =? 4))%nat
             then (map sbox prev, rcon)
             else (prev, rcon) in
      expand fuel' nk (S i) rcon' (words ++ [xor_bytes back temp])
  end.

Definition chunks4 (l : list N) (n : nat) : list (list N) :=
  map (fun i => firstn 4 (skipn (4 * i) l)) (seq 0 n).

Definition key_schedule (key : list N) : list (list N) :=
  let nk := (List.length key / 4)%nat in
  expand (4 * (nk + 7) - nk) nk nk 1 (chunks4 key nk).

Definition round_key (w : list (list N)) (r : nat) : list N :=
  List.concat (firstn 4 (skipn (4 * r)%nat w)).

Fixpoint rounds (n : nat) (r : nat) (w : list (list N)) (s : list N) : list N :=
  match n with
  | O => s
  | S n' =>
      rounds n' (S r) w
        (xor_bytes (mix_columns (shift_rows (sub_bytes s))) (round_key w r))
  end.

(** The cipher of FIPS-197, section 5.1, on a 16-byte block. *)
Definition cipher (key block : list N) : list N :=
  let nk := (List.length key / 4)%nat in
  let nr := (nk + 6)%nat in
  let w := key_schedule key in
  let s := rounds (nr - 1) 1 w (xor_bytes block (round_key w 0)) in
  xor_bytes (shift_rows (sub_bytes s)) (round_key w nr).

Definition block_bytes (block : N) : list N :=
  map (fun i => (block / 2 ^ (8 * (15 - N.of_nat i))) mod 256) (seq 0 16).

Definition block_value (bs : list N) : N :=
  fold_left (fun acc b => 256 * acc + b) bs 0.

Definition encrypt_block (key : bytes) (block : N) : N :=
  block_value (cipher (map Byte.to_N key) (block_bytes block)).

End AES.


(** [default_backend()]. *)
Definition default_backend : backend :=
  {| aes_block_encrypt := AES.encrypt_block |}.

(** ** [mqtt_protocol.py]: control over MQTT, audio over encrypted UDP *)

Module MqttProtocol.

Record t : Type := {
  base : Protocol.t;
  mqtt_client : option mqtt_client_obj;
  udp_socket : option socket_obj;
  udp_thread : bool;
  udp_running : bool;
  publish_topic : pyval;
  udp_server : pyval;
  udp_port : Z;
  aes_key : pyval;
  aes_nonce : pyval;
  local_sequence : Z;
  remote_sequence : Z;
  server_hello_event : bool
}.

(** The fields as [__init__] leaves them ([udp_thread] is [true] once a
    thread object is stored there). *)
Definition __init__ : t :=
  {| base := Protocol.__init__;
     mqtt_client := None;
     udp_socket := None;
     udp_thread := false;
     udp_running := false;
     publish_topic := PNone;
     udp_server := PStr "";
     udp_port := 0;
     aes_key := PNone;
     aes_nonce := PNone;
     local_sequence := 0;
     remote_sequence := 0;
     server_hello_event := false |}.

Definition set_base (v : Protocol.t) (self : t) : t :=
  {| base := v; mqtt_client := mqtt_client self; udp_socket := udp_socket self;
     udp_thread := udp_thread self; udp_running := udp_running self;
     publish_topic := publish_topic self; udp_server := udp_server self;
     udp_port := udp_port self; aes_key := aes_key self; aes_nonce := aes_nonce self;
     local_sequence := local_sequence self; remote_sequence := remote_sequence self;
     server_hello_event := server_hello_event self |}.

Definition set_mqtt_client (v : option mqtt_client_obj) (self : t) : t :=
  {| base := base self; mqtt_client := v; udp_socket := udp_socket self;
     udp_thread := udp_thread self; udp_running := udp_running self;
     publish_topic := publish_topic self; udp_server := udp_server self;
     udp_port := udp_port self; aes_key := aes_key self; aes_nonce := aes_nonce self;
     local_sequence := local_sequence self; remote_sequence := remote_sequence self;
     server_hello_event := server_hello_event self |}.

Definition set_udp_socket (v : option socket_obj) (self : t) : t :=
  {| base := base self; mqtt_client := mqtt_client self; udp_socket := v;
     udp_thread := udp_thread self; udp_running := udp_running self;
     publish_topic := publish_topic self; udp_server := udp_server self;
     udp_port := udp_port self; aes_key := aes_key self; aes_nonce := aes_nonce self;
     local_sequence := local_sequence self; remote_sequence := remote_sequence self;
     server_hello_event := server_hello_event self |}.

Definition set_udp_thread (v : bool) (self : t) : t :=
  {| base := base self; mqtt_client := mqtt_client self; udp_socket := udp_socket self;
     udp_thread := v; udp_running := udp_running self;
     publish_topic := publish_topic self; udp_server := udp_server self;
     udp_port := udp_port self; aes_key := aes_key self; aes_nonce := aes_nonce self;
     local_sequence := local_sequence self; remote_sequence := remote_sequence self;
     server_hello_event := server_hello_event self |}.

Definition set_udp_running (v : bool) (self : t) : t :=
  {| base := base self; mqtt_client := mqtt_client self; udp_socket := udp_socket self;
     udp_thread := udp_thread self; udp_running := v;
     publish_topic := publish_topic self; udp_server := udp_server self;
     udp_port := udp_port self; aes_key := aes_key self; aes_nonce := aes_nonce self;
     local_sequence := local_sequence self; remote_sequence := remote_sequence self;
     server_hello_event := server_hello_event self |}.

Definition set_udp_server (v : pyval) (self : t) : t :=
  {| base := base self; mqtt_client := mqtt_client self; udp_socket := udp_socket self;
     udp_thread := udp_thread self; udp_running := udp_running self;
     publish_topic := publish_topic self; udp_server := v;
     udp_port := udp_port self; aes_key := aes_key self; aes_nonce := aes_nonce self;
     local_sequence := local_sequence self; remote_sequence := remote_sequence self;
     server_hello_event := server_hello_event self |}.

Definition set_udp_port (v : Z) (self : t) : t :=
  {| base := base self; mqtt_client := mqtt_client self; udp_socket := udp_socket self;
     udp_thread := udp_thread self; udp_running := udp_running self;
     publish_topic := publish_topic self; udp_server := udp_server self;
     udp_port := v; aes_key := aes_key self; aes_nonce := aes_nonce self;
     local_sequence := local_sequence self; remote_sequence := remote_sequence self;
     server_hello_event := server_hello_event self |}.

Definition set_aes_key (v : pyval) (self : t) : t :=
  {| base := base self; mqtt_client := mqtt_client self; udp_socket := udp_socket self;
     udp_thread := udp_thread self; udp_running := udp_running self;
     publish_topic := publish_topic self; udp_server := udp_server self;
     udp_port := udp_port self; aes_key := v; aes_nonce := aes_nonce self;
     local_sequence := local_sequence self; remote_sequence := remote_sequence self;
     server_hello_event := server_hello_event self |}.

Definition set_aes_nonce (v : pyval) (self : t) : t :=
  {| base := base self; mqtt_client := mqtt_client self; udp_socket := udp_socket self;
     udp_thread := udp_thread self; udp_running := udp_running self;
     publish_topic := publish_topic self; udp_server := udp_server self;
     udp_port := udp_port self; aes_key := aes_key self; aes_nonce := v;
     local_sequence := local_sequence self; remote_sequence := remote_sequence self;
     server_hello_event := server_hello_event self |}.

Definition set_local_sequence (v : Z) (self : t) : t :=
  {| base := base self; mqtt_client := mqtt_client self; udp_socket := udp_socket self;
     udp_thread := udp_thread self; udp_running := udp_running self;
     publish_topic := publish_topic self; udp_server := udp_server self;
     udp_port := udp_port self; aes_key := aes_key self; aes_nonce := aes_nonce self;
     local_sequence := v; remote_sequence := remote_sequence self;
     server_hello_event := server_hello_event self |}.

Definition set_server_hello_event (v : bool) (self : t) : t :=
  {| base := base self; mqtt_client := mqtt_client self; udp_socket := udp_socket self;
     udp_thread := udp_thread self; udp_running := udp_running self;
     publish_topic := publish_topic self; udp_server := udp_server self;
     udp_port := udp_port self; aes_key := aes_key self; aes_nonce := aes_nonce self;
     local_sequence := local_sequence self; remote_sequence := remote_sequence self;
     server_hello_event := v |}.

Definition is_some {A} (o : option A) : bool :=
  match o with Some _ => true | None => false end.

(** The client hello [connect] publishes. *)
Definition hello_message (cfg : AudioConfig) : list (string * pyval) :=
  [("type"%string, PStr "hello");
   ("version"%string, PInt 1);
   ("transport"%string, PStr "mqtt");
   ("audio_params"%string,
    PDict [("format"%string, PStr "opus");
           ("sample_rate"%string, PInt (INPUT_SAMPLE_RATE cfg));
           ("channels"%string, PInt (CHANNELS cfg));
           ("frame_duration"%string, PInt (FRAME_DURATION cfg))])].

(** [s[a:b]] for [0 <= a <= b]. *)
Definition slice (a b : nat) (s : pystr) : pystr := firstn (b - a) (skipn a s).

(** [bytes.fromhex(x)] on a field: a [str] is decoded, anything else is a
    [TypeError]. *)
Definition fromhex_field (x : pyval) : outcome bytes :=
  match x with
  | PStr s => fromhex (py s)
  | _ => Raised TypeError
  end.

(** [aes_ctr_encrypt]: [encryptor.update(data) + encryptor.finalize()]. *)
Definition aes_ctr_encrypt (be : backend) (key nonce data : bytes) : outcome bytes :=
  outcome_bind (Cipher_AES_CTR key nonce) (fun '(k, iv) =>
  Returned (ctr_update be k iv 0 data ++ [])).

(** [aes_ctr_decrypt]: [decryptor.update(data) + decryptor.finalize()]. *)
Definition aes_ctr_decrypt (be : backend) (key nonce data : bytes) : outcome bytes :=
  outcome_bind (Cipher_AES_CTR key nonce) (fun '(k, iv) =>
  Returned (ctr_update be k iv 0 data ++ [])).

(** The text [send_audio] builds as [new_nonce]; slicing or concatenating
    anything but a [str] raises. *)
Definition new_nonce (aes_nonce : pyval) (audio_len : nat) (sequence : Z) : outcome pystr :=
  match aes_nonce with
  | PStr s =>
      Returned (slice 0 4 (py s)
                ++ format_hex 4 (Z.of_nat audio_len)
                ++ slice 8 24 (py s)
                ++ format_hex 8 sequence)
  | _ => Raised TypeError
  end.

(** [disconnect]; joining the receive thread is taken to return. *)
Definition disconnect : M t bool :=
  running <- gets udp_running ;;
  when running
    (modify (set_udp_running false) ;;
     th <- gets udp_thread ;;
     when th (emit ThreadJoin)) ;;
  sock <- gets udp_socket ;;
  match sock with
  | Some s =>
      try_finally
        (try_except (emit SocketClose ;; may_raise (sock_close s))
                    (fun _ => emit (Log ERROR)))
        (modify (set_udp_socket None))
  | None => ret tt
  end ;;
  client <- gets mqtt_client ;;
  returned <- match client with
              | Some c =>
                  try_finally
                    (try_except
                       (emit MqttLoopStop ;; may_raise (client_loop_stop c) ;;
                        emit MqttDisconnect ;; may_raise (client_disconnect c) ;;
                        emit (Log INFO) ;;
                        ret None)
                       (fun _ => emit (Log ERROR) ;; ret (Some false)))
                    (modify (set_mqtt_client None))
              | None => ret None
              end ;;
  match returned with
  | Some b => ret b
  | None => ret true
  end.

Definition send_text (message : string) : M t bool :=
  client <- gets mqtt_client ;;
  match client with
  | None => ret false
  | Some c =>
      try_except
        (topic <- gets publish_topic ;;
         emit (MqttPublish topic message) ;;
         lift (client_publish c message))
        (fun e =>
           Protocol._handle_error base e ;;
           raise MessageError)
  end.

Definition send_audio (be : backend) (audio_data : bytes) : M t bool :=
  sock <- gets udp_socket ;;
  server <- gets udp_server ;;
  port <- gets udp_port ;;
  match sock with
  | Some s =>
      if negb (truthy server) || (port =? 0)%Z
      then emit (Log ERROR) ;; ret false
      else
        try_except
          (seq <- gets local_sequence ;;
           modify (set_local_sequence (Z.land (seq + 1) 4294967295)) ;;
           nonce_field <- gets aes_nonce ;;
           sequence <- gets local_sequence ;;
           nonce_text <- lift (new_nonce nonce_field (List.length audio_data) sequence) ;;
           key_field <- gets aes_key ;;
           key <- lift (fromhex_field key_field) ;;
           nonce <- lift (fromhex nonce_text) ;;
           emit (CipherEncrypt key nonce audio_data) ;;
           encrypt_encoded_data <- lift (aes_ctr_encrypt be key nonce audio_data) ;;
           prefix <- lift (fromhex nonce_text) ;;
           let packet := prefix ++ encrypt_encoded_data in
           emit (SocketSendto packet server port) ;;
           may_raise (sock_sendto s packet) ;;
           when (sequence mod 10 =? 0)%Z (emit (Log INFO)) ;;
           ret true)
          (fun e =>
             emit (Log ERROR) ;;
             Protocol._handle_error base e ;;
             ret false)
  | None => emit (Log ERROR) ;; ret false
  end.

Definition close_audio_channel : M t bool := disconnect.

Definition is_audio_channel_opened (self : t) : bool :=
  is_some (udp_socket self) && udp_running self.

(** [_init_udp_socket]; [created] is what [socket.socket(...)] does when it
    is called. Starting the receive thread is taken to succeed. *)
Definition _init_udp_socket (created : outcome socket_obj) : M t unit :=
  try_except
    (old <- gets udp_socket ;;
     match old with
     | Some s => emit SocketClose ;; may_raise (sock_close s)
     | None => ret tt
     end ;;
     emit SocketCreate ;;
     s <- lift created ;;
     modify (set_udp_socket (Some s)) ;;
     modify (set_udp_running true) ;;
     modify (set_udp_thread true) ;;
     emit ThreadStart ;;
     emit (Log INFO))
    (fun _ =>
       emit (Log ERROR) ;;
       slot <- gets (fun self => Protocol._on_network_error (base self)) ;;
       notify slot CallNetworkError).

Definition _handle_server_hello (created : outcome socket_obj)
  (data : list (string * pyval)) : M t unit :=
  try_except
    (let transport := dict_get data "transport" PNone in
     if negb (truthy transport) || negb (str_eqb transport "mqtt")
     then emit (Log ERROR)
     else
       emit (Log INFO) ;;
       modify (fun self =>
         set_base (Protocol.set_session_id (dict_get data "session_id" (PStr "")) (base self)) self) ;;
       let udp_info := dict_get data "udp_audio" (PDict []) in
       host <- lift (py_get udp_info "host" (PStr "")) ;;
       modify (set_udp_server host) ;;
       port_field <- lift (py_get udp_info "port" (PInt 0)) ;;
       port <- lift (py_int port_field) ;;
       modify (set_udp_port port) ;;
       key <- lift (py_get udp_info "aes_key" (PStr "")) ;;
       modify (set_aes_key key) ;;
       nonce <- lift (py_get udp_info "aes_nonce" (PStr "")) ;;
       modify (set_aes_nonce nonce) ;;
       if negb (truthy host && negb (port =? 0)%Z && truthy key && truthy nonce)
       then emit (Log ERROR)
       else
         _init_udp_socket created ;;
         modify (set_server_hello_event true) ;;
         emit EventSet ;;
         slot <- gets (fun self => Protocol._on_audio_channel_opened (base self)) ;;
         notify slot CallAudioChannelOpened ;;
         emit (Log INFO))
    (fun _ =>
       emit (Log ERROR) ;;
       slot <- gets (fun self => Protocol._on_network_error (base self)) ;;
       notify slot CallNetworkError).

(** What one pass of the receive loop gets from [recvfrom]. *)
Inductive received : Type :=
| Datagram (data : bytes)
| Timeout
| Failure (e : exn).

(** The body of the [while] loop of [_udp_receive_thread], for one
    [recvfrom]. [socket.timeout] is passed over; any other exception is
    logged while the thread is meant to run. *)
Definition _udp_receive_once (be : backend) (r : received) : M t unit :=
  emit SocketSettimeout ;;
  match r with
  | Timeout => ret tt
  | Failure _ =>
      running <- gets udp_running ;;
      when running (emit (Log ERROR))
  | Datagram data =>
      try_except
        (if match data with [] => false | _ => true end && (32 <? List.length data)%nat
         then
           let nonce := bytes_hex (firstn 32 data) in
           let encrypted_data := skipn 32 data in
           key_field <- gets aes_key ;;
           key <- lift (fromhex_field key_field) ;;
           nonce_bytes <- lift (fromhex nonce) ;;
           emit (CipherDecrypt key nonce_bytes encrypted_data) ;;
           decrypted_data <- lift (aes_ctr_decrypt be key nonce_bytes encrypted_data) ;;
           slot <- gets (fun self => Protocol._on_incoming_audio (base self)) ;;
           notify slot (CallIncomingAudio decrypted_data)
         else ret tt)
        (fun _ =>
           running <- gets udp_running ;;
           when running (emit (Log ERROR)))
  end.

(** [_udp_receive_thread] over the datagrams, timeouts and failures its
    socket produces: the loop ends when the flag is cleared or the socket
    is gone. *)
Fixpoint _udp_receive_thread_loop (be : backend) (input : list received) : M t unit :=
  match input with
  | [] => ret tt
  | r :: input' =>
      running <- gets udp_running ;;
      sock <- gets udp_socket ;;
      if running && is_some sock
      then _udp_receive_once be r ;; _udp_receive_thread_loop be input'
      else emit (Log INFO)
  end.

Definition _udp_receive_thread (be : backend) (input : list received) : M t unit :=
  emit (Log INFO) ;; _udp_receive_thread_loop be input.

(** [_on_mqtt_message] on a payload that decoded to [data]; the coroutine
    it schedules on the loop is run at once. *)
Definition _on_mqtt_message (created : outcome socket_obj) (data : pyval) : M t unit :=
  try_except
    (message_type <- lift (py_get data "type" (PStr "")) ;;
     if str_eqb message_type "hello"
     then match data with
          | PDict d => _handle_server_hello created d
          | _ => ret tt
          end
     else
       slot <- gets (fun self => Protocol._on_incoming_json (base self)) ;;
       match slot with
       | Some l => try_except (notify slot (CallIncomingJson data))
                              (fun _ => emit (Log ERROR))
       | None => ret tt
       end)
    (fun _ => emit (Log ERROR)).

End MqttProtocol.

(** ** [websocket_protocol.py]: control and audio over one connection *)

Module WebSocketProtocol.

Record t : Type := {
  base : Protocol.t;
  websocket : option ws_obj;
  connected : bool;
  hello_received : option bool
}.

(** The fields as [__init__] leaves them: the event is created by
    [connect], and is [None] until then. *)
Definition __init__ : t :=
  {| base := Protocol.__init__;
     websocket := None;
     connected := false;
     hello_received := None |}.

Definition set_base (v : Protocol.t) (self : t) : t :=
  {| base := v; websocket := websocket self; connected := connected self;
     hello_received := hello_received self |}.

Definition set_websocket (v : option ws_obj) (self : t) : t :=
  {| base := base self; websocket := v; connected := connected self;
     hello_received := hello_received self |}.

Definition set_connected (v : bool) (self : t) : t :=
  {| base := base self; websocket := websocket self; connected := v;
     hello_received := hello_received self |}.

Definition set_hello_received (v : option bool) (self : t) : t :=
  {| base := base self; websocket := websocket self; connected := connected self;
     hello_received := v |}.

(** The client hello [connect] sends. *)
Definition hello_message (cfg : AudioConfig) : list (string * pyval) :=
  [("type"%string, PStr "hello");
   ("version"%string, PInt 1);
   ("transport"%string, PStr "websocket");
   ("audio_params"%string,
    PDict [("format"%string, PStr "opus");
           ("sample_rate"%string, PInt (INPUT_SAMPLE_RATE cfg));
           ("channels"%string, PInt (CHANNELS cfg));
           ("frame_duration"%string, PInt (FRAME_DURATION cfg))])].

Definition disconnect : M t bool :=
  ws <- gets websocket ;;
  returned <- match ws with
              | Some w =>
                  try_finally
                    (try_except
                       (emit WsClose ;; may_raise (ws_close w) ;;
                        emit (Log INFO) ;;
                        ret None)
                       (fun _ => emit (Log ERROR) ;; ret (Some false)))
                    (modify (set_websocket None) ;; modify (set_connected false))
              | None => ret None
              end ;;
  match returned with
  | Some b => ret b
  | None => ret true
  end.

Definition close_audio_channel : M t bool := disconnect.

Definition send_audio (audio_data : bytes) : M t bool :=
  ws <- gets websocket ;;
  conn <- gets connected ;;
  match ws with
  | Some w =>
      if negb conn then ret false
      else
        try_except
          (emit (WsSend (WsBinary audio_data)) ;;
           may_raise (ws_send w (WsBinary audio_data)) ;;
           ret true)
          (fun e =>
             Protocol._handle_error base e ;;
             raise MessageError)
  | None => ret false
  end.

Definition send_text (message : string) : M t bool :=
  ws <- gets websocket ;;
  match ws with
  | Some w =>
      try_except
        (emit (WsSend (WsText message)) ;;
         may_raise (ws_send w (WsText message)) ;;
         ret true)
        (fun e =>
           close_audio_channel ;;
           Protocol._handle_error base e ;;
           raise MessageError)
  | None => ret false
  end.

Definition is_audio_channel_opened (self : t) : bool :=
  match websocket self with Some _ => connected self | None => false end.

Definition _handle_server_hello (data : list (string * pyval)) : M t unit :=
  try_except
    (let transport := dict_get data "transport" PNone in
     if negb (truthy transport) || negb (str_eqb transport "websocket")
     then emit (Log ERROR)
     else
       emit (Log INFO) ;;
       modify (fun self =>
         set_base (Protocol.set_session_id (dict_get data "session_id" (PStr "")) (base self)) self) ;;
       ev <- gets hello_received ;;
       match ev with
       | Some _ => modify (set_hello_received (Some true)) ;; emit EventSet
       | None => raise AttributeError
       end ;;
       slot <- gets (fun self => Protocol._on_audio_channel_opened (base self)) ;;
       notify slot CallAudioChannelOpened ;;
       emit (Log INFO))
    (fun _ =>
       emit (Log ERROR) ;;
       slot <- gets (fun self => Protocol._on_network_error (base self)) ;;
       notify slot CallNetworkError).

(** A frame of the connection: text, with what [json.loads] makes of it
    ([None] when it raises), or binary. *)
Inductive frame : Type :=
| TextFrame (parsed : option pyval)
| BinaryFrame (b : bytes).

(** The body of the [async for] of [_message_handler], for one frame. *)
Definition _message_handler_once (message : frame) : M t unit :=
  try_except
    (match message with
     | TextFrame None => raise ValueError
     | TextFrame (Some data) =>
         message_type <- lift (py_get data "type" (PStr "")) ;;
         if str_eqb message_type "hello"
         then match data with
              | PDict d => _handle_server_hello d
              | _ => ret tt
              end
         else
           slot <- gets (fun self => Protocol._on_incoming_json (base self)) ;;
           notify slot (CallIncomingJson data)
     | BinaryFrame b =>
         slot <- gets (fun self => Protocol._on_incoming_audio (base self)) ;;
         notify slot (CallIncomingAudio b)
     end)
    (fun _ => emit (Log ERROR)).

End WebSocketProtocol.

(** ** Library calls of the envelopes and of [connect] *)

(** [json.dumps] and [json.loads], by what they return or raise. *)
Record json_module : Type := {
  dumps : pyval -> outcome string;
  loads : string -> outcome pyval
}.

(** [f'{prefix}{v}']: a [str] is inserted as it is; [text_of] is [str] on
    the other values. *)
Definition fstring (text_of : pyval -> string) (prefix : string) (v : pyval) : pyval :=
  PStr (prefix ++ match v with PStr s => s | _ => text_of v end).

(** [s.split(sep)] for a separator of one character: the pieces between
    the separators, at least one. *)
Fixpoint split (sep : ascii) (s : pystr) : list pystr :=
  match s with
  | [] => [[]]
  | c :: s' =>
      if Ascii.eqb c sep then [] :: split sep s'
      else match split sep s' with
           | piece :: pieces => (c :: piece) :: pieces
           | [] => [[c]]
           end
  end.

(** [x.split(":")] on a field: only a [str] has [split]. *)
Definition split_field (x : pyval) : outcome (list pystr) :=
  match x with
  | PStr s => Returned (split ":" (py s))
  | _ => Raised AttributeError
  end.

(** An exception that leaves a task or a callback run by another thread
    stays there: the code that scheduled it goes on. *)
Definition task {S} (m : M S unit) : M S unit :=
  try_except m (fun _ => ret tt).

(** ** [protocol.py]: the envelopes

    The enumerations come from [src/constants/constants.py]: the reason
    [send_abort_speaking] tests for and the three modes [send_start_listening]
    maps. A mode that is none of the three is outside the embedding. *)

Inductive AbortReason : Type :=
| WAKE_WORD_DETECTED
| OtherReason (name : string).

Inductive ListeningMode : Type :=
| ALWAYS_ON
| AUTO_STOP
| MANUAL.

Module Envelopes.

(** What a transport supplies to the base class: the inherited fields and
    its [send_text]. *)
Class Transport (S : Type) : Type := {
  inherited : S -> Protocol.t;
  send_text : string -> M S bool
}.

Section Senders.

Context {S : Type} {transport : Transport S} (json : json_module).

Definition session_id : M S pyval :=
  gets (fun self => Protocol.session_id (inherited self)).

Definition send_abort_speaking (reason : AbortReason) : M S bool :=
  sid <- session_id ;;
  let message := [("session_id"%string, sid); ("type"%string, PStr "abort")] in
  let message :=
    match reason with
    | WAKE_WORD_DETECTED => message ++ [("reason"%string, PStr "wake_word_detected")]
    | OtherReason _ => message
    end in
  text <- lift (dumps json (PDict message)) ;;
  send_text text.

Definition send_wake_word_detected (wake_word : pyval) : M S unit :=
  sid <- session_id ;;
  let message := [("session_id"%string, sid);
                  ("type"%string, PStr "listen");
                  ("state"%string, PStr "detect");
                  ("text"%string, wake_word)] in
  text <- lift (dumps json (PDict message)) ;;
  send_text text ;;
  ret tt.

Definition mode_map (mode : ListeningMode) : pyval :=
  match mode with
  | ALWAYS_ON => PStr "realtime"
  | AUTO_STOP => PStr "auto"
  | MANUAL => PStr "manual"
  end.

Definition send_start_listening (mode : ListeningMode) : M S unit :=
  sid <- session_id ;;
  let message := [("session_id"%string, sid);
                  ("type"%string, PStr "listen");
                  ("state"%string, PStr "start");
                  ("mode"%string, mode_map mode)] in
  text <- lift (dumps json (PDict message)) ;;
  send_text text ;;
  ret tt.

Definition send_stop_listening : M S unit :=
  sid <- session_id ;;
  let message := [("session_id"%string, sid);
                  ("type"%string, PStr "listen");
                  ("state"%string, PStr "stop")] in
  text <- lift (dumps json (PDict message)) ;;
  send_text text ;;
  ret tt.

(** [json.loads(x) if isinstance(x, str) else x]. *)
Definition parsed (x : pyval) : M S pyval :=
  match x with
  | PStr s => lift (loads json s)
  | _ => ret x
  end.

Definition send_iot_descriptors (descriptors : pyval) : M S unit :=
  sid <- session_id ;;
  value <- parsed descriptors ;;
  let message := [("session_id"%string, sid);
                  ("type"%string, PStr "iot");
                  ("descriptors"%string, value)] in
  text <- lift (dumps json (PDict message)) ;;
  send_text text ;;
  ret tt.

Definition send_iot_states (states : pyval) : M S unit :=
  sid <- session_id ;;
  value <- parsed states ;;
  let message := [("session_id"%string, sid);
                  ("type"%string, PStr "iot");
                  ("states"%string, value)] in
  text <- lift (dumps json (PDict message)) ;;
  send_text text ;;
  ret tt.

End Senders.

End Envelopes.

#[export] Instance mqtt_transport : Envelopes.Transport MqttProtocol.t :=
  {| Envelopes.inherited := MqttProtocol.base;
     Envelopes.send_text := MqttProtocol.send_text |}.

#[export] Instance websocket_transport : Envelopes.Transport WebSocketProtocol.t :=
  {| Envelopes.inherited := WebSocketProtocol.base;
     Envelopes.send_text := WebSocketProtocol.send_text |}.

(** ** [mqtt_protocol.py]: connecting, and the callbacks of the MQTT client *)

Module MqttSetup.

(** The whole object: the fields above and those only [connect] and the
    client callbacks use. *)
Record t : Type := {
  protocol : MqttProtocol.t;
  endpoint : pyval;
  client_id : pyval;
  username : pyval;
  password : pyval;
  subscribe_topic : pyval
}.

Definition __init__ : t :=
  {| protocol := MqttProtocol.__init__;
     endpoint := PNone;
     client_id := PNone;
     username := PNone;
     password := PNone;
     subscribe_topic := PNone |}.

Definition set_protocol (v : MqttProtocol.t) (self : t) : t :=
  {| protocol := v; endpoint := endpoint self; client_id := client_id self;
     username := username self; password := password self;
     subscribe_topic := subscribe_topic self |}.

Definition set_endpoint (v : pyval) (self : t) : t :=
  {| protocol := protocol self; endpoint := v; client_id := client_id self;
     username := username self; password := password self;
     subscribe_topic := subscribe_topic self |}.

Definition set_client_id (v : pyval) (self : t) : t :=
  {| protocol := protocol self; endpoint := endpoint self; client_id := v;
     username := username self; password := password self;
     subscribe_topic := subscribe_topic self |}.

Definition set_username (v : pyval) (self : t) : t :=
  {| protocol := protocol self; endpoint := endpoint self; client_id := client_id self;
     username := v; password := password self;
     subscribe_topic := subscribe_topic self |}.

Definition set_password (v : pyval) (self : t) : t :=
  {| protocol := protocol self; endpoint := endpoint self; client_id := client_id self;
     username := username self; password := v;
     subscribe_topic := subscribe_topic self |}.

Definition set_subscribe_topic (v : pyval) (self : t) : t :=
  {| protocol := protocol self; endpoint := endpoint self; client_id := client_id self;
     username := username self; password := password self;
     subscribe_topic := v |}.

Definition set_publish_topic (v : pyval) (p : MqttProtocol.t) : MqttProtocol.t :=
  {| MqttProtocol.base := MqttProtocol.base p;
     MqttProtocol.mqtt_client := MqttProtocol.mqtt_client p;
     MqttProtocol.udp_socket := MqttProtocol.udp_socket p;
     MqttProtocol.udp_thread := MqttProtocol.udp_thread p;
     MqttProtocol.udp_running := MqttProtocol.udp_running p;
     MqttProtocol.publish_topic := v;
     MqttProtocol.udp_server := MqttProtocol.udp_server p;
     MqttProtocol.udp_port := MqttProtocol.udp_port p;
     MqttProtocol.aes_key := MqttProtocol.aes_key p;
     MqttProtocol.aes_nonce := MqttProtocol.aes_nonce p;
     MqttProtocol.local_sequence := MqttProtocol.local_sequence p;
     MqttProtocol.remote_sequence := MqttProtocol.remote_sequence p;
     MqttProtocol.server_hello_event := MqttProtocol.server_hello_event p |}.

(** A method of the part above, run on the whole object. *)
Definition on_protocol {A} (m : M MqttProtocol.t A) : M t A :=
  fun self =>
    let '(r, p, calls) := m (protocol self) in (r, set_protocol p self, calls).

Definition on_network_error : M t (option listener) :=
  gets (fun self => Protocol._on_network_error (MqttProtocol.base (protocol self))).

(** The paho library: what [mqtt.Client(client_id=...)] returns or raises,
    and what the calls made on the client during the set-up do. *)
Record paho : Type := {
  Client : pyval -> outcome mqtt_client_obj;
  username_pw_set : pyval -> pyval -> option exn;
  client_connect : pystr -> Z -> option exn;
  loop_start : option exn;
  subscribe : pyval -> option exn
}.

(** [_run_callback]: an empty slot is skipped, what the callback raises is
    logged. *)
Definition _run_callback {S} (callback : option listener) (call : action) : M S unit :=
  match callback with
  | Some l =>
      try_except (emit call ;; may_raise (listener_raises l))
                 (fun _ => emit (Log ERROR))
  | None => ret tt
  end.

Definition _on_mqtt_connect (lib : paho) (rc : Z) : M t unit :=
  if (rc =? 0)%Z
  then
    emit (Log INFO) ;;
    topic <- gets subscribe_topic ;;
    may_raise (subscribe lib topic)
  else
    emit (Log ERROR) ;;
    slot <- on_network_error ;;
    when (MqttProtocol.is_some slot) (_run_callback slot CallNetworkError).

Definition _on_mqtt_disconnect (rc : Z) : M t unit :=
  emit (Log INFO) ;;
  slot <- on_network_error ;;
  when (MqttProtocol.is_some slot && negb (rc =? 0)%Z)
       (_run_callback slot CallNetworkError).

(** [_on_mqtt_message] from the payload on: [parsed] is what decoding it
    and [json.loads] make of it, [None] when either raises. *)
Definition _on_mqtt_message (created : outcome socket_obj) (parsed : option pyval)
  : M t unit :=
  match parsed with
  | Some data => on_protocol (MqttProtocol._on_mqtt_message created data)
  | None => emit (Log ERROR)
  end.

(** What the client's thread brings in while [connect] waits. *)
Inductive delivery : Type :=
| Connack (rc : Z)
| Message (created : outcome socket_obj) (parsed : option pyval)
| Disconnected (rc : Z).

Definition deliver (lib : paho) (d : delivery) : M t unit :=
  task match d with
       | Connack rc => _on_mqtt_connect lib rc
       | Message created parsed => _on_mqtt_message created parsed
       | Disconnected rc => _on_mqtt_disconnect rc
       end.

Fixpoint deliver_all (lib : paho) (ds : list delivery) : M t unit :=
  match ds with
  | [] => ret tt
  | d :: ds' => deliver lib d ;; deliver_all lib ds'
  end.

Section Connect.

Variables (cfg : AudioConfig) (json : json_module) (lib : paho)
          (text_of : pyval -> string).

(** [connect]. [mqtt_info] is what the configuration holds under
    [MQTT_INFO]; [deliveries] is what the client's thread brings in during
    the ten seconds [connect] waits for the server hello. The wait ends
    well when the event is set by then, and times out otherwise. *)
Definition connect (mqtt_info : pyval) (deliveries : list delivery) : M t bool :=
  try_except
    (if negb (truthy mqtt_info) then raise ConnectionError
     else
       v <- lift (py_get mqtt_info "endpoint" PNone) ;;
       modify (set_endpoint v) ;;
       v <- lift (py_get mqtt_info "client_id" PNone) ;;
       modify (set_client_id v) ;;
       v <- lift (py_get mqtt_info "username" PNone) ;;
       modify (set_username v) ;;
       v <- lift (py_get mqtt_info "password" PNone) ;;
       modify (set_password v) ;;
       id <- gets client_id ;;
       modify (fun self =>
         set_protocol (set_publish_topic (fstring text_of "from_device/" id)
                                         (protocol self)) self) ;;
       modify (set_subscribe_topic (fstring text_of "to_device/" id)) ;;
       address <- gets endpoint ;;
       user <- gets username ;;
       secret <- gets password ;;
       if negb (truthy address && truthy id && truthy user && truthy secret)
       then raise ConnectionError
       else
         client <- lift (Client lib id) ;;
         modify (fun self =>
           set_protocol (MqttProtocol.set_mqtt_client (Some client) (protocol self))
                        self) ;;
         may_raise (username_pw_set lib user secret) ;;
         pieces <- lift (split_field address) ;;
         match pieces with
         | [host; port_text] =>
             port <- lift (int_of_str port_text) ;;
             emit (Log INFO) ;;
             may_raise (client_connect lib host port) ;;
             may_raise (loop_start lib) ;;
             text <- lift (dumps json (PDict (MqttProtocol.hello_message cfg))) ;;
             success <- on_protocol (MqttProtocol.send_text text) ;;
             if negb success then raise ConnectionError
             else
               deliver_all lib deliveries ;;
               set <- gets (fun self => MqttProtocol.server_hello_event (protocol self)) ;;
               if set
               then emit (Log INFO) ;; ret true
               else
                 emit (Log ERROR) ;;
                 on_protocol MqttProtocol.disconnect ;;
                 raise ConnectionError
         | _ => raise ValueError
         end)
    (fun _ =>
       emit (Log ERROR) ;;
       on_protocol MqttProtocol.disconnect ;;
       raise ConnectionError).

Definition open_audio_channel (mqtt_info : pyval) (deliveries : list delivery)
  : M t bool :=
  client <- gets (fun self => MqttProtocol.mqtt_client (protocol self)) ;;
  if MqttProtocol.is_some client then ret true
  else connect mqtt_info deliveries.

End Connect.

End MqttSetup.

(** ** [websocket_protocol.py]: connecting, and the message loop *)

Module WebSocketSetup.

(** The values [__init__] reads from the configuration. *)
Record settings : Type := {
  websocket_url : pyval;
  access_token : pyval;
  client_id : pyval;
  device_id : pyval
}.

(** [websockets.connect], called with [additional_headers] and with
    [extra_headers]: the connection, or what it raises. *)
Record websockets_module : Type := {
  connect_additional_headers : pyval -> pyval -> outcome ws_obj;
  connect_extra_headers : pyval -> pyval -> outcome ws_obj
}.

(** How the iteration over the connection ends: the connection was closed
    in order, [websockets.ConnectionClosed] was raised, or another
    exception was. *)
Inductive stream_end : Type :=
| Exhausted
| ConnectionClosed
| Broken (e : exn).

(** The [async for] of [_message_handler] over the frames that arrive. *)
Fixpoint message_loop (frames : list WebSocketProtocol.frame) : M WebSocketProtocol.t unit :=
  match frames with
  | [] => ret tt
  | message :: frames' =>
      WebSocketProtocol._message_handler_once message ;; message_loop frames'
  end.

(** [_message_handler] over the [frames] of the connection; [ending] is
    how the iteration ends, [None] while it still waits for a frame. *)
Definition _message_handler (frames : list WebSocketProtocol.frame) (ending : option stream_end)
  : M WebSocketProtocol.t unit :=
  ws <- gets WebSocketProtocol.websocket ;;
  match ws with
  | None => ret tt
  | Some _ =>
      match ending with
      | None => message_loop frames
      | Some e =>
          try_finally
            (message_loop frames ;;
             match e with
             | Exhausted => ret tt
             | ConnectionClosed => emit (Log INFO)
             | Broken _ => emit (Log ERROR)
             end)
            (modify (WebSocketProtocol.set_connected false) ;;
             slot <- gets (fun self =>
                       Protocol._on_network_error (WebSocketProtocol.base self)) ;;
             notify slot CallNetworkError)
      end
  end.

Section Connect.

Variables (cfg : AudioConfig) (json : json_module) (lib : websockets_module)
          (text_of : pyval -> string) (config : settings).

Definition headers : pyval :=
  PDict [("Authorization"%string, fstring text_of "Bearer " (access_token config));
         ("Protocol-Version"%string, PStr "1");
         ("Device-Id"%string, device_id config);
         ("Client-Id"%string, client_id config)].

(** [connect]. [frames] and [ending] are what the connection brings in
    during the ten seconds [connect] waits for the server hello, handled by
    the task [connect] created. *)
Definition connect (frames : list WebSocketProtocol.frame) (ending : option stream_end)
  : M WebSocketProtocol.t bool :=
  try_except
    (modify (WebSocketProtocol.set_hello_received (Some false)) ;;
     ws <- try_except
             (lift (connect_additional_headers lib (websocket_url config) headers))
             (fun e =>
                match e with
                | TypeError =>
                    lift (connect_extra_headers lib (websocket_url config) headers)
                | _ => raise e
                end) ;;
     modify (WebSocketProtocol.set_websocket (Some ws)) ;;
     text <- lift (dumps json (PDict (WebSocketProtocol.hello_message cfg))) ;;
     WebSocketProtocol.send_text text ;;
     task (_message_handler frames ending) ;;
     event <- gets WebSocketProtocol.hello_received ;;
     match event with
     | Some true =>
         modify (WebSocketProtocol.set_connected true) ;;
         emit (Log INFO) ;;
         ret true
     | _ =>
         emit (Log ERROR) ;;
         WebSocketProtocol.disconnect ;;
         raise ConnectionError
     end)
    (fun _ =>
       emit (Log ERROR) ;;
       WebSocketProtocol.disconnect ;;
       raise ConnectionError).

Definition open_audio_channel (frames : list WebSocketProtocol.frame) (ending : option stream_end)
  : M WebSocketProtocol.t bool :=
  conn <- gets WebSocketProtocol.connected ;;
  if negb conn then connect frames ending else ret true.

End Connect.

End WebSocketSetup.

(** * Vocabulary of the statements

    What the statements below say about the programs above: the sizes the
    cipher accepts, the calls of a session, and a session to run the
    definitions on. *)

Definition is_hex (c : ascii) : bool :=
  match hex_value c with Some _ => true | None => false end.

(** The key sizes the cipher accepts in counter mode. *)
Definition aes_key_size (key : bytes) : Prop :=
  List.length key = 16%nat \/ List.length key = 24%nat \/ List.length key = 32%nat.

(** What the [except] clause of [send_audio] leaves after the calls [made]
    in the [try] block: the error is logged twice, the network-error
    listener is told, and the method returns [False] unless that listener
    raises. *)
Definition send_audio_failed (self : MqttProtocol.t) (made : list action)
  : outcome bool * MqttProtocol.t * list action :=
  match Protocol._on_network_error (MqttProtocol.base self) with
  | None => (Returned false, self, made ++ [Log ERROR; Log ERROR])
  | Some l =>
      match listener_raises l with
      | None => (Returned false, self, made ++ [Log ERROR; Log ERROR; CallNetworkError])
      | Some e => (Raised e, self, made ++ [Log ERROR; Log ERROR; CallNetworkError])
      end
  end.

(** A base nonce from which [send_audio] can cut its two segments: at least
    24 characters, hexadecimal digits at positions 0..3 and 8..23. *)
Definition hex_template (s : string) : bool :=
  (24 <=? List.length (py s))%nat
  && forallb is_hex (MqttProtocol.slice 0 4 (py s))
  && forallb is_hex (MqttProtocol.slice 8 24 (py s)).

(** The field [k] of the [udp_audio] object of a server hello, if there is
    one. *)
Definition hello_field (data : list (string * pyval)) (k : string) : option pyval :=
  match dict_lookup data "udp_audio" with
  | Some (PDict info) => dict_lookup info k
  | _ => None
  end.

(** Missing, or present with a value Python takes for false. *)
Definition missing_or_empty (v : option pyval) : bool :=
  match v with
  | Some x => negb (truthy x)
  | None => true
  end.

(** What a hello that stops short of the datagram channel may call. *)
Definition quiet (a : action) : Prop :=
  a = Log INFO \/ a = Log ERROR \/ a = CallNetworkError.

(** What such a hello leaves untouched. *)
Definition same_channel (self self' : MqttProtocol.t) : Prop :=
  MqttProtocol.server_hello_event self' = MqttProtocol.server_hello_event self /\
  MqttProtocol.udp_socket self' = MqttProtocol.udp_socket self /\
  MqttProtocol.udp_running self' = MqttProtocol.udp_running self /\
  MqttProtocol.udp_thread self' = MqttProtocol.udp_thread self /\
  MqttProtocol.mqtt_client self' = MqttProtocol.mqtt_client self /\
  MqttProtocol.local_sequence self' = MqttProtocol.local_sequence self.

(** The network-error listener, if any, returns. *)
Definition listener_returns (slot : option listener) : Prop :=
  match slot with
  | Some l => listener_raises l = None
  | None => True
  end.

Definition failing_client : mqtt_client_obj :=
  {| client_publish := fun _ => Returned true;
     client_loop_stop := None;
     client_disconnect := Some OSError |}.

Definition preserves {S A X} (proj : S -> X) (m : M S A) : Prop :=
  forall s, proj (state_of (m s)) = proj s.

(** The calls that reach an [MqttProtocol] object: by the application, by
    the MQTT client's thread, and by the receive thread with what its socket
    produced. *)
Inductive call : Type :=
| Disconnect
| CloseAudioChannel
| SendText (message : string)
| SendAudio (audio_data : bytes)
| ServerHello (created : outcome socket_obj) (data : list (string * pyval))
| MqttMessage (created : outcome socket_obj) (data : pyval)
| Receive (input : list MqttProtocol.received)
| SetCallbacks (on_json on_audio on_audio_channel_opened on_audio_channel_closed
                on_network_error on_audio_config_changed : option listener).

(** The fields after a call, whether it returned or raised. *)
Definition perform (be : backend) (c : call) (self : MqttProtocol.t) : MqttProtocol.t :=
  match c with
  | Disconnect => state_of (MqttProtocol.disconnect self)
  | CloseAudioChannel => state_of (MqttProtocol.close_audio_channel self)
  | SendText message => state_of (MqttProtocol.send_text message self)
  | SendAudio audio_data => state_of (MqttProtocol.send_audio be audio_data self)
  | ServerHello created data =>
      state_of (MqttProtocol._handle_server_hello created data self)
  | MqttMessage created data =>
      state_of (MqttProtocol._on_mqtt_message created data self)
  | Receive input => state_of (MqttProtocol._udp_receive_thread be input self)
  | SetCallbacks j a o c e g =>
      MqttProtocol.set_base
        (Protocol.set_callbacks j a o c e g (MqttProtocol.base self)) self
  end.

(** The call is a [send_audio] that gets past the guard on the datagram
    channel, into the [try] block that builds the packet. *)
Definition builds_packet (c : call) (self : MqttProtocol.t) : bool :=
  match c with
  | SendAudio _ =>
      MqttProtocol.is_some (MqttProtocol.udp_socket self)
      && negb (negb (truthy (MqttProtocol.udp_server self))
               || (MqttProtocol.udp_port self =? 0)%Z)
  | _ => false
  end.

Fixpoint perform_all (be : backend) (cs : list call) (self : MqttProtocol.t)
  : MqttProtocol.t :=
  match cs with
  | [] => self
  | c :: cs' => perform_all be cs' (perform be c self)
  end.

Fixpoint packets_built (be : backend) (cs : list call) (self : MqttProtocol.t) : nat :=
  match cs with
  | [] => 0
  | c :: cs' =>
      (if builds_packet c self then 1 else 0)
      + packets_built be cs' (perform be c self)
  end.

Definition demo_socket : socket_obj :=
  {| sock_close := None; sock_sendto := fun _ => None |}.

(** A socket whose [sendto] fails. *)
Definition dead_socket : socket_obj :=
  {| sock_close := None; sock_sendto := fun _ => Some OSError |}.

Definition demo_hello : list (string * pyval) :=
  [("type"%string, PStr "hello");
   ("transport"%string, PStr "mqtt");
   ("session_id"%string, PStr "s-1");
   ("udp_audio"%string,
    PDict [("host"%string, PStr "10.0.0.7");
           ("port"%string, PInt 8884);
           ("aes_key"%string, PStr "000102030405060708090a0b0c0d0e0f");
           ("aes_nonce"%string, PStr "01000000a1a2a3a4a5a6a7a800000000")])].

(** The fields after that hello reached a new object. *)
Definition demo_session : MqttProtocol.t :=
  state_of (MqttProtocol._handle_server_hello (Returned demo_socket) demo_hello
              MqttProtocol.__init__).

Definition demo_audio : bytes := [x10; x20; x30].

Definition demo_key : bytes :=
  [x00; x01; x02; x03; x04; x05; x06; x07; x08; x09; x0a; x0b; x0c; x0d; x0e; x0f].

Definition demo_nonce : bytes :=
  [x01; x00; x00; x03; xa1; xa2; xa3; xa4; xa5; xa6; xa7; xa8; x00; x00; x00; x01].

Definition demo_packet : bytes := demo_nonce ++ [x51; xe6; x2c].

(** A hello that names the transport and nothing else. *)
Definition bare_hello : list (string * pyval) :=
  [("type"%string, PStr "hello");
   ("transport"%string, PStr "mqtt");
   ("session_id"%string, PStr "s-2")].

Definition demo_config : AudioConfig :=
  {| INPUT_SAMPLE_RATE := 16000; CHANNELS := 1; FRAME_DURATION := 60 |}.

(** ** Vocabulary of the further properties *)

(** Every call the computation makes satisfies [P]. *)
Definition calls_only {S A} (P : action -> Prop) (m : M S A) : Prop :=
  forall s a, In a (trace_of (m s)) -> P a.

(** Every exception the computation lets out satisfies [E]. *)
Definition raises_only {S A} (E : exn -> Prop) (m : M S A) : Prop :=
  forall s e, result_of (m s) = Raised e -> E e.

Definition never_raises {S A} (m : M S A) : Prop :=
  raises_only (fun _ => False) m.

(** Every value the computation returns is [v]. *)
Definition returns_only {S A} (v : A) (m : M S A) : Prop :=
  forall s a, result_of (m s) = Returned a -> a = v.

(** The computation leaves [P] true of the fields when it was. *)
Definition keeps {S A} (P : S -> Prop) (m : M S A) : Prop :=
  forall s, P s -> P (state_of (m s)).

(** The result and the fields a computation leaves, started on [s],
    satisfy [Q]. *)
Definition leaves {S A} (m : M S A) (Q : outcome A -> S -> Prop) (s : S) : Prop :=
  Q (result_of (m s)) (state_of (m s)).

(** What [_init_udp_socket] and a complete hello leave when the socket [s]
    was created. *)
Definition channel_opened (s : socket_obj) (self : MqttProtocol.t) : MqttProtocol.t :=
  MqttProtocol.set_udp_thread true
    (MqttProtocol.set_udp_running true
       (MqttProtocol.set_udp_socket (Some s) self)).

(** A server hello for the MQTT transport whose [udp_audio] object [info]
    names a host, a port that [int] turns into [port], a key and a base
    nonce, none of them empty. *)
Definition complete_hello (data info : list (string * pyval)) (port : Z) : Prop :=
  dict_get data "transport" PNone = PStr "mqtt" /\
  dict_get data "udp_audio" (PDict []) = PDict info /\
  truthy (dict_get info "host" (PStr "")) = true /\
  py_int (dict_get info "port" (PInt 0)) = Returned port /\
  port <> 0%Z /\
  truthy (dict_get info "aes_key" (PStr "")) = true /\
  truthy (dict_get info "aes_nonce" (PStr "")) = true.

(** The fields a hello with the MQTT tag stores before it looks at them. *)
Definition hello_stored (data info : list (string * pyval)) (port : Z)
  (self : MqttProtocol.t) : MqttProtocol.t :=
  MqttProtocol.set_aes_nonce (dict_get info "aes_nonce" (PStr ""))
    (MqttProtocol.set_aes_key (dict_get info "aes_key" (PStr ""))
       (MqttProtocol.set_udp_port port
          (MqttProtocol.set_udp_server (dict_get info "host" (PStr ""))
             (MqttProtocol.set_base
                (Protocol.set_session_id (dict_get data "session_id" (PStr ""))
                   (MqttProtocol.base self)) self)))).

(** What reaches the caller of a send method whose [except] clause ran: what
    the network-error listener raised, if it did, and [otherwise] if it
    returned or none is registered. *)
Definition after_error_listener {A} (slot : option listener) (otherwise : outcome A)
  : outcome A :=
  match slot with
  | Some {| listener_raises := Some e |} => Raised e
  | _ => otherwise
  end.

(** The payloads handed to the incoming-audio listener, in order. *)
Definition audio_calls (calls : list action) : list bytes :=
  flat_map (fun a => match a with CallIncomingAudio b => [b] | _ => [] end) calls.

(** The messages handed to the incoming-JSON listener, in order. *)
Definition json_calls (calls : list action) : list pyval :=
  flat_map (fun a => match a with CallIncomingJson data => [data] | _ => [] end) calls.

(** The payloads of the binary frames, in order. *)
Definition binary_frames (frames : list WebSocketProtocol.frame) : list bytes :=
  flat_map (fun f => match f with
                     | WebSocketProtocol.BinaryFrame b => [b]
                     | _ => []
                     end) frames.

(** The text frames that hold a JSON object whose [type] is not [hello],
    in order. *)
Definition json_frames (frames : list WebSocketProtocol.frame) : list pyval :=
  flat_map (fun f => match f with
                     | WebSocketProtocol.TextFrame (Some (PDict d)) =>
                         if str_eqb (dict_get d "type" (PStr "")) "hello"
                         then []
                         else [PDict d]
                     | _ => []
                     end) frames.

(** The listeners of a WebSocket transport. *)
Definition ws_listeners (self : WebSocketProtocol.t)
  : option listener * option listener * option listener :=
  (Protocol._on_incoming_json (WebSocketProtocol.base self),
   Protocol._on_incoming_audio (WebSocketProtocol.base self),
   Protocol._on_network_error (WebSocketProtocol.base self)).

(** The five envelopes whose method returns nothing. *)
Inductive notification : Type :=
| WakeWordDetected (wake_word : pyval)
| StartListening (mode : ListeningMode)
| StopListening
| IotDescriptors (descriptors : pyval)
| IotStates (states : pyval).

Definition send_notification {S} {transport : Envelopes.Transport S}
  (json : json_module) (n : notification) : M S unit :=
  match n with
  | WakeWordDetected wake_word => Envelopes.send_wake_word_detected json wake_word
  | StartListening mode => Envelopes.send_start_listening json mode
  | StopListening => Envelopes.send_stop_listening json
  | IotDescriptors descriptors => Envelopes.send_iot_descriptors json descriptors
  | IotStates states => Envelopes.send_iot_states json states
  end.

(** [json.loads] accepts the text the notification was given, if it was
    given one. *)
Definition parses (json : json_module) (n : notification) : Prop :=
  match n with
  | IotDescriptors (PStr s) | IotStates (PStr s) => exists v, loads json s = Returned v
  | _ => True
  end.

(** The configuration is an object that holds the four values [connect]
    asks for, none of them empty. *)
Definition complete_configuration (mqtt_info : pyval) : bool :=
  match mqtt_info with
  | PDict d =>
      truthy (dict_get d "endpoint" PNone) && truthy (dict_get d "client_id" PNone)
      && truthy (dict_get d "username" PNone) && truthy (dict_get d "password" PNone)
  | _ => false
  end.

(** The fields once [connect] has copied the configuration [d]. *)
Definition configured (text_of : pyval -> string) (d : list (string * pyval))
  (self : MqttSetup.t) : MqttSetup.t :=
  let id := dict_get d "client_id" PNone in
  MqttSetup.set_subscribe_topic (fstring text_of "to_device/" id)
    (MqttSetup.set_protocol
       (MqttSetup.set_publish_topic (fstring text_of "from_device/" id)
          (MqttSetup.protocol self))
       (MqttSetup.set_password (dict_get d "password" PNone)
          (MqttSetup.set_username (dict_get d "username" PNone)
             (MqttSetup.set_client_id id
                (MqttSetup.set_endpoint (dict_get d "endpoint" PNone) self))))).

(** The [except] clause of [connect]. *)
Definition connect_failed : M MqttSetup.t bool :=
  emit (Log ERROR) ;;
  MqttSetup.on_protocol MqttProtocol.disconnect ;;
  raise ConnectionError.

(** The configuration [d] is complete and its endpoint reads [host:port];
    the client is created, configured, connected and started; the client
    hello is encoded as [text] and its publication is confirmed. *)
Definition broker_accepts (cfg : AudioConfig) (json : json_module)
  (lib : MqttSetup.paho) (d : list (string * pyval)) (client : mqtt_client_obj)
  (text : string) : Prop :=
  exists address host port_text port,
    dict_get d "endpoint" PNone = PStr address /\
    split ":" (py address) = [host; port_text] /\
    int_of_str port_text = Returned port /\
    truthy (dict_get d "client_id" PNone) = true /\
    truthy (dict_get d "username" PNone) = true /\
    truthy (dict_get d "password" PNone) = true /\
    MqttSetup.Client lib (dict_get d "client_id" PNone) = Returned client /\
    MqttSetup.username_pw_set lib (dict_get d "username" PNone)
      (dict_get d "password" PNone) = None /\
    MqttSetup.client_connect lib host port = None /\
    MqttSetup.loop_start lib = None /\
    dumps json (PDict (MqttProtocol.hello_message cfg)) = Returned text /\
    client_publish client text = Returned true.

(** The fields when [connect] starts to wait for the server hello. *)
Definition waiting (text_of : pyval -> string) (d : list (string * pyval))
  (client : mqtt_client_obj) (self : MqttSetup.t) : MqttSetup.t :=
  let copied := configured text_of d self in
  MqttSetup.set_protocol
    (MqttProtocol.set_mqtt_client (Some client) (MqttSetup.protocol copied)) copied.

(** The end of the [try] block of [connect]: the wait and what follows. *)
Definition connect_wait (lib : MqttSetup.paho) (deliveries : list MqttSetup.delivery)
  : M MqttSetup.t bool :=
  MqttSetup.deliver_all lib deliveries ;;
  set <- gets (fun self => MqttProtocol.server_hello_event (MqttSetup.protocol self)) ;;
  if set
  then emit (Log INFO) ;; ret true
  else
    emit (Log ERROR) ;;
    MqttSetup.on_protocol MqttProtocol.disconnect ;;
    raise ConnectionError.

(** A text frame that holds a server hello for the WebSocket transport. *)
Definition accepted_hello (message : WebSocketProtocol.frame) : bool :=
  match message with
  | WebSocketProtocol.TextFrame (Some (PDict d)) =>
      str_eqb (dict_get d "type" (PStr "")) "hello"
      && truthy (dict_get d "transport" PNone)
      && str_eqb (dict_get d "transport" PNone) "websocket"
  | _ => false
  end.

(** The [except] clause of the WebSocket [connect]. *)
Definition ws_connect_failed : M WebSocketProtocol.t bool :=
  emit (Log ERROR) ;;
  WebSocketProtocol.disconnect ;;
  raise ConnectionError.

(** The connection is opened as [ws], at the first call or, when that one
    raises [TypeError], at the second; the client hello is encoded as [text]
    and sent. *)
Definition server_accepts (cfg : AudioConfig) (json : json_module)
  (lib : WebSocketSetup.websockets_module) (text_of : pyval -> string)
  (config : WebSocketSetup.settings) (ws : ws_obj) (text : string) : Prop :=
  let url := WebSocketSetup.websocket_url config in
  let headers := WebSocketSetup.headers text_of config in
  (WebSocketSetup.connect_additional_headers lib url headers = Returned ws
   \/ (WebSocketSetup.connect_additional_headers lib url headers = Raised TypeError
       /\ WebSocketSetup.connect_extra_headers lib url headers = Returned ws)) /\
  dumps json (PDict (WebSocketProtocol.hello_message cfg)) = Returned text /\
  ws_send ws (WsText text) = None.

(** The datagrams handed to [sendto], in order. *)
Definition datagrams (calls : list action) : list bytes :=
  flat_map (fun a => match a with SocketSendto packet _ _ => [packet] | _ => [] end)
           calls.

(** Two frames of one length, longer than a cipher block. *)
Definition demo_frame : bytes :=
  [x10; x20; x30; x40; x50; x60; x70; x80; x90; xa0; xb0; xc0; xd0; xe0; xf0; x01;
   x02].

Definition next_frame : bytes :=
  [x11; x22; x33; x44; x55; x66; x77; x88; x99; xaa; xbb; xcc; xdd; xee; xff; x0f;
   x0e].

(** The [udp_audio] object of [demo_hello]. *)
Definition demo_udp_audio : list (string * pyval) :=
  [("host"%string, PStr "10.0.0.7");
   ("port"%string, PInt 8884);
   ("aes_key"%string, PStr "000102030405060708090a0b0c0d0e0f");
   ("aes_nonce"%string, PStr "01000000a1a2a3a4a5a6a7a800000000")].

(** Libraries and a broker that do as they are asked. *)
Definition demo_client : mqtt_client_obj :=
  {| client_publish := fun _ => Returned true;
     client_loop_stop := None;
     client_disconnect := None |}.

Definition demo_paho : MqttSetup.paho :=
  {| MqttSetup.Client := fun _ => Returned demo_client;
     MqttSetup.username_pw_set := fun _ _ => None;
     MqttSetup.client_connect := fun _ _ => None;
     MqttSetup.loop_start := None;
     MqttSetup.subscribe := fun _ => None |}.

Definition demo_json : json_module :=
  {| dumps := fun _ => Returned "{...}"%string;
     loads := fun _ => Raised ValueError |}.

Definition demo_text_of (v : pyval) : string := "None"%string.

Definition demo_info : list (string * pyval) :=
  [("endpoint"%string, PStr "broker.example:1883");
   ("client_id"%string, PStr "dev-1");
   ("username"%string, PStr "user");
   ("password"%string, PStr "secret")].

(** The same configuration with an endpoint of three pieces. *)
Definition odd_info : list (string * pyval) :=
  [("endpoint"%string, PStr "broker:18:83");
   ("client_id"%string, PStr "dev-1");
   ("username"%string, PStr "user");
   ("password"%string, PStr "secret")].

Definition demo_ws : ws_obj := {| ws_send := fun _ => None; ws_close := None |}.

(** A [websockets] of the older kind: it refuses [additional_headers]. *)
Definition demo_websockets : WebSocketSetup.websockets_module :=
  {| WebSocketSetup.connect_additional_headers := fun _ _ => Raised TypeError;
     WebSocketSetup.connect_extra_headers := fun _ _ => Returned demo_ws |}.

Definition demo_settings : WebSocketSetup.settings :=
  {| WebSocketSetup.websocket_url := PStr "wss://server.example/v1";
     WebSocketSetup.access_token := PStr "token";
     WebSocketSetup.client_id := PStr "dev-1";
     WebSocketSetup.device_id := PStr "00:11:22:33:44:55" |}.

Definition demo_ws_hello : pyval :=
  PDict [("type"%string, PStr "hello");
         ("transport"%string, PStr "websocket");
         ("session_id"%string, PStr "w-1")].

(** A connected WebSocket transport with listeners for what comes in. *)
Definition demo_ws_session : WebSocketProtocol.t :=
  WebSocketProtocol.set_websocket (Some demo_ws)
    (WebSocketProtocol.set_base
       (Protocol.set_callbacks (Some (Listener None)) (Some (Listener None))
          None None None None Protocol.__init__)
       WebSocketProtocol.__init__).

Definition demo_frames : list WebSocketProtocol.frame :=
  [WebSocketProtocol.TextFrame (Some demo_ws_hello);
   WebSocketProtocol.BinaryFrame [x01; x02];
   WebSocketProtocol.TextFrame (Some (PDict [("type"%string, PStr "tts")]))].

(** * Properties *)

(** ** The built-ins, on examples *)

Example format_hex_5 : format_hex 4 5 = py "0005".
Proof. reflexivity. Qed.
Example format_hex_70000 : format_hex 4 70000 = py "11170".
Proof. reflexivity. Qed.
Example format_hex_neg : format_hex 4 (-5) = py "-005".
Proof. reflexivity. Qed.
Example format_hex_seq : format_hex 8 4294967295 = py "ffffffff".
Proof. reflexivity. Qed.
Example fromhex_spaces : fromhex (py "01 ff  a0 ") = Returned [x01; xff; xa0].
Proof. reflexivity. Qed.
Example fromhex_split_pair : fromhex (py "0 1") = Raised ValueError.
Proof. reflexivity. Qed.
Example fromhex_odd : fromhex (py "012") = Raised ValueError.
Proof. reflexivity. Qed.

(** ** The cipher, on the vectors of the standards *)

(** FIPS-197, appendix C: the example vectors for the three key sizes. *)
Example aes_fips197_vectors :
  let block := 0x00112233445566778899aabbccddeeff%N in
  AES.encrypt_block (be_bytes 16 0x000102030405060708090a0b0c0d0e0f) block
  = 0x69c4e0d86a7b0430d8cdb78070b4c55a%N /\
  AES.encrypt_block (be_bytes 24 0x000102030405060708090a0b0c0d0e0f1011121314151617) block
  = 0xdda97ca4864cdfe06eaf70a0ec0d7191%N /\
  AES.encrypt_block
    (be_bytes 32 0x000102030405060708090a0b0c0d0e0f101112131415161718191a1b1c1d1e1f)
    block
  = 0x8ea2b7ca516745bfeafc49904b496089%N.
Proof. vm_compute. repeat split. Qed.

(** SP 800-38A, F.5.1 (CTR-AES128.Encrypt), first two blocks: the counter
    block ends in [ff] and carries into the next byte. *)
Example aes_ctr_sp800_38a :
  MqttProtocol.aes_ctr_encrypt default_backend
    (be_bytes 16 0x2b7e151628aed2a6abf7158809cf4f3c)
    (be_bytes 16 0xf0f1f2f3f4f5f6f7f8f9fafbfcfdfeff)
    (be_bytes 32 0x6bc1bee22e409f96e93d7e117393172aae2d8a571e03ac9c9eb76fac45af8e51)
  = Returned
      (be_bytes 32 0x874d6191b620e3261bef6864990db6ce9806f66b7970fdff8617187bb9fffdff).
Proof. vm_compute. reflexivity. Qed.

(** ** Bytes and hexadecimal text *)

Lemma byte_xor_cancel (a k : byte) : byte_xor (byte_xor a k) k = a.
Proof.
  unfold byte_xor.
  destruct (Byte.to_bits a) as [a0 [a1 [a2 [a3 [a4 [a5 [a6 a7]]]]]]] eqn:Ea.
  destruct (Byte.to_bits k) as [k0 [k1 [k2 [k3 [k4 [k5 [k6 k7]]]]]]] eqn:Ek.
  rewrite Byte.to_bits_of_bits.
  rewrite <- (Byte.of_bits_to_bits a), Ea.
  f_equal.
  repeat rewrite xorb_assoc.
  repeat rewrite xorb_nilpotent.
  repeat rewrite xorb_false_r.
  reflexivity.
Qed.

Lemma byte_of_N_to_N (b : byte) : byte_of_N (Byte.to_N b) = b.
Proof.
  unfold byte_of_N.
  pose proof (Byte.to_N_bounded b) as Hb.
  rewrite N.mod_small by lia.
  now rewrite Byte.of_to_N.
Qed.

Lemma byte_of_N_mod (n : N) : byte_of_N (n mod 256) = byte_of_N n.
Proof.
  unfold byte_of_N. now rewrite N.Div0.mod_mod.
Qed.

Ltac nibble n :=
  destruct n as [| n]; [reflexivity |];
  do 4 (destruct n as [n | n |]; try reflexivity);
  exfalso; lia.

Lemma hex_value_hex_char (n : N) :
  (n < 16)%N -> hex_value (hex_char n) = Some n.
Proof. intros H. nibble n. Qed.

Lemma is_space_hex_char (n : N) :
  (n < 16)%N -> is_space (hex_char n) = false.
Proof. intros H. nibble n. Qed.

(** White space is not a hexadecimal digit. *)
Lemma hex_value_not_space (c : ascii) (h : N) :
  hex_value c = Some h -> is_space c = false.
Proof.
  unfold hex_value, is_space.
  generalize (N_of_ascii c). intros n.
  destruct (48 <=? n)%N eqn:E1, (n <=? 57)%N eqn:E2,
           (97 <=? n)%N eqn:E3, (n <=? 102)%N eqn:E4,
           (65 <=? n)%N eqn:E5, (n <=? 70)%N eqn:E6; simpl; intros H;
    try discriminate;
    apply orb_false_intro;
    try (apply N.eqb_neq); try (apply andb_false_iff);
    repeat match goal with
           | E : (_ <=? _)%N = true |- _ => apply N.leb_le in E
           | E : (_ <=? _)%N = false |- _ => apply N.leb_gt in E
           end;
    try lia;
    try (destruct (9 <=? n)%N eqn:E7; [right; apply N.leb_gt; apply N.leb_le in E7; lia | now left]).
Qed.

Lemma hex_value_bound (c : ascii) (h : N) :
  hex_value c = Some h -> (h < 16)%N.
Proof.
  unfold hex_value.
  generalize (N_of_ascii c). intros n.
  destruct (48 <=? n)%N eqn:E1, (n <=? 57)%N eqn:E2,
           (97 <=? n)%N eqn:E3, (n <=? 102)%N eqn:E4,
           (65 <=? n)%N eqn:E5, (n <=? 70)%N eqn:E6; simpl; intros H;
    inversion H; subst;
    repeat match goal with
           | E : (_ <=? _)%N = true |- _ => apply N.leb_le in E
           | E : (_ <=? _)%N = false |- _ => apply N.leb_gt in E
           end; lia.
Qed.

(** Decoding a pair of digits at the head of a text. *)
Lemma fromhex_pair (c d : ascii) (hi lo : N) (s : pystr) :
  hex_value c = Some hi -> hex_value d = Some lo ->
  fromhex (c :: d :: s) = outcome_map (cons (byte_of_N (16 * hi + lo))) (fromhex s).
Proof.
  intros Hc Hd. simpl.
  rewrite (hex_value_not_space _ _ Hc), Hc, Hd. reflexivity.
Qed.

Lemma nibbles_of_byte (b : byte) :
  byte_of_N (16 * (Byte.to_N b / 16) + Byte.to_N b mod 16) = b.
Proof.
  rewrite <- N.div_mod by lia. apply byte_of_N_to_N.
Qed.

(** [bytes.fromhex(b.hex()) == b]. *)
Lemma fromhex_bytes_hex (bs : bytes) : fromhex (bytes_hex bs) = Returned bs.
Proof.
  induction bs as [| b bs IH]; [reflexivity |].
  cbn [bytes_hex].
  pose proof (Byte.to_N_bounded b) as Hb.
  assert (Hhi : (Byte.to_N b / 16 < 16)%N)
    by (apply N.Div0.div_lt_upper_bound; lia).
  assert (Hlo : (Byte.to_N b mod 16 < 16)%N) by (apply N.mod_lt; lia).
  rewrite (fromhex_pair _ _ _ _ (bytes_hex bs) (hex_value_hex_char _ Hhi) (hex_value_hex_char _ Hlo)).
  rewrite IH. unfold outcome_map, outcome_bind. now rewrite nibbles_of_byte.
Qed.

Lemma outcome_map_nil_app {A} (o : outcome (list A)) : outcome_map (app []) o = o.
Proof. now destruct o. Qed.

Lemma outcome_map_map {A B C} (f : A -> B) (g : B -> C) (o : outcome A) :
  outcome_map g (outcome_map f o) = outcome_map (fun x => g (f x)) o.
Proof. now destruct o. Qed.

(** A text that decodes ends on a byte boundary: what follows it decodes on
    its own. *)
Lemma fromhex_app_aux (n : nat) :
  forall (s t : pystr) (x : bytes),
    (List.length s <= n)%nat ->
    fromhex s = Returned x ->
    fromhex (s ++ t) = outcome_map (app x) (fromhex t).
Proof.
  induction n as [| n IH]; intros s t x Hlen Hs.
  - destruct s; [| simpl in Hlen; lia].
    inversion Hs; subst. simpl. now rewrite outcome_map_nil_app.
  - destruct s as [| c s'].
    + inversion Hs; subst. simpl. now rewrite outcome_map_nil_app.
    + cbn [fromhex List.length] in Hs, Hlen. cbn [app fromhex].
      destruct (is_space c).
      * apply IH; [lia | assumption].
      * destruct (hex_value c) as [hi |]; [| discriminate].
        destruct s' as [| d s'']; [discriminate |].
        cbn [app].
        destruct (hex_value d) as [lo |]; [| discriminate].
        destruct (fromhex s'') as [x' |] eqn:Es''; [| discriminate].
        cbn [outcome_map outcome_bind] in Hs.
        injection Hs as <-.
        cbn [List.length] in Hlen.
        rewrite (IH s'' t x' ltac:(lia) Es'').
        rewrite outcome_map_map. reflexivity.
Qed.

Lemma fromhex_app (s t : pystr) (x : bytes) :
  fromhex s = Returned x ->
  fromhex (s ++ t) = outcome_map (app x) (fromhex t).
Proof. intros H. now apply (fromhex_app_aux (List.length s)). Qed.

(** A decoded text has at least two characters per byte, and when it has
    no more than that, every character is a digit. *)
Lemma fromhex_length_aux (n : nat) :
  forall (s : pystr) (x : bytes),
    (List.length s <= n)%nat ->
    fromhex s = Returned x ->
    (2 * List.length x <= List.length s)%nat /\
    ((List.length s <= 2 * List.length x)%nat -> forallb is_hex s = true).
Proof.
  induction n as [| n IH]; intros s x Hlen Hs.
  - destruct s; [| simpl in Hlen; lia].
    inversion Hs; subst. simpl. split; [lia | reflexivity].
  - destruct s as [| c s'].
    + inversion Hs; subst. simpl. split; [lia | reflexivity].
    + cbn [fromhex List.length] in Hs, Hlen.
      destruct (is_space c).
      * destruct (IH s' x ltac:(lia) Hs) as [H1 H2].
        cbn [List.length]. split; [lia | intros; lia].
      * destruct (hex_value c) as [hi |] eqn:Ec; [| discriminate].
        destruct s' as [| d s'']; [discriminate |].
        destruct (hex_value d) as [lo |] eqn:Ed; [| discriminate].
        destruct (fromhex s'') as [x' |] eqn:Es''; [| discriminate].
        cbn [outcome_map outcome_bind] in Hs.
        injection Hs as <-.
        cbn [List.length] in Hlen.
        destruct (IH s'' x' ltac:(lia) Es'') as [H1 H2].
        cbn [List.length forallb]. split; [lia |].
        intros H. unfold is_hex at 1 2. rewrite Ec, Ed. cbn [andb].
        apply H2. lia.
Qed.

Lemma fromhex_length (s : pystr) (x : bytes) :
  fromhex s = Returned x ->
  (2 * List.length x <= List.length s)%nat /\
  ((List.length s <= 2 * List.length x)%nat -> forallb is_hex s = true).
Proof. intros H. now apply (fromhex_length_aux (List.length s)). Qed.

(** A text of [2 k] digits decodes to [k] bytes. *)
Lemma fromhex_digits (k : nat) :
  forall s : pystr,
    forallb is_hex s = true ->
    List.length s = (2 * k)%nat ->
    exists x, fromhex s = Returned x /\ List.length x = k.
Proof.
  induction k as [| k IH]; intros s Hhex Hlen.
  - destruct s; [| discriminate]. exists []. now split.
  - destruct s as [| c [| d s'']]; try (simpl in Hlen; lia).
    simpl in Hhex.
    apply andb_prop in Hhex as [Hc Hhex].
    apply andb_prop in Hhex as [Hd Hhex].
    unfold is_hex in Hc, Hd.
    destruct (hex_value c) as [hi |] eqn:Ec; [| discriminate].
    destruct (hex_value d) as [lo |] eqn:Ed; [| discriminate].
    destruct (IH s'' Hhex ltac:(simpl in Hlen; lia)) as [x [Hx Hk]].
    exists (byte_of_N (16 * hi + lo) :: x).
    rewrite (fromhex_pair _ _ _ _ s'' Ec Ed), Hx.
    cbn [outcome_map outcome_bind List.length]. split; [reflexivity | lia].
Qed.

Lemma length_hex_fixed (k : nat) (n : N) : List.length (hex_fixed k n) = k.
Proof.
  revert n. induction k as [| k IH]; intros n; [reflexivity |].
  simpl. rewrite length_app, IH. simpl. lia.
Qed.

Lemma length_be_bytes (w : nat) (n : N) : List.length (be_bytes w n) = w.
Proof.
  revert n. induction w as [| w IH]; intros n; [reflexivity |].
  simpl. rewrite length_app, IH. simpl. lia.
Qed.

(** [2 w] digits of [n] decode to the [w] low bytes of [n], big-endian. *)
Lemma fromhex_hex_fixed (w : nat) (n : N) :
  fromhex (hex_fixed (2 * w) n) = Returned (be_bytes w n).
Proof.
  revert n. induction w as [| w IH]; intros n; [reflexivity |].
  replace (2 * S w)%nat with (S (S (2 * w))) by lia.
  cbn [hex_fixed be_bytes].
  rewrite <- app_assoc. cbn [app].
  rewrite (fromhex_app _ _ _ (IH (n / 16 / 16)%N)).
  assert (Hhi : ((n / 16) mod 16 < 16)%N) by (apply N.mod_lt; lia).
  assert (Hlo : (n mod 16 < 16)%N) by (apply N.mod_lt; lia).
  rewrite (fromhex_pair _ _ _ _ [] (hex_value_hex_char _ Hhi) (hex_value_hex_char _ Hlo)).
  cbn [fromhex outcome_map outcome_bind].
  rewrite N.Div0.div_div. change (16 * 16)%N with 256%N.
  f_equal. f_equal. f_equal.
  rewrite <- (byte_of_N_mod n).
  f_equal.
  change 256%N with (16 * 16)%N.
  rewrite N.Div0.mod_mul_r. lia.
Qed.

Lemma hex_width_le (w : nat) (n : N) :
  (1 <= w)%nat ->
  (hex_width n <= w)%nat <-> (n < 16 ^ N.of_nat w)%N.
Proof.
  intros Hw. unfold hex_width.
  destruct (N.eqb_spec n 0) as [-> | Hn].
  - split; intros _; [| lia].
    apply N.neq_0_lt_0. apply N.pow_nonzero. lia.
  - assert (Hpos : (0 < n)%N) by lia.
    replace (16 ^ N.of_nat w)%N with (2 ^ (4 * N.of_nat w))%N
      by (rewrite N.pow_mul_r; reflexivity).
    rewrite (N.log2_lt_pow2 _ _ Hpos).
    pose proof (N.Div0.div_lt_upper_bound (N.log2 n) 4 (N.of_nat w)) as Hup.
    pose proof (N.Div0.mul_div_le (N.log2 n) 4) as Hle.
    pose proof (N.mod_lt (N.log2 n) 4 ltac:(lia)) as Hmod.
    pose proof (N.div_mod (N.log2 n) 4 ltac:(lia)) as Hdm.
    split; intros H; lia.
Qed.

Lemma length_format_hex (w : nat) (z : Z) :
  (0 <= z)%Z ->
  List.length (format_hex w z) = Nat.max w (hex_width (Z.to_N z)).
Proof.
  intros Hz. unfold format_hex.
  destruct (Z.ltb_spec z 0) as [H | H]; [lia |].
  apply length_hex_fixed.
Qed.

Lemma format_hex_fixed (w : nat) (z : Z) :
  (1 <= w)%nat -> (0 <= z < 16 ^ Z.of_nat w)%Z ->
  format_hex w z = hex_fixed w (Z.to_N z).
Proof.
  intros Hw Hz. unfold format_hex.
  destruct (Z.ltb_spec z 0) as [H | H]; [lia |].
  f_equal. apply Nat.max_l.
  apply hex_width_le; [assumption |].
  apply N2Z.inj_lt. rewrite N2Z.inj_pow, Z2N.id, nat_N_Z by lia. simpl. lia.
Qed.

(** ** Counter mode *)

Section CounterMode.

Variable be : backend.

(** Applying the key stream twice from the same position gives the data
    back. *)
Lemma ctr_update_cancel (key : bytes) (iv : N) (data : bytes) :
  forall i : N,
    ctr_update be key iv i (ctr_update be key iv i data) = data.
Proof.
  induction data as [| d data IH]; intros i; [reflexivity |].
  cbn [ctr_update]. now rewrite byte_xor_cancel, IH.
Qed.

Lemma length_ctr_update (key : bytes) (iv : N) (data : bytes) :
  forall i : N, List.length (ctr_update be key iv i data) = List.length data.
Proof.
  induction data as [| d data IH]; intros i; [reflexivity |].
  cbn [ctr_update List.length]. now rewrite IH.
Qed.

End CounterMode.

Lemma Cipher_AES_CTR_accepts (key nonce : bytes) :
  aes_key_size key -> List.length nonce = 16%nat ->
  Cipher_AES_CTR key nonce = Returned (key, be_value nonce).
Proof.
  intros Hk Hn. unfold Cipher_AES_CTR. rewrite Hn.
  destruct Hk as [-> | [-> | ->]]; reflexivity.
Qed.

Lemma Cipher_AES_CTR_returns (key nonce k : bytes) (iv : N) :
  Cipher_AES_CTR key nonce = Returned (k, iv) ->
  k = key /\ iv = be_value nonce /\ aes_key_size key /\ List.length nonce = 16%nat.
Proof.
  unfold Cipher_AES_CTR, aes_key_size.
  destruct (Nat.eqb_spec (8 * List.length key) 128) as [H1 | H1];
  destruct (Nat.eqb_spec (8 * List.length key) 192) as [H2 | H2];
  destruct (Nat.eqb_spec (8 * List.length key) 256) as [H3 | H3];
  destruct (Nat.eqb_spec (8 * List.length key) 512) as [H4 | H4];
  cbn [orb negb]; try discriminate;
  destruct (Nat.ltb_spec 256 (8 * List.length key)) as [H5 | H5]; try discriminate;
  destruct (Nat.eqb_spec (8 * List.length nonce) 128) as [H6 | H6];
  cbn [negb]; try discriminate;
  intros H; injection H as <- <-; repeat split; lia.
Qed.

Lemma aes_ctr_encrypt_returns (be : backend) (key nonce data ct : bytes) :
  MqttProtocol.aes_ctr_encrypt be key nonce data = Returned ct ->
  aes_key_size key /\ List.length nonce = 16%nat /\
  ct = ctr_update be key (be_value nonce) 0 data.
Proof.
  unfold MqttProtocol.aes_ctr_encrypt.
  destruct (Cipher_AES_CTR key nonce) as [[k iv] |] eqn:E; [| discriminate].
  apply Cipher_AES_CTR_returns in E as (-> & -> & Hk & Hn).
  cbn [outcome_bind]. rewrite app_nil_r. intros H. injection H as <-. auto.
Qed.

Lemma aes_ctr_decrypt_encrypted (be : backend) (key nonce data ct : bytes) :
  MqttProtocol.aes_ctr_encrypt be key nonce data = Returned ct ->
  MqttProtocol.aes_ctr_decrypt be key nonce ct = Returned data /\
  List.length ct = List.length data.
Proof.
  intros H. apply aes_ctr_encrypt_returns in H as (Hk & Hn & ->).
  unfold MqttProtocol.aes_ctr_decrypt.
  rewrite (Cipher_AES_CTR_accepts _ _ Hk Hn). cbn [outcome_bind].
  rewrite app_nil_r, ctr_update_cancel, length_ctr_update. auto.
Qed.

(** ** Running a method step by step *)

Section After.

Context {S A : Type}.

Lemma after_nil (r : outcome A * S * list action) : after [] r = r.
Proof. now destruct r as [[? ?] ?]. Qed.

Lemma after_after (t1 t2 : list action) (r : outcome A * S * list action) :
  after t1 (after t2 r) = after (t1 ++ t2) r.
Proof. destruct r as [[? ?] ?]. cbn. now rewrite app_assoc. Qed.

Lemma result_of_after (t : list action) (r : outcome A * S * list action) :
  result_of (after t r) = result_of r.
Proof. now destruct r as [[? ?] ?]. Qed.

Lemma state_of_after (t : list action) (r : outcome A * S * list action) :
  state_of (after t r) = state_of r.
Proof. now destruct r as [[? ?] ?]. Qed.

Lemma trace_of_after (t : list action) (r : outcome A * S * list action) :
  trace_of (after t r) = t ++ trace_of r.
Proof. now destruct r as [[? ?] ?]. Qed.

End After.

Section MonadLaws.

Context {S A B : Type}.

Lemma bind_ret (a : A) (k : A -> M S B) (s : S) : bind (ret a) k s = k a s.
Proof. unfold bind, ret. apply after_nil. Qed.

Lemma bind_gets (f : S -> A) (k : A -> M S B) (s : S) :
  bind (gets f) k s = k (f s) s.
Proof. unfold bind, gets. apply after_nil. Qed.

Lemma bind_modify (f : S -> S) (k : unit -> M S B) (s : S) :
  bind (modify f) k s = k tt (f s).
Proof. unfold bind, modify. apply after_nil. Qed.

Lemma bind_emit (a : action) (k : unit -> M S B) (s : S) :
  bind (emit a) k s = after [a] (k tt s).
Proof. reflexivity. Qed.

Lemma bind_lift_returned (a : A) (k : A -> M S B) (s : S) :
  bind (lift (Returned a)) k s = k a s.
Proof. unfold bind, lift. apply after_nil. Qed.

Lemma bind_lift_raised (e : exn) (k : A -> M S B) (s : S) :
  bind (lift (Raised e)) k s = (Raised e, s, []).
Proof. reflexivity. Qed.

Lemma bind_raise (e : exn) (k : A -> M S B) (s : S) :
  bind (raise e) k s = (Raised e, s, []).
Proof. reflexivity. Qed.

End MonadLaws.

Lemma bind_assoc {S A B C} (m : M S A) (k1 : A -> M S B) (k2 : B -> M S C) (s : S) :
  bind (bind m k1) k2 s = bind m (fun x => bind (k1 x) k2) s.
Proof.
  unfold bind. destruct (m s) as [[[a | e] s1] t1]; [| reflexivity].
  destruct (k1 a s1) as [[[b | e] s2] t2]; [| reflexivity].
  cbn [after]. now rewrite after_after.
Qed.

Lemma bind_may_raise_none {S B} (k : unit -> M S B) (s : S) :
  bind (may_raise None) k s = k tt s.
Proof. unfold may_raise. apply bind_ret. Qed.

Lemma bind_may_raise_some {S B} (e : exn) (k : unit -> M S B) (s : S) :
  bind (may_raise (Some e)) k s = (Raised e, s, []).
Proof. reflexivity. Qed.

Ltac step :=
  first [ rewrite bind_gets | rewrite bind_modify | rewrite bind_emit
        | rewrite bind_ret | rewrite bind_lift_returned
        | rewrite bind_lift_raised | rewrite bind_raise
        | rewrite bind_may_raise_none | rewrite bind_may_raise_some
        | rewrite bind_assoc ];
  cbv beta.

Ltac observe :=
  repeat (progress
            (cbn [result_of state_of trace_of fst snd after app];
             repeat first [ rewrite result_of_after | rewrite state_of_after
                          | rewrite trace_of_after | rewrite after_after
                          | rewrite after_nil ])).

(** [_handle_error] changes no field, calls nothing but the logger and the
    network-error listener, and raises only what that listener raises. *)
Lemma _handle_error_run {S} (base : S -> Protocol.t) (e : exn) (s : S) :
  Protocol._handle_error base e s =
  match Protocol._on_network_error (base s) with
  | None => (Returned tt, s, [Log ERROR])
  | Some l =>
      match listener_raises l with
      | None => (Returned tt, s, [Log ERROR; CallNetworkError])
      | Some e' => (Raised e', s, [Log ERROR; CallNetworkError])
      end
  end.
Proof.
  unfold Protocol._handle_error. repeat step.
  destruct (Protocol._on_network_error (base s)) as [[[e' |]] |]; reflexivity.
Qed.

Lemma bind_handle_error {S B} (base : S -> Protocol.t) (e : exn)
  (k : unit -> M S B) (s : S) :
  bind (Protocol._handle_error base e) k s =
  match Protocol._on_network_error (base s) with
  | None => after [Log ERROR] (k tt s)
  | Some l =>
      match listener_raises l with
      | None => after [Log ERROR; CallNetworkError] (k tt s)
      | Some e' => (Raised e', s, [Log ERROR; CallNetworkError])
      end
  end.
Proof.
  unfold bind at 1. rewrite _handle_error_run.
  destruct (Protocol._on_network_error (base s)) as [[[e' |]] |]; reflexivity.
Qed.

Lemma try_except_run {S A} (m : M S A) (h : exn -> M S A) (s : S) :
  try_except m h s =
  match result_of (m s) with
  | Returned _ => m s
  | Raised e => after (trace_of (m s)) (h e (state_of (m s)))
  end.
Proof.
  unfold try_except. now destruct (m s) as [[[a | e] s1] t1].
Qed.

Ltac fields :=
  cbn [MqttProtocol.base MqttProtocol.mqtt_client MqttProtocol.udp_socket
       MqttProtocol.udp_thread MqttProtocol.udp_running MqttProtocol.publish_topic
       MqttProtocol.udp_server MqttProtocol.udp_port MqttProtocol.aes_key
       MqttProtocol.aes_nonce MqttProtocol.local_sequence MqttProtocol.remote_sequence
       MqttProtocol.server_hello_event
       MqttProtocol.set_base MqttProtocol.set_mqtt_client MqttProtocol.set_udp_socket
       MqttProtocol.set_udp_thread MqttProtocol.set_udp_running
       MqttProtocol.set_udp_server MqttProtocol.set_udp_port MqttProtocol.set_aes_key
       MqttProtocol.set_aes_nonce MqttProtocol.set_local_sequence
       MqttProtocol.set_server_hello_event
       WebSocketProtocol.base WebSocketProtocol.websocket WebSocketProtocol.connected
       WebSocketProtocol.hello_received
       WebSocketProtocol.set_base WebSocketProtocol.set_websocket
       WebSocketProtocol.set_connected WebSocketProtocol.set_hello_received
       Protocol.session_id Protocol._on_incoming_json Protocol._on_incoming_audio
       Protocol._on_audio_channel_opened Protocol._on_audio_channel_closed
       Protocol._on_network_error Protocol._on_audio_config_changed
       Protocol.set_session_id] in *.

Ltac steps := repeat (step; fields).

(** ** [MqttProtocol.send_audio], case by case *)

Ltac failed_send :=
  observe; step; rewrite bind_handle_error; unfold send_audio_failed; fields;
  match goal with
  | |- context [Protocol._on_network_error ?b] =>
      destruct (Protocol._on_network_error b) as [[[? |]] |]
  end;
  reflexivity.

Lemma send_audio_run (be : backend) (audio_data : bytes) (self : MqttProtocol.t) :
  MqttProtocol.send_audio be audio_data self =
  match MqttProtocol.udp_socket self with
  | None => (Returned false, self, [Log ERROR])
  | Some s =>
      if negb (truthy (MqttProtocol.udp_server self))
         || (MqttProtocol.udp_port self =? 0)%Z
      then (Returned false, self, [Log ERROR])
      else
        let sequence := Z.land (MqttProtocol.local_sequence self + 1) 4294967295 in
        let self' := MqttProtocol.set_local_sequence sequence self in
        match MqttProtocol.new_nonce (MqttProtocol.aes_nonce self)
                (List.length audio_data) sequence with
        | Raised _ => send_audio_failed self' []
        | Returned text =>
        match MqttProtocol.fromhex_field (MqttProtocol.aes_key self) with
        | Raised _ => send_audio_failed self' []
        | Returned key =>
        match fromhex text with
        | Raised _ => send_audio_failed self' []
        | Returned nonce =>
        match MqttProtocol.aes_ctr_encrypt be key nonce audio_data with
        | Raised _ => send_audio_failed self' [CipherEncrypt key nonce audio_data]
        | Returned ct =>
            let sent :=
              [CipherEncrypt key nonce audio_data;
               SocketSendto (nonce ++ ct) (MqttProtocol.udp_server self)
                            (MqttProtocol.udp_port self)] in
            match sock_sendto s (nonce ++ ct) with
            | Some _ => send_audio_failed self' sent
            | None =>
                (Returned true, self',
                 sent ++ if (sequence mod 10 =? 0)%Z then [Log INFO] else [])
            end
        end end end end
  end.
Proof.
  unfold MqttProtocol.send_audio. steps.
  destruct (MqttProtocol.udp_socket self) as [s |]; [| reflexivity].
  destruct (negb (truthy (MqttProtocol.udp_server self))
            || (MqttProtocol.udp_port self =? 0)%Z); [reflexivity |].
  cbv zeta. rewrite try_except_run. steps.
  destruct (MqttProtocol.new_nonce _ _ _) as [text |]; steps; [| failed_send].
  destruct (MqttProtocol.fromhex_field _) as [key |]; steps; [| failed_send].
  destruct (fromhex text) as [nonce |]; steps; [| failed_send].
  destruct (MqttProtocol.aes_ctr_encrypt be key nonce audio_data) as [ct |];
    steps; [| failed_send].
  destruct (sock_sendto s (nonce ++ ct)) as [e |]; steps; [failed_send |].
  unfold when. destruct (_ mod 10 =? 0)%Z; steps; observe; reflexivity.
Qed.

Lemma to_N_byte_of_N (n : N) : Byte.to_N (byte_of_N n) = (n mod 256)%N.
Proof.
  unfold byte_of_N.
  destruct (Byte.of_N (n mod 256)) as [b |] eqn:E.
  - now apply Byte.to_of_N.
  - apply Byte.of_N_None_iff in E.
    pose proof (N.mod_lt n 256 ltac:(lia)). lia.
Qed.

(** [be_bytes] is the big-endian encoding: read back, it is the number
    modulo [256^w]. *)
Lemma be_value_be_bytes (w : nat) :
  forall n : N, be_value (be_bytes w n) = (n mod 256 ^ N.of_nat w)%N.
Proof.
  unfold be_value.
  induction w as [| w IH]; intros n.
  - cbn. now rewrite N.mod_1_r.
  - cbn [be_bytes]. rewrite fold_left_app. cbn [fold_left].
    rewrite IH, to_N_byte_of_N.
    rewrite Nat2N.inj_succ, N.pow_succ_r by lia.
    rewrite N.Div0.mod_mul_r. lia.
Qed.

Lemma send_audio_sent (be : backend) (audio_data : bytes) (self : MqttProtocol.t)
  (packet : bytes) (host : pyval) (port : Z) :
  In (SocketSendto packet host port)
     (trace_of (MqttProtocol.send_audio be audio_data self)) ->
  exists text key nonce ct,
    MqttProtocol.new_nonce (MqttProtocol.aes_nonce self) (List.length audio_data)
      (Z.land (MqttProtocol.local_sequence self + 1) 4294967295) = Returned text /\
    MqttProtocol.fromhex_field (MqttProtocol.aes_key self) = Returned key /\
    fromhex text = Returned nonce /\
    MqttProtocol.aes_ctr_encrypt be key nonce audio_data = Returned ct /\
    packet = nonce ++ ct /\
    host = MqttProtocol.udp_server self /\ port = MqttProtocol.udp_port self.
Proof.
  rewrite send_audio_run.
  destruct (MqttProtocol.udp_socket self) as [s |];
    [| cbn; intuition discriminate].
  destruct (negb _ || _); [cbn; intuition discriminate |].
  cbv zeta. unfold send_audio_failed.
  destruct (MqttProtocol.new_nonce _ _ _) as [text |] eqn:Etext;
  [ destruct (MqttProtocol.fromhex_field _) as [key |] eqn:Ekey;
    [ destruct (fromhex text) as [nonce |] eqn:Enonce;
      [ destruct (MqttProtocol.aes_ctr_encrypt be key nonce audio_data) as [ct |] eqn:Ect;
        [ destruct (sock_sendto s (nonce ++ ct)) as [e |] | ] | ] | ] | ];
  try destruct (Protocol._on_network_error _) as [[[e' |]] |];
  try destruct (_ mod 10 =? 0)%Z;
  cbn; intros H;
  repeat match goal with
         | H : _ \/ _ |- _ => destruct H as [H | H]
         | H : False |- _ => destruct H
         | H : _ = SocketSendto _ _ _ |- _ =>
             first [discriminate H | injection H as <- <- <-]
         end;
  exists text, key, nonce, ct; auto 10.
Qed.

Lemma masked_sequence (z : Z) :
  Z.land (z + 1) 4294967295 = ((z + 1) mod 2 ^ 32)%Z.
Proof. change 4294967295%Z with (Z.ones 32). apply Z.land_ones. lia. Qed.

Lemma masked_sequence_range (z : Z) :
  (0 <= Z.land (z + 1) 4294967295 < 2 ^ 32)%Z.
Proof. rewrite masked_sequence. apply Z.mod_pos_bound. lia. Qed.

Lemma length_slice (a b : nat) (s : pystr) :
  (List.length (MqttProtocol.slice a b s) <= b - a)%nat.
Proof. unfold MqttProtocol.slice. rewrite length_firstn. lia. Qed.

Lemma new_nonce_returns (v : pyval) (n : nat) (sequence : Z) (text : pystr) :
  MqttProtocol.new_nonce v n sequence = Returned text ->
  exists s,
    v = PStr s /\
    text = MqttProtocol.slice 0 4 (py s) ++ format_hex 4 (Z.of_nat n)
           ++ MqttProtocol.slice 8 24 (py s) ++ format_hex 8 sequence.
Proof.
  unfold MqttProtocol.new_nonce. destruct v; try discriminate.
  intros H. injection H as <-. eauto.
Qed.

Lemma send_audio_state (be : backend) (audio_data : bytes) (self : MqttProtocol.t) :
  state_of (MqttProtocol.send_audio be audio_data self) =
  if MqttProtocol.is_some (MqttProtocol.udp_socket self)
     && negb (negb (truthy (MqttProtocol.udp_server self))
              || (MqttProtocol.udp_port self =? 0)%Z)
  then MqttProtocol.set_local_sequence
         (Z.land (MqttProtocol.local_sequence self + 1) 4294967295) self
  else self.
Proof.
  rewrite send_audio_run.
  destruct (MqttProtocol.udp_socket self) as [s |]; [| reflexivity].
  destruct (negb _ || _); [reflexivity |].
  cbv zeta. unfold send_audio_failed.
  destruct (MqttProtocol.new_nonce _ _ _) as [text |];
  [ destruct (MqttProtocol.fromhex_field _) as [key |];
    [ destruct (fromhex text) as [nonce |];
      [ destruct (MqttProtocol.aes_ctr_encrypt be key nonce audio_data) as [ct |];
        [ destruct (sock_sendto s (nonce ++ ct)) as [e |] | ] | ] | ] | ];
  try destruct (Protocol._on_network_error _) as [[[e' |]] |];
  reflexivity.
Qed.

Lemma fromhex_digits_app (k : nat) (s t : pystr) :
  forallb is_hex s = true -> List.length s = (2 * k)%nat ->
  exists x, fromhex s = Returned x /\ List.length x = k /\
            fromhex (s ++ t) = outcome_map (app x) (fromhex t).
Proof.
  intros Hhex Hlen.
  destruct (fromhex_digits k s Hhex Hlen) as [x [Hx Hk]].
  exists x. repeat split; auto. now apply fromhex_app.
Qed.

(** The layout of a sent packet, for a payload whose length fits the two
    bytes of the length field. *)
Lemma send_audio_packet_short (be : backend) (audio_data : bytes)
  (self : MqttProtocol.t) (packet : bytes) (host : pyval) (port : Z) :
  (Z.of_nat (List.length audio_data) <= 65535)%Z ->
  In (SocketSendto packet host port)
     (trace_of (MqttProtocol.send_audio be audio_data self)) ->
  exists base_nonce prefix middle key ct,
    MqttProtocol.aes_nonce self = PStr base_nonce /\
    fromhex (MqttProtocol.slice 0 4 (py base_nonce)) = Returned prefix /\
    List.length prefix = 2%nat /\
    fromhex (MqttProtocol.slice 8 24 (py base_nonce)) = Returned middle /\
    List.length middle = 8%nat /\
    MqttProtocol.fromhex_field (MqttProtocol.aes_key self) = Returned key /\
    let sequence :=
      MqttProtocol.local_sequence
        (state_of (MqttProtocol.send_audio be audio_data self)) in
    let nonce :=
      prefix ++ be_bytes 2 (N.of_nat (List.length audio_data))
             ++ middle ++ be_bytes 4 (Z.to_N sequence) in
    sequence = ((MqttProtocol.local_sequence self + 1) mod 2 ^ 32)%Z /\
    List.length nonce = 16%nat /\
    MqttProtocol.aes_ctr_encrypt be key nonce audio_data = Returned ct /\
    List.length ct = List.length audio_data /\
    packet = nonce ++ ct /\
    host = MqttProtocol.udp_server self /\ port = MqttProtocol.udp_port self.
Proof.
  intros Hlen Hsent.
  assert (Hstate := send_audio_state be audio_data self).
  destruct (send_audio_sent _ _ _ _ _ _ Hsent)
    as (text & key & nonce & ct & Htext & Hkey & Hnonce & Hct & -> & -> & ->).
  rewrite send_audio_run in Hsent.
  destruct (MqttProtocol.udp_socket self) as [s |];
    [| cbn in Hsent; intuition discriminate].
  destruct (negb _ || _); [cbn in Hsent; intuition discriminate |].
  clear Hsent. cbn [MqttProtocol.is_some andb negb] in Hstate.
  rewrite Hstate. cbn [MqttProtocol.local_sequence MqttProtocol.set_local_sequence].
  cbv zeta.
  pose proof (masked_sequence_range (MqttProtocol.local_sequence self)) as Hrange.
  set (sequence := Z.land (MqttProtocol.local_sequence self + 1) 4294967295) in *.
  destruct (new_nonce_returns _ _ _ _ Htext) as (base_nonce & Hbase & ->).
  destruct (aes_ctr_decrypt_encrypted _ _ _ _ _ Hct) as [_ Hctlen].
  destruct (aes_ctr_encrypt_returns _ _ _ _ _ Hct) as (_ & Hn16 & _).
  rewrite (format_hex_fixed 4 (Z.of_nat (List.length audio_data)))
    in Hnonce by (change (16 ^ Z.of_nat 4)%Z with 65536%Z; lia).
  rewrite (format_hex_fixed 8 sequence)
    in Hnonce by (change (16 ^ Z.of_nat 8)%Z with (2 ^ 32)%Z; lia).
  replace (Z.to_N (Z.of_nat (List.length audio_data)))
    with (N.of_nat (List.length audio_data)) in Hnonce by lia.
  set (p := MqttProtocol.slice 0 4 (py base_nonce)) in *.
  set (m := MqttProtocol.slice 8 24 (py base_nonce)) in *.
  pose proof (length_slice 0 4 (py base_nonce)) as Hp. fold p in Hp.
  pose proof (length_slice 8 24 (py base_nonce)) as Hm. fold m in Hm.
  destruct (fromhex_length _ _ Hnonce) as [Hge Hall].
  rewrite !length_app, !length_hex_fixed in Hge, Hall.
  specialize (Hall ltac:(lia)).
  rewrite !forallb_app in Hall.
  apply andb_prop in Hall as [Hhp Hall].
  apply andb_prop in Hall as [Hhl Hall].
  apply andb_prop in Hall as [Hhm Hhs].
  destruct (fromhex_digits_app 2 p
              (hex_fixed 4 (N.of_nat (List.length audio_data)) ++ m
               ++ hex_fixed 8 (Z.to_N sequence)) Hhp ltac:(lia))
    as (prefix & Hprefix & Hplen & Happ1).
  destruct (fromhex_digits_app 8 m (hex_fixed 8 (Z.to_N sequence)) Hhm ltac:(lia))
    as (middle & Hmiddle & Hmlen & Happ2).
  rewrite Happ1 in Hnonce.
  rewrite (fromhex_app _ _ _ (fromhex_hex_fixed 2 _)) in Hnonce.
  rewrite Happ2 in Hnonce.
  rewrite (fromhex_hex_fixed 4) in Hnonce.
  cbn [outcome_map outcome_bind] in Hnonce.
  injection Hnonce as <-.
  exists base_nonce, prefix, middle, key, ct.
  repeat split; auto.
  - apply masked_sequence.
Qed.

(** ** The codec: round trip and nonce width *)

(** C1. Decrypting what [aes_ctr_encrypt] returned, with the same key and
    counter block, gives the payload back, and the ciphertext is as long as
    the payload; for every AES key (16, 24 or 32 bytes) and every 16-byte
    counter block the encryption does return; and every packet [send_audio]
    hands to [sendto], whatever the sequence counter was, decrypts to the
    payload under the session key when its first 16 bytes are taken as the
    counter block. *)
Theorem aes_ctr_roundtrip (be : backend) (P : bytes) :
  (forall K N C : bytes,
      MqttProtocol.aes_ctr_encrypt be K N P = Returned C ->
      MqttProtocol.aes_ctr_decrypt be K N C = Returned P /\
      List.length C = List.length P) /\
  (forall K N : bytes,
      aes_key_size K -> List.length N = 16%nat ->
      exists C,
        MqttProtocol.aes_ctr_encrypt be K N P = Returned C /\
        MqttProtocol.aes_ctr_decrypt be K N C = Returned P) /\
  (forall (self : MqttProtocol.t) (packet : bytes) (host : pyval) (port : Z),
      In (SocketSendto packet host port)
         (trace_of (MqttProtocol.send_audio be P self)) ->
      exists key,
        MqttProtocol.fromhex_field (MqttProtocol.aes_key self) = Returned key /\
        MqttProtocol.aes_ctr_decrypt be key (firstn 16 packet) (skipn 16 packet)
        = Returned P).
Proof.
  split; [| split].
  - intros K N C. apply aes_ctr_decrypt_encrypted.
  - intros K N HK HN.
    exists (ctr_update be K (be_value N) 0 P ++ []).
    assert (E : MqttProtocol.aes_ctr_encrypt be K N P
                = Returned (ctr_update be K (be_value N) 0 P ++ [])).
    { unfold MqttProtocol.aes_ctr_encrypt.
      now rewrite (Cipher_AES_CTR_accepts _ _ HK HN). }
    split; [exact E |]. now apply aes_ctr_decrypt_encrypted.
  - intros self packet host port Hsent.
    destruct (send_audio_sent _ _ _ _ _ _ Hsent)
      as (text & key & nonce & ct & _ & Hkey & _ & Hct & -> & _).
    exists key. split; [assumption |].
    destruct (aes_ctr_encrypt_returns _ _ _ _ _ Hct) as (_ & Hn & _).
    replace (firstn 16 (nonce ++ ct)) with nonce
      by (rewrite <- Hn, firstn_app, firstn_all, Nat.sub_diag; cbn; now rewrite app_nil_r).
    replace (skipn 16 (nonce ++ ct)) with ct
      by (rewrite <- Hn, skipn_app, skipn_all, Nat.sub_diag; reflexivity).
    now apply aes_ctr_decrypt_encrypted.
Qed.

Lemma is_hex_hex_char (n : N) : (n < 16)%N -> is_hex (hex_char n) = true.
Proof. intros H. unfold is_hex. now rewrite hex_value_hex_char. Qed.

Lemma forallb_is_hex_hex_fixed (k : nat) :
  forall n : N, forallb is_hex (hex_fixed k n) = true.
Proof.
  induction k as [| k IH]; intros n; [reflexivity |].
  cbn [hex_fixed]. rewrite forallb_app, IH. cbn.
  rewrite is_hex_hex_char; [reflexivity | apply N.mod_lt; lia].
Qed.

Lemma forallb_is_hex_format_hex (w : nat) (z : Z) :
  (0 <= z)%Z -> forallb is_hex (format_hex w z) = true.
Proof.
  intros Hz. unfold format_hex.
  destruct (Z.ltb_spec z 0); [lia |]. apply forallb_is_hex_hex_fixed.
Qed.

(** A text of digits only decodes to exactly half as many bytes. *)
Lemma fromhex_digits_length (s : pystr) (x : bytes) :
  forallb is_hex s = true -> fromhex s = Returned x ->
  List.length s = (2 * List.length x)%nat.
Proof.
  intros Hhex Hx.
  destruct (fromhex_length _ _ Hx) as [Hle _].
  destruct (Nat.Even_or_Odd (List.length s)) as [[k Hk] | [k Hk]].
  - destruct (fromhex_digits k s Hhex Hk) as (y & Hy & Hlen).
    rewrite Hx in Hy. injection Hy as <-. lia.
  - exfalso.
    assert (Hs : s = firstn (2 * k) s ++ skipn (2 * k) s)
      by (symmetry; apply firstn_skipn).
    assert (Hfl : List.length (firstn (2 * k) s) = (2 * k)%nat)
      by (rewrite length_firstn; lia).
    assert (Hsl : List.length (skipn (2 * k) s) = 1%nat)
      by (rewrite length_skipn; lia).
    rewrite Hs, forallb_app in Hhex. apply andb_prop in Hhex as [Hh1 Hh2].
    destruct (fromhex_digits k _ Hh1 Hfl) as (y & Hy & _).
    rewrite Hs, (fromhex_app _ _ _ Hy) in Hx.
    destruct (skipn (2 * k) s) as [| c [| d r]]; try discriminate.
    cbn in Hh2. rewrite andb_true_r in Hh2. unfold is_hex in Hh2.
    cbn [fromhex] in Hx.
    destruct (hex_value c) as [h |] eqn:Ec; [| discriminate].
    rewrite (hex_value_not_space _ _ Ec) in Hx. discriminate.
Qed.

Lemma length_slice_within (a b : nat) (s : pystr) :
  (a <= b)%nat -> (b <= List.length s)%nat ->
  List.length (MqttProtocol.slice a b s) = (b - a)%nat.
Proof.
  intros. unfold MqttProtocol.slice. rewrite length_firstn, length_skipn. lia.
Qed.

Lemma hex_width_gt (w : nat) (n : N) :
  (1 <= w)%nat -> (16 ^ N.of_nat w <= n)%N -> (w < hex_width n)%nat.
Proof.
  intros Hw Hn.
  destruct (Nat.le_gt_cases (hex_width n) w) as [H | H]; [| assumption].
  apply hex_width_le in H; [lia | assumption].
Qed.

(** The text built from a base nonce that supplies the two segments: only
    digits, 28 of them around the length field. *)
Lemma new_nonce_text (base_nonce : string) (audio_len : nat) (sequence : Z) :
  hex_template base_nonce = true ->
  (0 <= sequence < 2 ^ 32)%Z ->
  exists text,
    MqttProtocol.new_nonce (PStr base_nonce) audio_len sequence = Returned text /\
    forallb is_hex text = true /\
    List.length text = (28 + List.length (format_hex 4 (Z.of_nat audio_len)))%nat.
Proof.
  intros Htemplate Hrange.
  unfold hex_template in Htemplate.
  apply andb_prop in Htemplate as [Htemplate Hm].
  apply andb_prop in Htemplate as [Hlen Hp].
  apply Nat.leb_le in Hlen.
  pose proof (length_slice_within 0 4 (py base_nonce) ltac:(lia) ltac:(lia)) as Hpl.
  pose proof (length_slice_within 8 24 (py base_nonce) ltac:(lia) ltac:(lia)) as Hml.
  cbn [Nat.sub] in Hpl, Hml.
  assert (Hseq : format_hex 8 sequence = hex_fixed 8 (Z.to_N sequence))
    by (apply format_hex_fixed; [lia | change (16 ^ Z.of_nat 8)%Z with (2 ^ 32)%Z; lia]).
  eexists. split; [reflexivity |]. split.
  - rewrite !forallb_app, Hp, Hm.
    rewrite !forallb_is_hex_format_hex by lia. reflexivity.
  - rewrite !length_app, Hpl, Hml, Hseq, length_hex_fixed. lia.
Qed.

Lemma format_hex_length_width (audio_len : nat) :
  (List.length (format_hex 4 (Z.of_nat audio_len)) = 4%nat
   <-> (Z.of_nat audio_len <= 65535)%Z) /\
  ((65535 < Z.of_nat audio_len)%Z ->
   (4 < List.length (format_hex 4 (Z.of_nat audio_len)))%nat).
Proof.
  rewrite length_format_hex by lia.
  pose proof (hex_width_le 4 (Z.to_N (Z.of_nat audio_len)) ltac:(lia)) as Hle.
  pose proof (hex_width_gt 4 (Z.to_N (Z.of_nat audio_len)) ltac:(lia)) as Hgt.
  change (16 ^ N.of_nat 4)%N with 65536%N in Hle, Hgt.
  split; [| intros Hbig]; lia.
Qed.

(** A payload too long for the length field is not sent: the text is
    refused by [fromhex] or by the cipher. *)
Lemma send_audio_long_payload_not_sent (be : backend) (audio_data : bytes)
  (self : MqttProtocol.t) (base_nonce : string)
  (packet : bytes) (host : pyval) (port : Z) :
  MqttProtocol.aes_nonce self = PStr base_nonce ->
  hex_template base_nonce = true ->
  (65535 < Z.of_nat (List.length audio_data))%Z ->
  ~ In (SocketSendto packet host port)
       (trace_of (MqttProtocol.send_audio be audio_data self)).
Proof.
  intros Hbase Htemplate Hbig Hsent.
  destruct (send_audio_sent _ _ _ _ _ _ Hsent)
    as (text & key & nonce & ct & Htext & _ & Hnonce & Hct & _).
  destruct (aes_ctr_encrypt_returns _ _ _ _ _ Hct) as (_ & Hn16 & _).
  rewrite Hbase in Htext.
  destruct (new_nonce_text base_nonce (List.length audio_data) _ Htemplate
              (masked_sequence_range (MqttProtocol.local_sequence self)))
    as (text' & Htext' & Hdigits & Hlen).
  rewrite Htext in Htext'. injection Htext' as <-.
  apply (fromhex_digits_length _ _ Hdigits) in Hnonce.
  pose proof (proj2 (format_hex_length_width (List.length audio_data)) Hbig).
  lia.
Qed.

(** C2. Every packet [send_audio] hands to [sendto] is a 16-byte nonce
    followed by the ciphertext: the nonce is the two bytes encoded by
    characters 0..3 of the base nonce, the payload length on two bytes
    big-endian, the eight bytes encoded by characters 8..23 of the base
    nonce, and the incremented sequence counter on four bytes big-endian;
    the ciphertext is the payload encrypted under the session key with that
    nonce as counter block, and is as long as the payload. This holds for
    every payload whose length fits two bytes, and for every payload when
    the base nonce supplies the two segments as hexadecimal digits. *)
Theorem send_audio_packet (be : backend) (audio_data : bytes)
  (self : MqttProtocol.t) (packet : bytes) (host : pyval) (port : Z) :
  (Z.of_nat (List.length audio_data) <= 65535)%Z
  \/ (exists base_nonce,
        MqttProtocol.aes_nonce self = PStr base_nonce /\
        hex_template base_nonce = true) ->
  In (SocketSendto packet host port)
     (trace_of (MqttProtocol.send_audio be audio_data self)) ->
  exists base_nonce prefix middle key ct,
    MqttProtocol.aes_nonce self = PStr base_nonce /\
    fromhex (MqttProtocol.slice 0 4 (py base_nonce)) = Returned prefix /\
    List.length prefix = 2%nat /\
    fromhex (MqttProtocol.slice 8 24 (py base_nonce)) = Returned middle /\
    List.length middle = 8%nat /\
    MqttProtocol.fromhex_field (MqttProtocol.aes_key self) = Returned key /\
    let sequence :=
      MqttProtocol.local_sequence
        (state_of (MqttProtocol.send_audio be audio_data self)) in
    let nonce :=
      prefix ++ be_bytes 2 (N.of_nat (List.length audio_data))
             ++ middle ++ be_bytes 4 (Z.to_N sequence) in
    sequence = ((MqttProtocol.local_sequence self + 1) mod 2 ^ 32)%Z /\
    List.length nonce = 16%nat /\
    MqttProtocol.aes_ctr_encrypt be key nonce audio_data = Returned ct /\
    List.length ct = List.length audio_data /\
    packet = nonce ++ ct /\
    host = MqttProtocol.udp_server self /\ port = MqttProtocol.udp_port self.
Proof.
  intros Hfits Hsent.
  apply send_audio_packet_short; [| exact Hsent].
  destruct Hfits as [Hshort | (base_nonce & Hbase & Htemplate)]; [exact Hshort |].
  destruct (Z.le_gt_cases (Z.of_nat (List.length audio_data)) 65535)
    as [Hshort | Hlong]; [exact Hshort | exfalso].
  exact (send_audio_long_payload_not_sent be audio_data self base_nonce
           packet host port Hbase Htemplate Hlong Hsent).
Qed.

(** C10. With a base nonce that supplies the two segments, the text
    [send_audio] builds decodes to exactly 16 bytes if and only if the
    payload is at most 65535 bytes long: the length field has four digits
    exactly then; a longer payload makes the length field wider than four
    digits and the text longer than 32 digits, so that whatever it decodes
    to is longer than 16 bytes; the masked sequence field always has eight
    digits, four bytes. *)
Theorem new_nonce_sixteen_bytes (base_nonce : string) (audio_len : nat) (counter : Z) :
  hex_template base_nonce = true ->
  let sequence := Z.land (counter + 1) 4294967295 in
  exists text,
    MqttProtocol.new_nonce (PStr base_nonce) audio_len sequence = Returned text /\
    ((exists nonce, fromhex text = Returned nonce /\ List.length nonce = 16%nat)
     <-> (Z.of_nat audio_len <= 65535)%Z) /\
    (List.length (format_hex 4 (Z.of_nat audio_len)) = 4%nat
     <-> (Z.of_nat audio_len <= 65535)%Z) /\
    ((65535 < Z.of_nat audio_len)%Z ->
     (4 < List.length (format_hex 4 (Z.of_nat audio_len)))%nat /\
     (32 < List.length text)%nat /\
     forall nonce, fromhex text = Returned nonce -> (16 < List.length nonce)%nat) /\
    List.length (format_hex 8 sequence) = 8%nat /\
    fromhex (format_hex 8 sequence) = Returned (be_bytes 4 (Z.to_N sequence)).
Proof.
  intros Htemplate sequence.
  pose proof (masked_sequence_range counter) as Hrange. fold sequence in Hrange.
  destruct (new_nonce_text base_nonce audio_len sequence Htemplate Hrange)
    as (text & Htext & Hdigits & Htl).
  destruct (format_hex_length_width audio_len) as [Hwidth Hwide].
  assert (Hseq : format_hex 8 sequence = hex_fixed 8 (Z.to_N sequence))
    by (apply format_hex_fixed; [lia | change (16 ^ Z.of_nat 8)%Z with (2 ^ 32)%Z; lia]).
  exists text. split; [exact Htext |].
  split; [| split; [exact Hwidth | split; [| split]]].
  - split.
    + intros (nonce & Hnonce & Hn16).
      apply (fromhex_digits_length _ _ Hdigits) in Hnonce.
      apply Hwidth. lia.
    + intros Hsmall. apply Hwidth in Hsmall.
      destruct (fromhex_digits 16 text Hdigits ltac:(lia)) as (nonce & Hnonce & Hn).
      eauto.
  - intros Hbig. specialize (Hwide Hbig). repeat split; [assumption | lia |].
    intros nonce Hnonce.
    apply (fromhex_digits_length _ _ Hdigits) in Hnonce. lia.
  - rewrite Hseq. apply length_hex_fixed.
  - rewrite Hseq. apply (fromhex_hex_fixed 4).
Qed.

(** ** The receive worker *)

Lemma Cipher_AES_CTR_rejects (key nonce : bytes) :
  List.length nonce <> 16%nat -> Cipher_AES_CTR key nonce = Raised ValueError.
Proof.
  intros Hn. unfold Cipher_AES_CTR.
  destruct (negb _); [reflexivity |].
  destruct (256 <? _)%nat; [reflexivity |].
  destruct (Nat.eqb_spec (8 * List.length nonce) 128) as [H | H]; [lia | reflexivity].
Qed.

(** A counter block cut as [data[:32]] is refused by the cipher whenever
    the datagram has that many bytes. *)
Lemma aes_ctr_decrypt_32 (be : backend) (key data ct : bytes) :
  (32 <= List.length data)%nat ->
  MqttProtocol.aes_ctr_decrypt be key (firstn 32 data) ct = Raised ValueError.
Proof.
  intros Hlen. unfold MqttProtocol.aes_ctr_decrypt.
  rewrite Cipher_AES_CTR_rejects; [reflexivity |].
  rewrite length_firstn. lia.
Qed.

(** One pass of the loop, case by case. *)
Lemma _udp_receive_once_run (be : backend) (r : MqttProtocol.received)
  (self : MqttProtocol.t) :
  MqttProtocol._udp_receive_once be r self =
  let logged := if MqttProtocol.udp_running self then [Log ERROR] else [] in
  match r with
  | MqttProtocol.Timeout => (Returned tt, self, [SocketSettimeout])
  | MqttProtocol.Failure _ => (Returned tt, self, SocketSettimeout :: logged)
  | MqttProtocol.Datagram data =>
      if (32 <? List.length data)%nat
      then
        match MqttProtocol.fromhex_field (MqttProtocol.aes_key self) with
        | Raised _ => (Returned tt, self, SocketSettimeout :: logged)
        | Returned key =>
            (Returned tt, self,
             SocketSettimeout
               :: CipherDecrypt key (firstn 32 data) (skipn 32 data) :: logged)
        end
      else (Returned tt, self, [SocketSettimeout])
  end.
Proof.
  unfold MqttProtocol._udp_receive_once. cbv zeta. step.
  destruct r as [data | | e].
  - rewrite try_except_run.
    destruct (Nat.ltb_spec 32 (List.length data)) as [Hlen | Hlen].
    + replace (match data with [] => false | _ :: _ => true end) with true
        by (destruct data; [simpl in Hlen; lia | reflexivity]).
      cbn [andb]. steps.
      destruct (MqttProtocol.fromhex_field _) as [key |]; steps.
      * rewrite fromhex_bytes_hex. steps.
        rewrite aes_ctr_decrypt_32 by lia. steps.
        observe. steps. unfold when.
        destruct (MqttProtocol.udp_running self); reflexivity.
      * observe. steps. unfold when.
        destruct (MqttProtocol.udp_running self); reflexivity.
    + rewrite andb_false_r. reflexivity.
  - reflexivity.
  - steps. unfold when. destruct (MqttProtocol.udp_running self); reflexivity.
Qed.

Lemma _udp_receive_once_state (be : backend) (r : MqttProtocol.received)
  (self : MqttProtocol.t) :
  state_of (MqttProtocol._udp_receive_once be r self) = self.
Proof.
  rewrite _udp_receive_once_run. cbv zeta.
  destruct r as [data | | e]; try reflexivity.
  destruct (32 <? _)%nat; [| reflexivity].
  now destruct (MqttProtocol.fromhex_field _).
Qed.

Lemma _udp_receive_once_silent (be : backend) (r : MqttProtocol.received)
  (self : MqttProtocol.t) (plaintext : bytes) :
  ~ In (CallIncomingAudio plaintext)
       (trace_of (MqttProtocol._udp_receive_once be r self)).
Proof.
  rewrite _udp_receive_once_run. cbv zeta.
  destruct r as [data | | e];
    [destruct (32 <? _)%nat; [destruct (MqttProtocol.fromhex_field _) |] | |];
    destruct (MqttProtocol.udp_running self); cbn; intuition discriminate.
Qed.

(** C3. The receive worker never calls the incoming-audio listener,
    whatever datagrams arrive: a datagram longer than 32 bytes has its first
    32 bytes taken as the counter block, which the cipher refuses, and the
    [except] clause logs the error; shorter ones are dropped. *)
Theorem _udp_receive_thread_never_delivers (be : backend)
  (input : list MqttProtocol.received) (self : MqttProtocol.t) (plaintext : bytes) :
  ~ In (CallIncomingAudio plaintext)
       (trace_of (MqttProtocol._udp_receive_thread be input self)).
Proof.
  unfold MqttProtocol._udp_receive_thread. step. observe.
  intros [H | H]; [discriminate |]. revert self H.
  induction input as [| r input IH]; intros self H.
  - cbn in H. exact H.
  - cbn [MqttProtocol._udp_receive_thread_loop] in H. revert H. steps.
    destruct (MqttProtocol.udp_running self && _).
    + unfold bind.
      pose proof (_udp_receive_once_state be r self) as Hs.
      pose proof (_udp_receive_once_silent be r self plaintext) as Ht.
      destruct (MqttProtocol._udp_receive_once be r self) as [[[[] | e] s1] t1] eqn:E;
        cbn [state_of trace_of fst snd] in Hs, Ht; subst s1.
      * observe. intros H. apply in_app_or in H as [H | H]; [auto | eauto].
      * cbn. exact Ht.
    + cbn. intuition discriminate.
Qed.

(** C9. A datagram of at most 32 bytes is dropped: the pass of the loop
    returns, leaves every field as it was and calls nothing after
    [settimeout] (no cipher, no listener, no logger), and while the thread
    is meant to run the loop goes on with the next datagram. *)
Theorem short_datagram_dropped (be : backend) (data : bytes) (self : MqttProtocol.t) :
  (List.length data <= 32)%nat ->
  MqttProtocol._udp_receive_once be (MqttProtocol.Datagram data) self
  = (Returned tt, self, [SocketSettimeout]) /\
  forall rest,
    MqttProtocol.udp_running self = true ->
    MqttProtocol.udp_socket self <> None ->
    MqttProtocol._udp_receive_thread_loop be (MqttProtocol.Datagram data :: rest) self
    = after [SocketSettimeout] (MqttProtocol._udp_receive_thread_loop be rest self).
Proof.
  intros Hlen.
  assert (Honce : MqttProtocol._udp_receive_once be (MqttProtocol.Datagram data) self
                  = (Returned tt, self, [SocketSettimeout])).
  { rewrite _udp_receive_once_run. cbv zeta.
    destruct (Nat.ltb_spec 32 (List.length data)); [lia | reflexivity]. }
  split; [exact Honce |].
  intros rest Hrun Hsock.
  cbn [MqttProtocol._udp_receive_thread_loop]. steps.
  rewrite Hrun. destruct (MqttProtocol.udp_socket self); [| contradiction].
  cbn [MqttProtocol.is_some andb]. unfold bind. rewrite Honce. reflexivity.
Qed.

(** ** Server hello *)

Lemma str_eqb_false (v : pyval) (lit : string) :
  v <> PStr lit -> str_eqb v lit = false.
Proof.
  destruct v; try reflexivity. cbn. intros H.
  apply String.eqb_neq. congruence.
Qed.

Lemma str_eqb_true (v : pyval) (lit : string) :
  str_eqb v lit = true -> v = PStr lit.
Proof.
  destruct v; try discriminate. cbn. intros H.
  apply String.eqb_eq in H. now subst.
Qed.

(** C6. A server hello whose transport tag is not the one the transport
    asked for in its client hello is ignored, by either transport: the
    handler returns without raising, leaves every field as it was
    ([session_id] and the handshake event included) and only logs. *)
Theorem mismatched_server_hello_ignored :
  (forall (cfg : AudioConfig) (created : outcome socket_obj)
          (data : list (string * pyval)) (self : MqttProtocol.t),
      dict_get data "transport" PNone
        <> dict_get (MqttProtocol.hello_message cfg) "transport" PNone ->
      MqttProtocol._handle_server_hello created data self
      = (Returned tt, self, [Log ERROR])) /\
  (forall (cfg : AudioConfig) (data : list (string * pyval))
          (self : WebSocketProtocol.t),
      dict_get data "transport" PNone
        <> dict_get (WebSocketProtocol.hello_message cfg) "transport" PNone ->
      WebSocketProtocol._handle_server_hello data self
      = (Returned tt, self, [Log ERROR])).
Proof.
  split; intros cfg.
  - intros created data self Htag.
    change (dict_get (MqttProtocol.hello_message cfg) "transport" PNone)
      with (PStr "mqtt") in Htag.
    unfold MqttProtocol._handle_server_hello. cbv zeta.
    rewrite try_except_run, (str_eqb_false _ _ Htag), orb_true_r.
    reflexivity.
  - intros data self Htag.
    change (dict_get (WebSocketProtocol.hello_message cfg) "transport" PNone)
      with (PStr "websocket") in Htag.
    unfold WebSocketProtocol._handle_server_hello. cbv zeta.
    rewrite try_except_run, (str_eqb_false _ _ Htag), orb_true_r.
    reflexivity.
Qed.

(** An empty value is no port: [int] raises on it or gives 0. *)
Lemma py_int_empty (v : pyval) (port : Z) :
  truthy v = false -> py_int v = Returned port -> port = 0%Z.
Proof.
  destruct v as [| b | z | f | s | l | d]; cbn; try discriminate.
  - intros -> H. now injection H.
  - intros Hz H. injection H as <-. apply negb_false_iff in Hz.
    now apply Z.eqb_eq.
  - destruct f; try discriminate. intros _ H. now injection H.
  - intros Hs. apply negb_false_iff, String.eqb_eq in Hs. subst s.
    cbn. discriminate.
Qed.

Lemma hello_field_dict (data info : list (string * pyval)) (k : string) :
  dict_get data "udp_audio" (PDict []) = PDict info ->
  hello_field data k = dict_lookup info k.
Proof.
  unfold dict_get, hello_field.
  destruct (dict_lookup data "udp_audio") as [v |]; intros H.
  - now subst v.
  - injection H as <-. reflexivity.
Qed.

Lemma dict_get_empty (info : list (string * pyval)) (k : string) (default : pyval) :
  missing_or_empty (dict_lookup info k) = true -> truthy default = false ->
  truthy (dict_get info k default) = false.
Proof.
  unfold dict_get. destruct (dict_lookup info k); cbn; intros H Hd.
  - now apply negb_true_iff.
  - assumption.
Qed.

Ltac quiet_done :=
  observe; fields;
  (split; [intros a Ha; cbn in Ha; unfold quiet; intuition auto
          | unfold same_channel; fields; auto 10]).

Ltac handler_done :=
  observe; steps; unfold notify;
  match goal with
  | |- context [Protocol._on_network_error ?b] =>
      destruct (Protocol._on_network_error b) as [[[? |]] |]
  end;
  steps; quiet_done.

Lemma incomplete_hello_run (created : outcome socket_obj)
  (data : list (string * pyval)) (self : MqttProtocol.t) :
  dict_get data "transport" PNone = PStr "mqtt" ->
  (missing_or_empty (hello_field data "host")
   || missing_or_empty (hello_field data "port")
   || missing_or_empty (hello_field data "aes_key")
   || missing_or_empty (hello_field data "aes_nonce")) = true ->
  let r := MqttProtocol._handle_server_hello created data self in
  (forall a, In a (trace_of r) -> quiet a) /\
  same_channel self (state_of r).
Proof.
  intros Htag Hmiss. cbv zeta.
  unfold MqttProtocol._handle_server_hello. cbv zeta.
  rewrite try_except_run, Htag.
  cbn [truthy str_eqb String.eqb Ascii.eqb Bool.eqb negb orb andb].
  steps.
  destruct (dict_get data "udp_audio" (PDict [])) as [| b | z | f | s | l | info] eqn:Einfo;
    cbn [py_get]; steps; try solve [handler_done].
  rewrite !(hello_field_dict _ _ _ Einfo) in Hmiss.
  destruct (py_int (dict_get info "port" (PInt 0))) as [port |] eqn:Eport;
    steps; [| handler_done].
  destruct (truthy (dict_get info "host" (PStr "")) && negb (port =? 0)%Z
            && truthy (dict_get info "aes_key" (PStr ""))
            && truthy (dict_get info "aes_nonce" (PStr ""))) eqn:Eall;
    cbn [negb]; [exfalso | steps; quiet_done].
  apply andb_prop in Eall as [Eall Hnonce].
  apply andb_prop in Eall as [Eall Hkey].
  apply andb_prop in Eall as [Hhost Hport].
  apply negb_true_iff, Z.eqb_neq in Hport.
  apply orb_prop in Hmiss as [Hmiss | Hmiss];
    [apply orb_prop in Hmiss as [Hmiss | Hmiss];
     [apply orb_prop in Hmiss as [Hmiss | Hmiss] |] |].
  - rewrite (dict_get_empty info "host" (PStr "") Hmiss eq_refl) in Hhost.
    discriminate.
  - apply Hport, (py_int_empty (dict_get info "port" (PInt 0))); [| assumption].
    now apply dict_get_empty.
  - rewrite (dict_get_empty info "aes_key" (PStr "") Hmiss eq_refl) in Hkey.
    discriminate.
  - rewrite (dict_get_empty info "aes_nonce" (PStr "") Hmiss eq_refl) in Hnonce.
    discriminate.
Qed.

(** ** Send failures *)

Ltac run_method :=
  cbv [bind gets modify emit lift ret raise may_raise when try_except try_finally
       notify after result_of state_of trace_of fst snd app];
  fields.

(** [MqttProtocol.send_audio] raises nothing of its own: what leaves it is
    what the network-error listener raised inside the [except] clause. *)
Lemma send_audio_raises_only_listener (be : backend) (audio_data : bytes)
  (self : MqttProtocol.t) (e : exn) :
  result_of (MqttProtocol.send_audio be audio_data self) = Raised e ->
  exists l,
    Protocol._on_network_error (MqttProtocol.base self) = Some l /\
    listener_raises l = Some e.
Proof.
  rewrite send_audio_run.
  destruct (MqttProtocol.udp_socket self) as [s |]; [| discriminate].
  destruct (negb _ || _); [discriminate |].
  cbv zeta. unfold send_audio_failed. fields.
  destruct (MqttProtocol.new_nonce _ _ _) as [text |];
  [ destruct (MqttProtocol.fromhex_field _) as [key |];
    [ destruct (fromhex text) as [nonce |];
      [ destruct (MqttProtocol.aes_ctr_encrypt be key nonce audio_data) as [ct |];
        [ destruct (sock_sendto s (nonce ++ ct)) as [e1 |] | ] | ] | ] | ];
  try (destruct (Protocol._on_network_error _) as [[[e' |]] |]);
  cbn; intros H; try discriminate; injection H as <-; eauto.
Qed.

Lemma ws_send_audio_raises (audio_data : bytes) (self : WebSocketProtocol.t)
  (w : ws_obj) (e : exn) :
  WebSocketProtocol.websocket self = Some w ->
  WebSocketProtocol.connected self = true ->
  ws_send w (WsBinary audio_data) = Some e ->
  listener_returns (Protocol._on_network_error (WebSocketProtocol.base self)) ->
  result_of (WebSocketProtocol.send_audio audio_data self) = Raised MessageError.
Proof.
  intros Hw Hc He Hl. unfold WebSocketProtocol.send_audio. steps.
  rewrite Hw, Hc. cbn [negb]. rewrite try_except_run. steps. rewrite He. steps.
  observe. rewrite bind_handle_error.
  unfold listener_returns in Hl.
  destruct (Protocol._on_network_error _) as [l |]; [rewrite Hl |]; reflexivity.
Qed.

Lemma mqtt_send_text_raises (message : string) (self : MqttProtocol.t)
  (c : mqtt_client_obj) (e : exn) :
  MqttProtocol.mqtt_client self = Some c ->
  client_publish c message = Raised e ->
  listener_returns (Protocol._on_network_error (MqttProtocol.base self)) ->
  result_of (MqttProtocol.send_text message self) = Raised MessageError.
Proof.
  intros Hc He Hl. unfold MqttProtocol.send_text. steps.
  rewrite Hc. rewrite try_except_run. steps. rewrite He.
  unfold lift. observe. rewrite bind_handle_error.
  unfold listener_returns in Hl.
  destruct (Protocol._on_network_error _) as [l |]; [rewrite Hl |]; reflexivity.
Qed.

Lemma bind_eq {S A B} (m : M S A) (k : A -> M S B) (s : S)
  (r : outcome A * S * list action) :
  m s = r ->
  bind m k s =
  match r with
  | (Returned a, s1, t1) => after t1 (k a s1)
  | (Raised e, s1, t1) => (Raised e, s1, t1)
  end.
Proof. intros <-. reflexivity. Qed.

Lemma ws_disconnect_eq (self : WebSocketProtocol.t) :
  WebSocketProtocol.disconnect self =
  match WebSocketProtocol.websocket self with
  | None => (Returned true, self, [])
  | Some w =>
      let closed :=
        WebSocketProtocol.set_connected false
          (WebSocketProtocol.set_websocket None self) in
      match ws_close w with
      | None => (Returned true, closed, [WsClose; Log INFO])
      | Some _ => (Returned false, closed, [WsClose; Log ERROR])
      end
  end.
Proof.
  destruct self as [b [[send [ce |]] |] conn ev]; reflexivity.
Qed.

Lemma ws_send_text_raises (message : string) (self : WebSocketProtocol.t)
  (w : ws_obj) (e : exn) :
  WebSocketProtocol.websocket self = Some w ->
  ws_send w (WsText message) = Some e ->
  listener_returns (Protocol._on_network_error (WebSocketProtocol.base self)) ->
  let r := WebSocketProtocol.send_text message self in
  result_of r = Raised MessageError /\
  WebSocketProtocol.websocket (state_of r) = None.
Proof.
  intros Hw He Hl. cbv zeta. unfold listener_returns in Hl.
  unfold WebSocketProtocol.send_text. steps. rewrite Hw.
  rewrite try_except_run. steps. rewrite He. steps. observe.
  unfold WebSocketProtocol.close_audio_channel.
  rewrite (bind_eq _ _ _ _ (ws_disconnect_eq self)), Hw. cbv zeta.
  destruct (ws_close w); observe; rewrite bind_handle_error; fields;
    (destruct (Protocol._on_network_error _) as [l |]; [rewrite Hl |]);
    split; reflexivity.
Qed.

(** C7, on [MqttProtocol.send_audio]: when [sendto] raises on an opened
    datagram channel, and the network-error listener returns, the method
    returns [False]; no [MessageError] reaches the caller. The other three
    send methods raise it (lemmas [ws_send_audio_raises],
    [ws_send_text_raises], [mqtt_send_text_raises]). *)
Theorem mqtt_send_audio_swallows_failure (be : backend) (audio_data : bytes)
  (self : MqttProtocol.t) (s : socket_obj) (e : exn) :
  MqttProtocol.udp_socket self = Some s ->
  truthy (MqttProtocol.udp_server self) = true ->
  MqttProtocol.udp_port self <> 0%Z ->
  (forall packet, sock_sendto s packet = Some e) ->
  listener_returns (Protocol._on_network_error (MqttProtocol.base self)) ->
  result_of (MqttProtocol.send_audio be audio_data self) = Returned false.
Proof.
  intros Hs Hserver Hport Hsend Hl.
  rewrite send_audio_run, Hs, Hserver.
  apply Z.eqb_neq in Hport. rewrite Hport. cbn [negb orb]. cbv zeta.
  unfold send_audio_failed. fields. unfold listener_returns in Hl.
  destruct (MqttProtocol.new_nonce _ _ _) as [text |];
  [ destruct (MqttProtocol.fromhex_field _) as [key |];
    [ destruct (fromhex text) as [nonce |];
      [ destruct (MqttProtocol.aes_ctr_encrypt be key nonce audio_data) as [ct |];
        [ rewrite Hsend | ] | ] | ] | ];
  (destruct (Protocol._on_network_error _) as [l |]; [rewrite Hl |]; reflexivity).
Qed.

(** ** Disconnect *)

Lemma mqtt_disconnect_run (self : MqttProtocol.t) :
  let r := MqttProtocol.disconnect self in
  (exists b,
      result_of r = Returned b /\
      (b = false <->
       exists c, MqttProtocol.mqtt_client self = Some c /\
                 (client_loop_stop c <> None \/ client_disconnect c <> None))) /\
  MqttProtocol.udp_socket (state_of r) = None /\
  MqttProtocol.mqtt_client (state_of r) = None /\
  MqttProtocol.udp_running (state_of r) = false /\
  MqttProtocol.local_sequence (state_of r) = MqttProtocol.local_sequence self.
Proof.
  destruct self as [b c s th run topic server port key nonce seq rseq ev].
  cbv zeta. unfold MqttProtocol.disconnect.
  destruct run, th, s as [[[ce |] sendto] |], c as [[pub [le |] [de |]] |];
    run_method;
    (split;
     [ eexists; split; [reflexivity |]; split;
       [ intros H;
         first [ discriminate H
               | eexists; split; [reflexivity |]; cbn;
                 first [left; discriminate | right; discriminate] ]
       | intros (c' & Hc & Hn);
         first [ discriminate Hc
               | reflexivity
               | injection Hc as <-; cbn in Hn; destruct Hn as [Hn | Hn];
                 congruence ] ]
     | auto ]).
Qed.

Lemma mqtt_disconnect_closed (self : MqttProtocol.t) :
  MqttProtocol.udp_running self = false ->
  MqttProtocol.udp_socket self = None ->
  MqttProtocol.mqtt_client self = None ->
  MqttProtocol.disconnect self = (Returned true, self, []).
Proof.
  intros Hr Hs Hc. unfold MqttProtocol.disconnect.
  repeat first [ rewrite Hr | rewrite Hs | rewrite Hc
               | progress steps | progress unfold when ].
  reflexivity.
Qed.

Lemma ws_disconnect_run (self : WebSocketProtocol.t) :
  let r := WebSocketProtocol.disconnect self in
  (exists b,
      result_of r = Returned b /\
      (b = false <->
       exists w, WebSocketProtocol.websocket self = Some w /\ ws_close w <> None)) /\
  WebSocketProtocol.websocket (state_of r) = None.
Proof.
  destruct self as [b [[send [ce |]] |] conn ev];
    cbv zeta; unfold WebSocketProtocol.disconnect; run_method;
    (split;
     [ eexists; split; [reflexivity |]; split;
       [ intros H;
         first [ discriminate H
               | eexists; split; [reflexivity |]; cbn; discriminate ]
       | intros (w & Hw & Hn);
         first [ discriminate Hw
               | reflexivity
               | injection Hw as <-; cbn in Hn; congruence ] ]
     | reflexivity ]).
Qed.

Lemma ws_disconnect_closed (self : WebSocketProtocol.t) :
  WebSocketProtocol.websocket self = None ->
  WebSocketProtocol.disconnect self = (Returned true, self, []).
Proof.
  intros Hw. unfold WebSocketProtocol.disconnect.
  repeat first [ rewrite Hw | progress steps ].
  reflexivity.
Qed.

(** C8 as stated fails: with a client whose [disconnect] raises, the
    first call returns [False]. *)
Lemma disconnect_returns_false :
  result_of (MqttProtocol.disconnect
               (MqttProtocol.set_mqtt_client (Some failing_client)
                  MqttProtocol.__init__))
  = Returned false.
Proof. reflexivity. Qed.

(** C8, amended. For both transports, [disconnect] never raises; it
    returns [True] unless closing the control connection raised (for MQTT:
    [loop_stop] or [disconnect] of the client; for WebSocket: [close]);
    after any call no socket, client or connection object is held and
    [is_audio_channel_opened] is false; a second call in a row returns
    [True], changes nothing and calls nothing; so does a call on a transport
    that never connected. *)
Theorem disconnect_idempotent :
  (forall self : MqttProtocol.t,
      let r := MqttProtocol.disconnect self in
      (exists b,
          result_of r = Returned b /\
          (b = false <->
           exists c, MqttProtocol.mqtt_client self = Some c /\
                     (client_loop_stop c <> None \/ client_disconnect c <> None))) /\
      MqttProtocol.udp_socket (state_of r) = None /\
      MqttProtocol.mqtt_client (state_of r) = None /\
      MqttProtocol.is_audio_channel_opened (state_of r) = false /\
      MqttProtocol.disconnect (state_of r) = (Returned true, state_of r, [])) /\
  MqttProtocol.disconnect MqttProtocol.__init__
  = (Returned true, MqttProtocol.__init__, []) /\
  (forall self : WebSocketProtocol.t,
      let r := WebSocketProtocol.disconnect self in
      (exists b,
          result_of r = Returned b /\
          (b = false <->
           exists w, WebSocketProtocol.websocket self = Some w /\ ws_close w <> None)) /\
      WebSocketProtocol.websocket (state_of r) = None /\
      WebSocketProtocol.is_audio_channel_opened (state_of r) = false /\
      WebSocketProtocol.disconnect (state_of r) = (Returned true, state_of r, [])) /\
  WebSocketProtocol.disconnect WebSocketProtocol.__init__
  = (Returned true, WebSocketProtocol.__init__, []).
Proof.
  split; [| split; [reflexivity | split; [| reflexivity]]].
  - intros self r.
    destruct (mqtt_disconnect_run self) as (Hres & Hs & Hc & Hr & _).
    fold r in Hres, Hs, Hc, Hr.
    split; [exact Hres |]. split; [exact Hs |]. split; [exact Hc |]. split.
    + unfold MqttProtocol.is_audio_channel_opened. now rewrite Hs.
    + now apply mqtt_disconnect_closed.
  - intros self r.
    destruct (ws_disconnect_run self) as (Hres & Hw). fold r in Hres, Hw.
    split; [exact Hres |]. split; [exact Hw |]. split.
    + unfold WebSocketProtocol.is_audio_channel_opened. now rewrite Hw.
    + now apply ws_disconnect_closed.
Qed.

(** ** Fields a method leaves alone *)

Section Preserves.

Context {S X : Type} (proj : S -> X).

Lemma preserves_ret {A} (a : A) : preserves proj (ret a).
Proof. intros s. reflexivity. Qed.

Lemma preserves_raise {A} (e : exn) : preserves proj (@raise S A e).
Proof. intros s. reflexivity. Qed.

Lemma preserves_gets {A} (f : S -> A) : preserves proj (gets f).
Proof. intros s. reflexivity. Qed.

Lemma preserves_emit (a : action) : preserves proj (emit a).
Proof. intros s. reflexivity. Qed.

Lemma preserves_lift {A} (o : outcome A) : preserves proj (lift o).
Proof. intros s. reflexivity. Qed.

Lemma preserves_may_raise (r : option exn) : preserves proj (may_raise r).
Proof. intros s. destruct r; reflexivity. Qed.

Lemma preserves_modify (f : S -> S) :
  (forall s, proj (f s) = proj s) -> preserves proj (modify f).
Proof. intros H s. apply H. Qed.

Lemma preserves_bind {A B} (m : M S A) (k : A -> M S B) :
  preserves proj m -> (forall a, preserves proj (k a)) ->
  preserves proj (bind m k).
Proof.
  intros Hm Hk s. unfold bind. specialize (Hm s).
  destruct (m s) as [[[a | e] s1] t1]; cbn in Hm.
  - rewrite state_of_after, Hk. exact Hm.
  - exact Hm.
Qed.

Lemma preserves_try_except {A} (m : M S A) (h : exn -> M S A) :
  preserves proj m -> (forall e, preserves proj (h e)) ->
  preserves proj (try_except m h).
Proof.
  intros Hm Hh s. unfold try_except. specialize (Hm s).
  destruct (m s) as [[[a | e] s1] t1]; cbn in Hm.
  - exact Hm.
  - rewrite state_of_after, Hh. exact Hm.
Qed.

Lemma preserves_try_finally {A} (m : M S A) (f : M S unit) :
  preserves proj m -> preserves proj f -> preserves proj (try_finally m f).
Proof.
  intros Hm Hf s. unfold try_finally. specialize (Hm s).
  destruct (m s) as [[r s1] t1]; cbn in Hm. specialize (Hf s1).
  destruct (f s1) as [[[[] | e] s2] t2]; cbn in Hf |- *; congruence.
Qed.

Lemma preserves_when (b : bool) (m : M S unit) :
  preserves proj m -> preserves proj (when b m).
Proof. intros Hm. destruct b; [exact Hm | apply preserves_ret]. Qed.

Lemma preserves_notify (slot : option listener) (call : action) :
  preserves proj (notify slot call).
Proof.
  destruct slot as [l |]; [| apply preserves_ret].
  intros s. cbn. destruct (listener_raises l); reflexivity.
Qed.

Lemma preserves_handle_error (base : S -> Protocol.t) (e : exn) :
  preserves proj (Protocol._handle_error base e).
Proof.
  intros s. rewrite _handle_error_run.
  destruct (Protocol._on_network_error (base s)) as [[[e' |]] |]; reflexivity.
Qed.

End Preserves.

Create HintDb preserves.
#[export] Hint Resolve preserves_ret preserves_raise preserves_gets preserves_emit
  preserves_lift preserves_may_raise preserves_when preserves_notify
  preserves_handle_error : preserves.

Ltac preserve :=
  repeat first
    [ apply preserves_bind; [| intros ?]
    | apply preserves_try_except; [| intros ?]
    | apply preserves_try_finally
    | apply preserves_when
    | apply preserves_modify; intros ?; reflexivity
    | solve [auto with preserves]
    | match goal with
      | |- preserves _ (match ?x with _ => _ end) => destruct x
      | |- preserves _ (if ?b then _ else _) => destruct b
      | |- preserves _ (let _ := _ in _) => cbv zeta
      end ].

Lemma disconnect_keeps_sequence :
  preserves MqttProtocol.local_sequence MqttProtocol.disconnect.
Proof. unfold MqttProtocol.disconnect. preserve. Qed.

Lemma send_text_keeps_sequence (message : string) :
  preserves MqttProtocol.local_sequence (MqttProtocol.send_text message).
Proof. unfold MqttProtocol.send_text. preserve. Qed.

Lemma _init_udp_socket_keeps_sequence (created : outcome socket_obj) :
  preserves MqttProtocol.local_sequence (MqttProtocol._init_udp_socket created).
Proof. unfold MqttProtocol._init_udp_socket. preserve. Qed.

Lemma _handle_server_hello_keeps_sequence (created : outcome socket_obj)
  (data : list (string * pyval)) :
  preserves MqttProtocol.local_sequence
    (MqttProtocol._handle_server_hello created data).
Proof.
  unfold MqttProtocol._handle_server_hello. cbv zeta.
  pose proof (_init_udp_socket_keeps_sequence created).
  preserve.
Qed.

Lemma _on_mqtt_message_keeps_sequence (created : outcome socket_obj) (data : pyval) :
  preserves MqttProtocol.local_sequence (MqttProtocol._on_mqtt_message created data).
Proof.
  unfold MqttProtocol._on_mqtt_message.
  pose proof (_handle_server_hello_keeps_sequence created).
  preserve.
Qed.

Lemma _udp_receive_thread_keeps_sequence (be : backend)
  (input : list MqttProtocol.received) :
  preserves MqttProtocol.local_sequence (MqttProtocol._udp_receive_thread be input).
Proof.
  unfold MqttProtocol._udp_receive_thread. preserve.
  induction input as [| r input IH]; cbn [MqttProtocol._udp_receive_thread_loop].
  - preserve.
  - preserve.
Qed.

(** ** A session as a sequence of calls *)

Lemma perform_sequence (be : backend) (c : call) (self : MqttProtocol.t) :
  MqttProtocol.local_sequence (perform be c self) =
  if builds_packet c self
  then ((MqttProtocol.local_sequence self + 1) mod 2 ^ 32)%Z
  else MqttProtocol.local_sequence self.
Proof.
  destruct c; cbn [perform builds_packet].
  - apply disconnect_keeps_sequence.
  - apply disconnect_keeps_sequence.
  - apply send_text_keeps_sequence.
  - rewrite send_audio_state.
    destruct (MqttProtocol.is_some _ && _); [| reflexivity].
    cbn [MqttProtocol.local_sequence MqttProtocol.set_local_sequence].
    apply masked_sequence.
  - apply _handle_server_hello_keeps_sequence.
  - apply _on_mqtt_message_keeps_sequence.
  - apply _udp_receive_thread_keeps_sequence.
  - reflexivity.
Qed.

(** C4. A call changes [local_sequence] only when it is a [send_audio]
    that reaches the packet construction, and then to the old value plus
    one modulo [2^32]; from [2^32 - 1] the counter becomes 0, and the call
    raises nothing but what the network-error listener raises in the
    [except] clause; no other call resets or changes the counter, so over
    any sequence of calls it is the starting value plus the number of
    packets built, modulo [2^32]. *)
Theorem local_sequence_counter (be : backend) :
  (forall (c : call) (self : MqttProtocol.t),
      MqttProtocol.local_sequence (perform be c self) =
      if builds_packet c self
      then ((MqttProtocol.local_sequence self + 1) mod 2 ^ 32)%Z
      else MqttProtocol.local_sequence self) /\
  (forall (audio_data : bytes) (self : MqttProtocol.t),
      builds_packet (SendAudio audio_data) self = true ->
      MqttProtocol.local_sequence self = (2 ^ 32 - 1)%Z ->
      MqttProtocol.local_sequence
        (state_of (MqttProtocol.send_audio be audio_data self)) = 0%Z /\
      forall e,
        result_of (MqttProtocol.send_audio be audio_data self) = Raised e ->
        exists l,
          Protocol._on_network_error (MqttProtocol.base self) = Some l /\
          listener_raises l = Some e) /\
  (forall (cs : list call) (self : MqttProtocol.t),
      (0 <= MqttProtocol.local_sequence self < 2 ^ 32)%Z ->
      MqttProtocol.local_sequence (perform_all be cs self) =
      ((MqttProtocol.local_sequence self + Z.of_nat (packets_built be cs self))
         mod 2 ^ 32)%Z).
Proof.
  split; [exact (perform_sequence be) | split].
  - intros audio_data self Hbuilds Hlast. split.
    + pose proof (perform_sequence be (SendAudio audio_data) self) as H.
      rewrite Hbuilds, Hlast in H. exact H.
    + intros e. apply send_audio_raises_only_listener.
  - induction cs as [| c cs IH]; intros self Hrange.
    + cbn. rewrite Z.add_0_r, Z.mod_small; [reflexivity | assumption].
    + cbn [perform_all packets_built].
      pose proof (perform_sequence be c self) as Hstep.
      assert (Hrange' : (0 <= MqttProtocol.local_sequence (perform be c self) < 2 ^ 32)%Z).
      { rewrite Hstep. destruct (builds_packet c self); [| assumption].
        apply Z.mod_pos_bound. lia. }
      rewrite (IH _ Hrange'), Hstep.
      destruct (builds_packet c self).
      * rewrite Nat2Z.inj_add, Zplus_mod_idemp_l. f_equal.
        change (Z.of_nat 1) with 1%Z. lia.
      * reflexivity.
Qed.

(** ** A session to run the definitions on *)

Example demo_session_opened :
  MqttProtocol.is_audio_channel_opened demo_session = true /\
  MqttProtocol.server_hello_event demo_session = true /\
  MqttProtocol.udp_port demo_session = 8884%Z.
Proof. repeat split. Qed.

Example demo_send_audio :
  MqttProtocol.send_audio default_backend demo_audio demo_session
  = (Returned true,
     MqttProtocol.set_local_sequence 1 demo_session,
     [CipherEncrypt demo_key demo_nonce demo_audio;
      SocketSendto demo_packet (PStr "10.0.0.7") 8884]).
Proof. reflexivity. Qed.

Example demo_send_audio_wraps :
  let r := MqttProtocol.send_audio default_backend demo_audio
             (MqttProtocol.set_local_sequence 4294967295 demo_session) in
  result_of r = Returned true /\ MqttProtocol.local_sequence (state_of r) = 0%Z.
Proof. split; reflexivity. Qed.

Example demo_receive_own_packet :
  trace_of (MqttProtocol._udp_receive_thread default_backend
              [MqttProtocol.Datagram demo_packet;
               MqttProtocol.Datagram (demo_nonce ++ repeat x00 20)]
              demo_session)
  = [Log INFO; SocketSettimeout; SocketSettimeout;
     CipherDecrypt demo_key (firstn 32 (demo_nonce ++ repeat x00 20)) [x00; x00; x00; x00];
     Log ERROR].
Proof. reflexivity. Qed.

Example py_int_examples :
  py_int (PStr " -12_3 ") = Returned (-123)%Z /\
  py_int (PStr "") = Raised ValueError /\
  py_int (PStr "1__2") = Raised ValueError /\
  py_int (PFloat (S754_finite false 5 (-1))) = Returned 2%Z /\
  py_int PNone = Raised TypeError.
Proof. repeat split. Qed.

Example new_nonce_long_payload :
  MqttProtocol.new_nonce (PStr "01000000a1a2a3a4a5a6a7a800000000") (Z.to_nat 65536) 1
  = Returned (py "010010000a1a2a3a4a5a6a7a800000001").
Proof. reflexivity. Qed.

Lemma aes_ctr_roundtrip_witness :
  (exists C,
      MqttProtocol.aes_ctr_encrypt default_backend demo_key demo_nonce demo_audio
      = Returned C /\
      MqttProtocol.aes_ctr_decrypt default_backend demo_key demo_nonce C
      = Returned demo_audio) /\
  (exists key,
      MqttProtocol.fromhex_field (MqttProtocol.aes_key demo_session) = Returned key /\
      MqttProtocol.aes_ctr_decrypt default_backend key
        (firstn 16 demo_packet) (skipn 16 demo_packet) = Returned demo_audio).
Proof.
  destruct (aes_ctr_roundtrip default_backend demo_audio) as (_ & Hreturns & Hsent).
  split.
  - apply (Hreturns demo_key demo_nonce).
    + left. reflexivity.
    + reflexivity.
  - apply (Hsent demo_session demo_packet (PStr "10.0.0.7") 8884%Z).
    right. left. vm_compute. reflexivity.
Defined.

Lemma send_audio_packet_witness :
  exists prefix middle ct,
    List.length prefix = 2%nat /\ List.length middle = 8%nat /\
    List.length ct = 3%nat /\
    demo_packet
    = (prefix ++ be_bytes 2 3 ++ middle
       ++ be_bytes 4 (Z.to_N (MqttProtocol.local_sequence
                                (state_of (MqttProtocol.send_audio
                                             default_backend demo_audio demo_session)))))
      ++ ct.
Proof.
  destruct (send_audio_packet default_backend demo_audio demo_session demo_packet
              (PStr "10.0.0.7") 8884%Z)
    as (base_nonce & prefix & middle & key & ct & _ & _ & Hp & _ & Hm & _ & H).
  - left. cbn. lia.
  - right. left. vm_compute. reflexivity.
  - cbv zeta in H. destruct H as (_ & _ & _ & Hct & Hpacket & _).
    exists prefix, middle, ct. repeat split; assumption.
Defined.

Lemma local_sequence_counter_witness :
  MqttProtocol.local_sequence
    (perform_all default_backend
       [SendAudio demo_audio; SendText "{}"; SendAudio demo_audio;
        ServerHello (Returned demo_socket) bare_hello; SendAudio demo_audio]
       (MqttProtocol.set_local_sequence 4294967294 demo_session))
  = 0%Z.
Proof.
  rewrite (proj2 (proj2 (local_sequence_counter default_backend))).
  - reflexivity.
  - cbn. lia.
Defined.

Lemma mismatched_server_hello_ignored_witness :
  MqttProtocol._handle_server_hello (Returned demo_socket)
    [("type"%string, PStr "hello"); ("transport"%string, PStr "websocket")]
    MqttProtocol.__init__
  = (Returned tt, MqttProtocol.__init__, [Log ERROR]) /\
  WebSocketProtocol._handle_server_hello demo_hello WebSocketProtocol.__init__
  = (Returned tt, WebSocketProtocol.__init__, [Log ERROR]).
Proof.
  split.
  - apply (proj1 mismatched_server_hello_ignored demo_config). discriminate.
  - apply (proj2 mismatched_server_hello_ignored demo_config). discriminate.
Defined.

Lemma short_datagram_dropped_witness :
  MqttProtocol._udp_receive_once default_backend (MqttProtocol.Datagram demo_packet)
    demo_session
  = (Returned tt, demo_session, [SocketSettimeout]).
Proof.
  apply (short_datagram_dropped default_backend demo_packet demo_session).
  cbn. lia.
Defined.

Lemma new_nonce_sixteen_bytes_witness :
  exists text,
    MqttProtocol.new_nonce (PStr "01000000a1a2a3a4a5a6a7a800000000") 3
      (Z.land (0 + 1) 4294967295) = Returned text /\
    exists nonce, fromhex text = Returned nonce /\ List.length nonce = 16%nat.
Proof.
  destruct (new_nonce_sixteen_bytes "01000000a1a2a3a4a5a6a7a800000000" 3 0 eq_refl)
    as (text & Htext & Hiff & _).
  exists text. split; [exact Htext |]. apply Hiff. cbn. lia.
Defined.

Lemma mqtt_send_audio_swallows_failure_witness :
  result_of (MqttProtocol.send_audio default_backend demo_audio
               (MqttProtocol.set_udp_socket (Some dead_socket) demo_session))
  = Returned false.
Proof.
  apply (mqtt_send_audio_swallows_failure default_backend demo_audio
           (MqttProtocol.set_udp_socket (Some dead_socket) demo_session)
           dead_socket OSError).
  - reflexivity.
  - reflexivity.
  - discriminate.
  - reflexivity.
  - exact I.
Defined.

(** * Further properties: connecting, the callbacks and the envelopes *)

(** ** What a method calls, raises, returns and keeps, by its parts *)

Section CallsOnly.

Context {S : Type} (P : action -> Prop).

Lemma calls_only_ret {A} (a : A) : calls_only P (@ret S A a).
Proof. intros s x []. Qed.

Lemma calls_only_raise {A} (e : exn) : calls_only P (@raise S A e).
Proof. intros s x []. Qed.

Lemma calls_only_gets {A} (f : S -> A) : calls_only P (gets f).
Proof. intros s x []. Qed.

Lemma calls_only_modify (f : S -> S) : calls_only P (modify f).
Proof. intros s x []. Qed.

Lemma calls_only_lift {A} (o : outcome A) : calls_only P (@lift S A o).
Proof. intros s x []. Qed.

Lemma calls_only_may_raise (r : option exn) : calls_only P (@may_raise S r).
Proof. destruct r; intros s x []. Qed.

Lemma calls_only_emit (a : action) : P a -> calls_only P (@emit S a).
Proof. intros Ha s x [<- | []]. exact Ha. Qed.

Lemma calls_only_bind {A B} (m : M S A) (k : A -> M S B) :
  calls_only P m -> (forall a, calls_only P (k a)) -> calls_only P (bind m k).
Proof.
  intros Hm Hk s x. unfold bind. specialize (Hm s).
  destruct (m s) as [[[a | e] s1] t1]; cbn [trace_of snd] in Hm.
  - rewrite trace_of_after. intros H. apply in_app_or in H as [H | H].
    + now apply Hm.
    + exact (Hk a s1 x H).
  - apply Hm.
Qed.

Lemma calls_only_try_except {A} (m : M S A) (h : exn -> M S A) :
  calls_only P m -> (forall e, calls_only P (h e)) -> calls_only P (try_except m h).
Proof.
  intros Hm Hh s x. unfold try_except. specialize (Hm s).
  destruct (m s) as [[[a | e] s1] t1]; cbn [trace_of snd] in Hm.
  - apply Hm.
  - rewrite trace_of_after. intros H. apply in_app_or in H as [H | H].
    + now apply Hm.
    + exact (Hh e s1 x H).
Qed.

Lemma calls_only_try_finally {A} (m : M S A) (f : M S unit) :
  calls_only P m -> calls_only P f -> calls_only P (try_finally m f).
Proof.
  intros Hm Hf s x. unfold try_finally. specialize (Hm s).
  destruct (m s) as [[r s1] t1]; cbn [trace_of snd] in Hm. specialize (Hf s1).
  destruct (f s1) as [[[[] | e] s2] t2]; cbn [trace_of snd] in Hf |- *;
    intros H; apply in_app_or in H as [H | H]; auto.
Qed.

Lemma calls_only_when (b : bool) (m : M S unit) :
  calls_only P m -> calls_only P (when b m).
Proof. intros Hm. destruct b; [exact Hm | apply calls_only_ret]. Qed.

Lemma calls_only_notify (slot : option listener) (call : action) :
  P call -> calls_only P (@notify S slot call).
Proof.
  intros Hc. destruct slot as [l |]; [| apply calls_only_ret].
  apply calls_only_bind; [now apply calls_only_emit | intros _; apply calls_only_may_raise].
Qed.

End CallsOnly.

Section RaisesOnly.

Context {S : Type} (E : exn -> Prop).

Lemma raises_only_ret {A} (a : A) : raises_only E (@ret S A a).
Proof. intros s e H. discriminate H. Qed.

Lemma raises_only_gets {A} (f : S -> A) : raises_only E (gets f).
Proof. intros s e H. discriminate H. Qed.

Lemma raises_only_modify (f : S -> S) : raises_only E (modify f).
Proof. intros s e H. discriminate H. Qed.

Lemma raises_only_emit (a : action) : raises_only E (@emit S a).
Proof. intros s e H. discriminate H. Qed.

Lemma raises_only_raise {A} (e : exn) : E e -> raises_only E (@raise S A e).
Proof. intros He s e' H. injection H as <-. exact He. Qed.

Lemma raises_only_bind {A B} (m : M S A) (k : A -> M S B) :
  raises_only E m -> (forall a, raises_only E (k a)) -> raises_only E (bind m k).
Proof.
  intros Hm Hk s e. unfold bind. specialize (Hm s).
  destruct (m s) as [[[a | e1] s1] t1]; cbn [result_of fst] in Hm |- *.
  - rewrite result_of_after. apply Hk.
  - intros H. injection H as <-. now apply Hm.
Qed.

Lemma raises_only_try_except {A} (m : M S A) (h : exn -> M S A) :
  (forall e, raises_only E (h e)) -> raises_only E (try_except m h).
Proof.
  intros Hh s e. unfold try_except.
  destruct (m s) as [[[a | e1] s1] t1].
  - intros H. discriminate H.
  - rewrite result_of_after. apply Hh.
Qed.

Lemma raises_only_try_finally {A} (m : M S A) (f : M S unit) :
  raises_only E m -> raises_only E f -> raises_only E (try_finally m f).
Proof.
  intros Hm Hf s e. unfold try_finally. specialize (Hm s).
  destruct (m s) as [[r s1] t1]; cbn [result_of fst] in Hm. specialize (Hf s1).
  destruct (f s1) as [[[[] | e2] s2] t2]; cbn [result_of fst] in Hf |- *.
  - apply Hm.
  - intros H. injection H as <-. now apply Hf.
Qed.

Lemma raises_only_when (b : bool) (m : M S unit) :
  raises_only E m -> raises_only E (when b m).
Proof. intros Hm. destruct b; [exact Hm | apply raises_only_ret]. Qed.

End RaisesOnly.

Lemma raises_only_weaken {S A} (E E' : exn -> Prop) (m : M S A) :
  (forall e, E e -> E' e) -> raises_only E m -> raises_only E' m.
Proof. intros HE Hm s e H. apply HE. exact (Hm s e H). Qed.

Lemma never_raises_returns {S A} (m : M S A) (s : S) :
  never_raises m -> exists a, result_of (m s) = Returned a.
Proof.
  intros Hm. destruct (result_of (m s)) as [a | e] eqn:E; [eauto |].
  destruct (Hm s e E).
Qed.

Lemma task_never_raises {S} (m : M S unit) : never_raises (task m).
Proof.
  unfold task. apply raises_only_try_except. intros e. apply raises_only_ret.
Qed.

Section Keeps.

Context {S : Type} (P : S -> Prop).

Lemma keeps_ret {A} (a : A) : keeps P (ret a).
Proof. intros s H. exact H. Qed.

Lemma keeps_raise {A} (e : exn) : keeps P (@raise S A e).
Proof. intros s H. exact H. Qed.

Lemma keeps_gets {A} (f : S -> A) : keeps P (gets f).
Proof. intros s H. exact H. Qed.

Lemma keeps_emit (a : action) : keeps P (emit a).
Proof. intros s H. exact H. Qed.

Lemma keeps_lift {A} (o : outcome A) : keeps P (lift o).
Proof. intros s H. exact H. Qed.

Lemma keeps_may_raise (r : option exn) : keeps P (may_raise r).
Proof. intros s H. destruct r; exact H. Qed.

Lemma keeps_modify (f : S -> S) : (forall s, P s -> P (f s)) -> keeps P (modify f).
Proof. intros H s. apply H. Qed.

Lemma keeps_bind {A B} (m : M S A) (k : A -> M S B) :
  keeps P m -> (forall a, keeps P (k a)) -> keeps P (bind m k).
Proof.
  intros Hm Hk s H. unfold bind. specialize (Hm s H).
  destruct (m s) as [[[a | e] s1] t1]; cbn [state_of fst snd] in Hm.
  - rewrite state_of_after. now apply Hk.
  - exact Hm.
Qed.

Lemma keeps_try_except {A} (m : M S A) (h : exn -> M S A) :
  keeps P m -> (forall e, keeps P (h e)) -> keeps P (try_except m h).
Proof.
  intros Hm Hh s H. unfold try_except. specialize (Hm s H).
  destruct (m s) as [[[a | e] s1] t1]; cbn [state_of fst snd] in Hm.
  - exact Hm.
  - rewrite state_of_after. now apply Hh.
Qed.

Lemma keeps_try_finally {A} (m : M S A) (f : M S unit) :
  keeps P m -> keeps P f -> keeps P (try_finally m f).
Proof.
  intros Hm Hf s H. unfold try_finally. specialize (Hm s H).
  destruct (m s) as [[r s1] t1]; cbn [state_of fst snd] in Hm. specialize (Hf s1 Hm).
  destruct (f s1) as [[[[] | e] s2] t2]; exact Hf.
Qed.

Lemma keeps_when (b : bool) (m : M S unit) : keeps P m -> keeps P (when b m).
Proof. intros Hm. destruct b; [exact Hm | apply keeps_ret]. Qed.

Lemma keeps_notify (slot : option listener) (call : action) :
  keeps P (notify slot call).
Proof.
  destruct slot as [l |]; [| apply keeps_ret].
  intros s H. cbn. destruct (listener_raises l); exact H.
Qed.

End Keeps.

Lemma preserves_keeps {S A X} (proj : S -> X) (x : X) (m : M S A) :
  preserves proj m -> keeps (fun s => proj s = x) m.
Proof. intros Hm s H. now rewrite Hm. Qed.

Create HintDb calls.
#[export] Hint Resolve calls_only_ret calls_only_raise calls_only_gets calls_only_modify
  calls_only_lift calls_only_may_raise calls_only_when : calls.

Create HintDb raises.
#[export] Hint Resolve raises_only_ret raises_only_gets raises_only_modify
  raises_only_emit raises_only_when task_never_raises : raises.

Create HintDb keeps.
#[export] Hint Resolve keeps_ret keeps_raise keeps_gets keeps_emit keeps_lift
  keeps_may_raise keeps_when keeps_notify : keeps.

(** The calls of a computation built from the parts above. *)
Ltac calls :=
  repeat first
    [ apply calls_only_bind; [| intros ?]
    | apply calls_only_try_except; [| intros ?]
    | apply calls_only_try_finally
    | apply calls_only_when
    | apply calls_only_emit;
      solve [intros; discriminate | cbn; intuition (discriminate || auto)]
    | apply calls_only_notify;
      solve [intros; discriminate | cbn; intuition (discriminate || auto)]
    | solve [auto with calls]
    | match goal with
      | |- calls_only _ (match ?x with _ => _ end) => destruct x
      | |- calls_only _ (if ?b then _ else _) => destruct b
      | |- calls_only _ (let _ := _ in _) => cbv zeta
      end ].

Ltac keep :=
  repeat first
    [ apply keeps_bind; [| intros ?]
    | apply keeps_try_except; [| intros ?]
    | apply keeps_try_finally
    | apply keeps_when
    | apply keeps_modify; intros ? ?; cbn; solve [auto]
    | solve [auto with keeps]
    | match goal with
      | |- keeps _ (match ?x with _ => _ end) => destruct x
      | |- keeps _ (if ?b then _ else _) => destruct b
      | |- keeps _ (let _ := _ in _) => cbv zeta
      end ].

(** ** What a method leaves, by its parts *)

Section Leaves.

Context {S : Type}.

Lemma leaves_ret {A} (a : A) (Q : outcome A -> S -> Prop) (s : S) :
  Q (Returned a) s -> leaves (ret a) Q s.
Proof. exact (fun H => H). Qed.

Lemma leaves_raise {A} (e : exn) (Q : outcome A -> S -> Prop) (s : S) :
  Q (Raised e) s -> leaves (raise e) Q s.
Proof. exact (fun H => H). Qed.

Lemma leaves_gets {A} (f : S -> A) (Q : outcome A -> S -> Prop) (s : S) :
  Q (Returned (f s)) s -> leaves (gets f) Q s.
Proof. exact (fun H => H). Qed.

Lemma leaves_modify (f : S -> S) (Q : outcome unit -> S -> Prop) (s : S) :
  Q (Returned tt) (f s) -> leaves (modify f) Q s.
Proof. exact (fun H => H). Qed.

Lemma leaves_emit (a : action) (Q : outcome unit -> S -> Prop) (s : S) :
  Q (Returned tt) s -> leaves (emit a) Q s.
Proof. exact (fun H => H). Qed.

Lemma leaves_lift {A} (o : outcome A) (Q : outcome A -> S -> Prop) (s : S) :
  Q o s -> leaves (lift o) Q s.
Proof. exact (fun H => H). Qed.

Lemma leaves_may_raise (r : option exn) (Q : outcome unit -> S -> Prop) (s : S) :
  match r with Some e => Q (Raised e) s | None => Q (Returned tt) s end ->
  leaves (may_raise r) Q s.
Proof. destruct r; exact (fun H => H). Qed.

Lemma leaves_bind {A B} (m : M S A) (k : A -> M S B)
  (Q : outcome B -> S -> Prop) (s : S) :
  leaves m (fun o s1 => match o with
                        | Returned a => leaves (k a) Q s1
                        | Raised e => Q (Raised e) s1
                        end) s ->
  leaves (bind m k) Q s.
Proof.
  unfold leaves, bind. destruct (m s) as [[[a | e] s1] t1]; cbn [result_of state_of fst snd].
  - now rewrite result_of_after, state_of_after.
  - exact (fun H => H).
Qed.

Lemma leaves_try_except {A} (m : M S A) (h : exn -> M S A)
  (Q : outcome A -> S -> Prop) (s : S) :
  leaves m (fun o s1 => match o with
                        | Returned a => Q (Returned a) s1
                        | Raised e => leaves (h e) Q s1
                        end) s ->
  leaves (try_except m h) Q s.
Proof.
  unfold leaves, try_except.
  destruct (m s) as [[[a | e] s1] t1]; cbn [result_of state_of fst snd].
  - exact (fun H => H).
  - now rewrite result_of_after, state_of_after.
Qed.

Lemma leaves_weaken {A} (m : M S A) (Q Q' : outcome A -> S -> Prop) (s : S) :
  leaves m Q s -> (forall o s1, Q o s1 -> Q' o s1) -> leaves m Q' s.
Proof. intros H HQ. apply HQ. exact H. Qed.

Lemma leaves_when (b : bool) (m : M S unit) (Q : outcome unit -> S -> Prop) (s : S) :
  (if b then leaves m Q s else Q (Returned tt) s) -> leaves (when b m) Q s.
Proof. destruct b; exact (fun H => H). Qed.

End Leaves.

(** ** Opening the datagram channel *)

(** What the [except] clause of [_init_udp_socket] leaves after the calls
    [made]. *)
Lemma _init_udp_socket_run (created : outcome socket_obj) (self : MqttProtocol.t) :
  MqttProtocol._init_udp_socket created self =
  let failed made :=
    match Protocol._on_network_error (MqttProtocol.base self) with
    | None => (Returned tt, self, made ++ [Log ERROR])
    | Some l =>
        match listener_raises l with
        | None => (Returned tt, self, made ++ [Log ERROR; CallNetworkError])
        | Some e => (Raised e, self, made ++ [Log ERROR; CallNetworkError])
        end
    end in
  let closing :=
    match MqttProtocol.udp_socket self with
    | Some _ => [SocketClose]
    | None => []
    end in
  match MqttProtocol.udp_socket self with
  | Some {| sock_close := Some _ |} => failed closing
  | _ =>
      match created with
      | Raised _ => failed (closing ++ [SocketCreate])
      | Returned s =>
          (Returned tt, channel_opened s self,
           closing ++ [SocketCreate; ThreadStart; Log INFO])
      end
  end.
Proof.
  destruct self as [[sid j a o c [[[e' |]] |] g] cl [[[ce |] sendto] |] th run topic
                    server port key nonce seq rseq ev];
    destruct created as [s | e]; reflexivity.
Qed.

Lemma complete_hello_run (created : outcome socket_obj)
  (data info : list (string * pyval)) (port : Z) (self : MqttProtocol.t) :
  complete_hello data info port ->
  MqttProtocol._handle_server_hello created data self =
  try_except
    (emit (Log INFO) ;;
     modify (hello_stored data info port) ;;
     MqttProtocol._init_udp_socket created ;;
     modify (MqttProtocol.set_server_hello_event true) ;;
     emit EventSet ;;
     slot <- gets (fun self => Protocol._on_audio_channel_opened (MqttProtocol.base self)) ;;
     notify slot CallAudioChannelOpened ;;
     emit (Log INFO))
    (fun _ =>
       emit (Log ERROR) ;;
       slot <- gets (fun self => Protocol._on_network_error (MqttProtocol.base self)) ;;
       notify slot CallNetworkError)
    self.
Proof.
  intros (Htag & Hinfo & Hhost & Hport & Hnz & Hkey & Hnonce).
  unfold MqttProtocol._handle_server_hello. cbv zeta.
  rewrite !try_except_run, Htag, Hinfo.
  cbn [truthy str_eqb String.eqb Ascii.eqb Bool.eqb negb orb andb py_get].
  steps. rewrite Hport. steps. rewrite Hhost, Hkey, Hnonce.
  apply Z.eqb_neq in Hnz. rewrite Hnz. cbn [negb andb].
  unfold hello_stored. reflexivity.
Qed.

Ltac listeners :=
  repeat match goal with
         | |- context [Protocol._on_network_error ?b] =>
             destruct (Protocol._on_network_error b) as [[[? |]] |]
         | |- context [Protocol._on_audio_channel_opened ?b] =>
             destruct (Protocol._on_audio_channel_opened b) as [[[? |]] |]
         | |- context [Protocol._on_incoming_json ?b] =>
             destruct (Protocol._on_incoming_json b) as [[[? |]] |]
         | |- context [Protocol._on_incoming_audio ?b] =>
             destruct (Protocol._on_incoming_audio b) as [[[? |]] |]
         end.

Ltac run_hello :=
  repeat (progress
            (cbv [bind gets modify emit lift ret raise may_raise when try_except
                  try_finally notify after result_of state_of trace_of fst snd app
                  listener_raises sock_close sock_sendto
                  MqttProtocol.is_some];
             fields)).

(** X1. A server hello for the MQTT transport that names host, port, key
    and nonce opens the datagram channel, provided that closing an older
    socket, if there is one, does not raise: the socket just created and
    the receive thread are in place, [is_audio_channel_opened] holds, the
    event is set, the session id and the four values are stored, the
    sequence number and the MQTT client are left alone, and the
    channel-opened listener, if there is one, is called; the method
    returns if that listener does. *)
Theorem server_hello_opens_channel (s : socket_obj)
  (data info : list (string * pyval)) (port : Z) (self : MqttProtocol.t) :
  complete_hello data info port ->
  (forall old, MqttProtocol.udp_socket self = Some old -> sock_close old = None) ->
  let r := MqttProtocol._handle_server_hello (Returned s) data self in
  MqttProtocol.udp_socket (state_of r) = Some s /\
  MqttProtocol.udp_running (state_of r) = true /\
  MqttProtocol.is_audio_channel_opened (state_of r) = true /\
  MqttProtocol.server_hello_event (state_of r) = true /\
  MqttProtocol.udp_server (state_of r) = dict_get info "host" (PStr "") /\
  MqttProtocol.udp_port (state_of r) = port /\
  MqttProtocol.aes_key (state_of r) = dict_get info "aes_key" (PStr "") /\
  MqttProtocol.aes_nonce (state_of r) = dict_get info "aes_nonce" (PStr "") /\
  Protocol.session_id (MqttProtocol.base (state_of r))
  = dict_get data "session_id" (PStr "") /\
  MqttProtocol.local_sequence (state_of r) = MqttProtocol.local_sequence self /\
  MqttProtocol.mqtt_client (state_of r) = MqttProtocol.mqtt_client self /\
  In SocketCreate (trace_of r) /\ In ThreadStart (trace_of r) /\
  In EventSet (trace_of r) /\
  (Protocol._on_audio_channel_opened (MqttProtocol.base self) <> None ->
   In CallAudioChannelOpened (trace_of r)) /\
  (listener_returns (Protocol._on_audio_channel_opened (MqttProtocol.base self)) ->
   result_of r = Returned tt).
Proof.
  intros Hhello Hold r. subst r.
  rewrite (complete_hello_run _ _ _ _ _ Hhello).
  unfold listener_returns.
  destruct self as [[sid j a [[[eo |]] |] c [[[e' |]] |] g] cl [[[ce |] sendto] |]
                    th run topic server port0 key nonce seq rseq ev];
    try (specialize (Hold _ eq_refl); discriminate Hold);
    unfold MqttProtocol._init_udp_socket, hello_stored,
      MqttProtocol.is_audio_channel_opened;
    run_hello;
    (repeat match goal with |- _ /\ _ => split end;
     try reflexivity; try (cbn; tauto);
     try (intros H; first [exfalso; now apply H | discriminate H | reflexivity])).
Qed.

(** X2. When the socket of a complete server hello cannot be created and
    the network-error listener, if any, returns, the handshake completes
    all the same: the event is set and the channel-opened listener is
    called, although no thread was started and the channel is no more open
    than it was; an older socket was closed on the way. *)
Theorem server_hello_without_socket (e : exn)
  (data info : list (string * pyval)) (port : Z) (self : MqttProtocol.t) :
  complete_hello data info port ->
  listener_returns (Protocol._on_network_error (MqttProtocol.base self)) ->
  let r := MqttProtocol._handle_server_hello (Raised e) data self in
  MqttProtocol.server_hello_event (state_of r) = true /\
  In EventSet (trace_of r) /\
  (Protocol._on_audio_channel_opened (MqttProtocol.base self) <> None ->
   In CallAudioChannelOpened (trace_of r)) /\
  ~ In ThreadStart (trace_of r) /\
  MqttProtocol.udp_socket (state_of r) = MqttProtocol.udp_socket self /\
  MqttProtocol.udp_running (state_of r) = MqttProtocol.udp_running self /\
  MqttProtocol.is_audio_channel_opened (state_of r)
  = MqttProtocol.is_audio_channel_opened self /\
  (MqttProtocol.udp_socket self <> None -> In SocketClose (trace_of r)).
Proof.
  intros Hhello Hl r. subst r.
  rewrite (complete_hello_run _ _ _ _ _ Hhello).
  unfold listener_returns in Hl.
  destruct self as [[sid j a [[[eo |]] |] c [[[e' |]] |] g] cl [[[ce |] sendto] |]
                    th run topic server port0 key nonce seq rseq ev];
    cbn in Hl; try discriminate Hl;
    unfold MqttProtocol._init_udp_socket, hello_stored,
      MqttProtocol.is_audio_channel_opened;
    run_hello;
    (repeat split; try reflexivity; try (intros; cbn; tauto);
     try (intros H; first [exfalso; now apply H | discriminate H | reflexivity]);
     try (cbn; intuition discriminate)).
Qed.

(** ** After [disconnect] *)

(** X4. A transport that was disconnected is inert. Over MQTT, [send_audio]
    and [send_text] return [False] and change nothing, and the receive
    thread stops at once; over WebSocket, [send_audio] and [send_text]
    return [False], change nothing and call nothing. *)
Theorem disconnected_transport_is_inert :
  (forall (be : backend) (self : MqttProtocol.t),
      let closed := state_of (MqttProtocol.disconnect self) in
      (forall audio_data,
          MqttProtocol.send_audio be audio_data closed
          = (Returned false, closed, [Log ERROR])) /\
      (forall message,
          MqttProtocol.send_text message closed = (Returned false, closed, [])) /\
      (forall r input,
          MqttProtocol._udp_receive_thread be (r :: input) closed
          = (Returned tt, closed, [Log INFO; Log INFO]))) /\
  (forall self : WebSocketProtocol.t,
      let closed := state_of (WebSocketProtocol.disconnect self) in
      (forall audio_data,
          WebSocketProtocol.send_audio audio_data closed = (Returned false, closed, [])) /\
      (forall message,
          WebSocketProtocol.send_text message closed = (Returned false, closed, []))).
Proof.
  split.
  - intros be self closed.
    destruct (mqtt_disconnect_run self) as (_ & Hs & Hc & Hr & _).
    fold closed in Hs, Hc, Hr. clearbody closed.
    split; [| split].
    + intros audio_data. rewrite send_audio_run, Hs. reflexivity.
    + intros message. unfold MqttProtocol.send_text. steps. rewrite Hc. reflexivity.
    + intros r input. unfold MqttProtocol._udp_receive_thread.
      cbn [MqttProtocol._udp_receive_thread_loop]. steps. rewrite Hr. reflexivity.
  - intros self closed.
    destruct (ws_disconnect_run self) as (_ & Hw).
    fold closed in Hw. clearbody closed.
    split.
    + intros audio_data. unfold WebSocketProtocol.send_audio. steps.
      rewrite Hw. reflexivity.
    + intros message. unfold WebSocketProtocol.send_text. steps.
      rewrite Hw. reflexivity.
Qed.

(** The fields after a complete hello whose socket was created. *)
Lemma complete_hello_fields (s : socket_obj) (data info : list (string * pyval))
  (port : Z) (self : MqttProtocol.t) :
  complete_hello data info port ->
  (forall old, MqttProtocol.udp_socket self = Some old -> sock_close old = None) ->
  let self' := state_of (MqttProtocol._handle_server_hello (Returned s) data self) in
  MqttProtocol.udp_socket self' = Some s /\
  MqttProtocol.udp_running self' = true /\
  MqttProtocol.server_hello_event self' = true /\
  MqttProtocol.udp_server self' = dict_get info "host" (PStr "") /\
  MqttProtocol.udp_port self' = port /\
  Protocol.session_id (MqttProtocol.base self') = dict_get data "session_id" (PStr "") /\
  MqttProtocol.mqtt_client self' = MqttProtocol.mqtt_client self /\
  MqttProtocol.publish_topic self' = MqttProtocol.publish_topic self.
Proof.
  intros Hhello Hold self'. subst self'.
  rewrite (complete_hello_run _ _ _ _ _ Hhello).
  destruct self as [[sid j a [[[eo |]] |] c [[[e' |]] |] g] cl [[[ce |] sendto] |]
                    th run topic server port0 key nonce seq rseq ev];
    try (specialize (Hold _ eq_refl); discriminate Hold);
    unfold MqttProtocol._init_udp_socket, hello_stored;
    run_hello;
    repeat match goal with |- _ /\ _ => split end; reflexivity.
Qed.

(** ** Routing of the control messages *)

Lemma mqtt_hello_calls_no_json (created : outcome socket_obj)
  (data : list (string * pyval)) :
  calls_only (fun a => forall x, a <> CallIncomingJson x)
    (MqttProtocol._handle_server_hello created data).
Proof.
  unfold MqttProtocol._handle_server_hello, MqttProtocol._init_udp_socket. calls.
Qed.

(** X5. [_on_mqtt_message] never raises. A hello is never handed to the
    incoming-JSON listener; any other JSON object leaves the fields as they
    are and goes to that listener, if there is one, whose exception is
    logged; a message that is not an object is logged as an error. *)
Theorem mqtt_message_routing (created : outcome socket_obj) (data : pyval)
  (self : MqttProtocol.t) :
  let r := MqttProtocol._on_mqtt_message created data self in
  result_of r = Returned tt /\
  (forall d, data = PDict d ->
     if str_eqb (dict_get d "type" (PStr "")) "hello"
     then forall x, ~ In (CallIncomingJson x) (trace_of r)
     else
       state_of r = self /\
       trace_of r =
       match Protocol._on_incoming_json (MqttProtocol.base self) with
       | None => []
       | Some l =>
           CallIncomingJson data
             :: match listener_raises l with Some _ => [Log ERROR] | None => [] end
       end) /\
  ((forall d, data <> PDict d) -> r = (Returned tt, self, [Log ERROR])).
Proof.
  cbv zeta. split; [| split].
  - unfold MqttProtocol._on_mqtt_message. rewrite try_except_run.
    match goal with
    | |- context [result_of (?m self)] => destruct (m self) as [[[[] | e] s1] t1]
    end; reflexivity.
  - intros d ->. unfold MqttProtocol._on_mqtt_message.
    cbn [py_get]. rewrite try_except_run. steps.
    destruct (str_eqb (dict_get d "type" (PStr "")) "hello").
    + intros x Hin.
      assert (Hno : forall a,
                 In a (trace_of (MqttProtocol._handle_server_hello created d self)) ->
                 forall x, a <> CallIncomingJson x)
        by (intros a; apply mqtt_hello_calls_no_json).
      destruct (MqttProtocol._handle_server_hello created d self) as [[[[] | e] s1] t1];
        cbn [result_of state_of trace_of fst snd] in Hin, Hno.
      * exact (Hno _ Hin x eq_refl).
      * revert Hin. observe. steps. observe. intros Hin.
        apply in_app_or in Hin as [Hin | [Hin | []]]; [| discriminate Hin].
        exact (Hno _ Hin x eq_refl).
    + steps.
      destruct (Protocol._on_incoming_json (MqttProtocol.base self)) as [[[e |]] |];
        split; reflexivity.
  - intros Hnot. unfold MqttProtocol._on_mqtt_message.
    destruct data; try reflexivity. now destruct (Hnot d).
Qed.

(** ** Failed sends *)

(** X6. What a failed send gives its caller: [send_text] over MQTT and
    over WebSocket and [send_audio] over WebSocket raise [MessageError],
    [send_audio] over MQTT returns [False]; in all four, an exception of
    the network-error listener takes the place of that result. *)
Theorem failed_send_result :
  (forall (message : string) (self : MqttProtocol.t) (c : mqtt_client_obj) (e : exn),
      MqttProtocol.mqtt_client self = Some c ->
      client_publish c message = Raised e ->
      result_of (MqttProtocol.send_text message self)
      = after_error_listener (Protocol._on_network_error (MqttProtocol.base self))
          (Raised MessageError)) /\
  (forall (be : backend) (audio_data : bytes) (self : MqttProtocol.t)
          (s : socket_obj) (e : exn),
      MqttProtocol.udp_socket self = Some s ->
      truthy (MqttProtocol.udp_server self) = true ->
      MqttProtocol.udp_port self <> 0%Z ->
      (forall packet, sock_sendto s packet = Some e) ->
      result_of (MqttProtocol.send_audio be audio_data self)
      = after_error_listener (Protocol._on_network_error (MqttProtocol.base self))
          (Returned false)) /\
  (forall (message : string) (self : WebSocketProtocol.t) (w : ws_obj) (e : exn),
      WebSocketProtocol.websocket self = Some w ->
      ws_send w (WsText message) = Some e ->
      result_of (WebSocketProtocol.send_text message self)
      = after_error_listener (Protocol._on_network_error (WebSocketProtocol.base self))
          (Raised MessageError)) /\
  (forall (audio_data : bytes) (self : WebSocketProtocol.t) (w : ws_obj) (e : exn),
      WebSocketProtocol.websocket self = Some w ->
      WebSocketProtocol.connected self = true ->
      ws_send w (WsBinary audio_data) = Some e ->
      result_of (WebSocketProtocol.send_audio audio_data self)
      = after_error_listener (Protocol._on_network_error (WebSocketProtocol.base self))
          (Raised MessageError)).
Proof.
  unfold after_error_listener. repeat split.
  - intros message self c e Hc He. unfold MqttProtocol.send_text. steps.
    rewrite Hc, try_except_run. steps. rewrite He.
    unfold lift. observe. rewrite bind_handle_error.
    destruct (Protocol._on_network_error _) as [[[e' |]] |]; reflexivity.
  - intros be audio_data self s e Hs Hserver Hport Hsend.
    rewrite send_audio_run, Hs, Hserver.
    apply Z.eqb_neq in Hport. rewrite Hport. cbn [negb orb]. cbv zeta.
    unfold send_audio_failed. fields.
    destruct (MqttProtocol.new_nonce _ _ _) as [text |];
    [ destruct (MqttProtocol.fromhex_field _) as [key |];
      [ destruct (fromhex text) as [nonce |];
        [ destruct (MqttProtocol.aes_ctr_encrypt be key nonce audio_data) as [ct |];
          [ rewrite Hsend | ] | ] | ] | ];
    (destruct (Protocol._on_network_error _) as [[[e' |]] |]; reflexivity).
  - intros message self w e Hw He.
    unfold WebSocketProtocol.send_text. steps. rewrite Hw.
    rewrite try_except_run. steps. rewrite He. steps. observe.
    unfold WebSocketProtocol.close_audio_channel.
    rewrite (bind_eq _ _ _ _ (ws_disconnect_eq self)), Hw. cbv zeta.
    destruct (ws_close w); observe; rewrite bind_handle_error; fields;
      (destruct (Protocol._on_network_error _) as [[[e' |]] |]; reflexivity).
  - intros audio_data self w e Hw Hc He.
    unfold WebSocketProtocol.send_audio. steps.
    rewrite Hw, Hc. cbn [negb]. rewrite try_except_run. steps. rewrite He. steps.
    observe. rewrite bind_handle_error.
    destruct (Protocol._on_network_error _) as [[[e' |]] |]; reflexivity.
Qed.

(** X7. What a failed send does to the connection: [send_text] over
    WebSocket closes it, [send_audio] over WebSocket leaves it as it is;
    over MQTT neither [send_text] nor [send_audio] ever stops the client or
    closes the socket. *)
Theorem failed_send_connection :
  (forall (message : string) (self : WebSocketProtocol.t) (w : ws_obj) (e : exn),
      WebSocketProtocol.websocket self = Some w ->
      ws_send w (WsText message) = Some e ->
      let r := WebSocketProtocol.send_text message self in
      WebSocketProtocol.websocket (state_of r) = None /\
      WebSocketProtocol.connected (state_of r) = false /\
      In WsClose (trace_of r)) /\
  (forall (audio_data : bytes) (self : WebSocketProtocol.t) (w : ws_obj) (e : exn),
      WebSocketProtocol.websocket self = Some w ->
      WebSocketProtocol.connected self = true ->
      ws_send w (WsBinary audio_data) = Some e ->
      let r := WebSocketProtocol.send_audio audio_data self in
      state_of r = self /\ ~ In WsClose (trace_of r)) /\
  (forall (message : string) (self : MqttProtocol.t),
      let r := MqttProtocol.send_text message self in
      state_of r = self /\
      ~ In MqttLoopStop (trace_of r) /\ ~ In MqttDisconnect (trace_of r)) /\
  (forall (be : backend) (audio_data : bytes) (self : MqttProtocol.t),
      let r := MqttProtocol.send_audio be audio_data self in
      MqttProtocol.udp_socket (state_of r) = MqttProtocol.udp_socket self /\
      MqttProtocol.udp_running (state_of r) = MqttProtocol.udp_running self /\
      MqttProtocol.mqtt_client (state_of r) = MqttProtocol.mqtt_client self /\
      ~ In SocketClose (trace_of r)).
Proof.
  split; [| split; [| split]].
  - intros message self w e Hw He. cbv zeta.
    unfold WebSocketProtocol.send_text. steps. rewrite Hw.
    rewrite try_except_run. steps. rewrite He. steps. observe.
    unfold WebSocketProtocol.close_audio_channel.
    rewrite (bind_eq _ _ _ _ (ws_disconnect_eq self)), Hw. cbv zeta.
    destruct (ws_close w); observe; rewrite bind_handle_error; fields;
      (destruct (Protocol._on_network_error _) as [[[e' |]] |]);
      (split; [reflexivity | split; [reflexivity | cbn; tauto]]).
  - intros audio_data self w e Hw Hc He. cbv zeta.
    unfold WebSocketProtocol.send_audio. steps.
    rewrite Hw, Hc. cbn [negb]. rewrite try_except_run. steps. rewrite He. steps.
    observe. rewrite bind_handle_error.
    destruct (Protocol._on_network_error _) as [[[e' |]] |];
      (split; [reflexivity | cbn; intuition discriminate]).
  - intros message self. cbv zeta.
    unfold MqttProtocol.send_text. steps.
    destruct (MqttProtocol.mqtt_client self) as [c |];
      [| split; [reflexivity | cbn; tauto]].
    rewrite try_except_run. steps.
    destruct (client_publish c message) as [b | e]; unfold lift; observe.
    + split; [reflexivity | cbn; intuition discriminate].
    + rewrite bind_handle_error.
      destruct (Protocol._on_network_error _) as [[[e' |]] |];
        (split; [reflexivity | cbn; intuition discriminate]).
  - intros be audio_data self. cbv zeta.
    rewrite send_audio_run.
    destruct (MqttProtocol.udp_socket self) as [s |] eqn:Es;
      [| rewrite ?Es; cbn; intuition discriminate].
    destruct (negb _ || _); [rewrite ?Es; cbn; intuition discriminate |].
    cbv zeta. unfold send_audio_failed. fields.
    destruct (MqttProtocol.new_nonce _ _ _) as [text |];
    [ destruct (MqttProtocol.fromhex_field _) as [key |];
      [ destruct (fromhex text) as [nonce |];
        [ destruct (MqttProtocol.aes_ctr_encrypt be key nonce audio_data) as [ct |];
          [ destruct (sock_sendto s (nonce ++ ct)) as [e1 |] | ] | ] | ] | ];
    try (destruct (Protocol._on_network_error _) as [[[e' |]] |]);
    try destruct (_ mod 10 =? 0)%Z;
    observe; fields; rewrite ?Es; cbn; intuition discriminate.
Qed.

(** ** The key stream of consecutive packets *)

Lemma byte_xor_same_key (a b k : byte) :
  byte_xor (byte_xor a k) (byte_xor b k) = byte_xor a b.
Proof.
  unfold byte_xor.
  destruct (Byte.to_bits a) as [a0 [a1 [a2 [a3 [a4 [a5 [a6 a7]]]]]]].
  destruct (Byte.to_bits b) as [b0 [b1 [b2 [b3 [b4 [b5 [b6 b7]]]]]]].
  destruct (Byte.to_bits k) as [k0 [k1 [k2 [k3 [k4 [k5 [k6 k7]]]]]]].
  rewrite !Byte.to_bits_of_bits.
  assert (H : forall x y z, xorb (xorb x z) (xorb y z) = xorb x y)
    by (intros [] [] []; reflexivity).
  now rewrite !H.
Qed.

Lemma be_value_from (bs : bytes) :
  forall acc : N,
    fold_left (fun acc b => 256 * acc + Byte.to_N b)%N bs acc
    = (acc * 256 ^ N.of_nat (List.length bs) + be_value bs)%N.
Proof.
  unfold be_value.
  induction bs as [| b bs IH]; intros acc.
  - cbn. lia.
  - cbn [fold_left List.length]. rewrite IH, (IH (256 * 0 + Byte.to_N b)%N).
    rewrite Nat2N.inj_succ, N.pow_succ_r by lia. lia.
Qed.

Lemma be_value_app (a b : bytes) :
  be_value (a ++ b) = (be_value a * 256 ^ N.of_nat (List.length b) + be_value b)%N.
Proof.
  unfold be_value at 1. rewrite fold_left_app. apply be_value_from.
Qed.

Section KeyStream.

Variable be : backend.

Lemma nth_ctr_update (key : bytes) (iv : N) (data : bytes) :
  forall (j : N) (i : nat),
    (i < List.length data)%nat ->
    nth i (ctr_update be key iv j data) x00
    = byte_xor (nth i data x00) (keystream_byte be key iv (j + N.of_nat i)).
Proof.
  induction data as [| d data IH]; intros j i Hi; [cbn in Hi; lia |].
  destruct i as [| i]; cbn [ctr_update nth].
  - now rewrite N.add_0_r.
  - cbn [List.length] in Hi. rewrite IH by lia. do 2 f_equal. lia.
Qed.

(** The key stream of the next counter block is the same key stream, one
    block further. *)
Lemma keystream_byte_next (key : bytes) (iv i : N) :
  keystream_byte be key (iv + 1) i = keystream_byte be key iv (16 + i).
Proof.
  unfold keystream_byte.
  replace ((16 + i) / 16)%N with (1 + i / 16)%N
    by (replace (16 + i)%N with (i + 1 * 16)%N by lia;
        rewrite N.div_add by lia; lia).
  replace ((16 + i) mod 16)%N with (i mod 16)%N
    by (replace (16 + i)%N with (i + 1 * 16)%N by lia;
        now rewrite N.Div0.mod_add).
  now rewrite N.add_assoc.
Qed.

End KeyStream.

Lemma firstn_prefix {A} (n : nat) (a b : list A) :
  List.length a = n -> firstn n (a ++ b) = a.
Proof.
  intros <-. rewrite firstn_app, Nat.sub_diag, firstn_all. cbn [firstn].
  apply app_nil_r.
Qed.

Lemma nth_suffix {A} (n i : nat) (a b : list A) (d : A) :
  List.length a = n -> nth (n + i) (a ++ b) d = nth i b d.
Proof. intros <-. apply app_nth2_plus. Qed.

Lemma send_audio_keeps_codec (be : backend) (audio_data : bytes) (self : MqttProtocol.t) :
  let self' := state_of (MqttProtocol.send_audio be audio_data self) in
  MqttProtocol.aes_nonce self' = MqttProtocol.aes_nonce self /\
  MqttProtocol.aes_key self' = MqttProtocol.aes_key self.
Proof.
  cbv zeta. rewrite send_audio_state.
  destruct (MqttProtocol.is_some _ && _); split; reflexivity.
Qed.

(** X3. Two datagrams sent one after the other for frames of one length
    carry nonces that differ by one as 128-bit numbers, as long as the
    sequence number does not wrap. Counter mode then gives the second frame
    the key stream of the first moved by one block: byte [16 + i] of the
    first encrypted frame, combined by exclusive or with byte [i] of the
    second, is byte [16 + i] of the first frame combined with byte [i] of
    the second, whatever the key and the block cipher. *)
Theorem consecutive_packets_share_key_stream (be : backend) (first next : bytes)
  (self : MqttProtocol.t) (packet1 packet2 : bytes) (host1 host2 : pyval)
  (port1 port2 : Z) :
  List.length next = List.length first ->
  (Z.of_nat (List.length first) <= 65535)%Z ->
  (0 <= MqttProtocol.local_sequence self < 2 ^ 32 - 2)%Z ->
  In (SocketSendto packet1 host1 port1)
     (trace_of (MqttProtocol.send_audio be first self)) ->
  In (SocketSendto packet2 host2 port2)
     (trace_of (MqttProtocol.send_audio be next
                  (state_of (MqttProtocol.send_audio be first self)))) ->
  be_value (firstn 16 packet2) = (be_value (firstn 16 packet1) + 1)%N /\
  forall i : nat,
    (16 + i < List.length first)%nat ->
    byte_xor (nth (16 + (16 + i)) packet1 x00) (nth (16 + i) packet2 x00)
    = byte_xor (nth (16 + i) first x00) (nth i next x00).
Proof.
  intros Hsame Hlen Hseq Hsent1 Hsent2.
  destruct (send_audio_keeps_codec be first self) as [Hnonce Hkey].
  cbv zeta in Hnonce, Hkey.
  destruct (send_audio_packet_short be first self _ _ _ Hlen Hsent1)
    as (base & prefix & middle & key & ct1 & Hbase & Hprefix & Hplen & Hmiddle
        & Hmlen & Hk & H1).
  cbv zeta in H1. destruct H1 as (Hs1 & Hn1 & Hct1 & _ & Hp1 & _).
  destruct (send_audio_packet_short be next _ _ _ _ ltac:(rewrite Hsame; exact Hlen) Hsent2)
    as (base' & prefix' & middle' & key' & ct2 & Hbase' & Hprefix' & _ & Hmiddle'
        & _ & Hk' & H2).
  cbv zeta in H2. destruct H2 as (Hs2 & Hn2 & Hct2 & _ & Hp2 & _).
  rewrite Hnonce, Hbase in Hbase'. injection Hbase' as <-.
  rewrite Hprefix in Hprefix'. injection Hprefix' as <-.
  rewrite Hmiddle in Hmiddle'. injection Hmiddle' as <-.
  rewrite Hkey, Hk in Hk'. injection Hk' as <-.
  rewrite Hs2 in Hn2, Hct2, Hp2. rewrite Hs1 in Hn2, Hct2, Hp2, Hn1, Hct1, Hp1.
  rewrite Hsame in Hn2, Hct2, Hp2. clear Hs1 Hs2 Hsent1 Hsent2.
  set (seq := MqttProtocol.local_sequence self) in *.
  rewrite (Z.mod_small (seq + 1)) in Hn1, Hct1, Hp1, Hn2, Hct2, Hp2 by lia.
  rewrite (Z.mod_small (seq + 1 + 1)) in Hn2, Hct2, Hp2 by lia.
  subst packet1 packet2.
  set (len := be_bytes 2 (N.of_nat (List.length first))) in *.
  set (nonce1 := prefix ++ len ++ middle ++ be_bytes 4 (Z.to_N (seq + 1))) in *.
  set (nonce2 := prefix ++ len ++ middle ++ be_bytes 4 (Z.to_N (seq + 1 + 1))) in *.
  assert (Hnext : be_value nonce2 = (be_value nonce1 + 1)%N).
  { unfold nonce1, nonce2.
    rewrite !be_value_app, !length_app, !length_be_bytes.
    unfold len. rewrite !length_be_bytes, !be_value_be_bytes.
    change (256 ^ N.of_nat 4)%N with 4294967296%N.
    rewrite (N.mod_small (Z.to_N (seq + 1))) by lia.
    rewrite (N.mod_small (Z.to_N (seq + 1 + 1))) by lia.
    replace (Z.to_N (seq + 1 + 1)) with (Z.to_N (seq + 1) + 1)%N by lia.
    lia. }
  apply aes_ctr_encrypt_returns in Hct1 as (_ & _ & ->).
  apply aes_ctr_encrypt_returns in Hct2 as (_ & _ & ->).
  split.
  - now rewrite (firstn_prefix 16 nonce1 _ Hn1), (firstn_prefix 16 nonce2 _ Hn2).
  - intros i Hi.
    rewrite (nth_suffix 16 _ nonce1 _ _ Hn1), (nth_suffix 16 _ nonce2 _ _ Hn2).
    rewrite !nth_ctr_update by lia.
    rewrite Hnext, keystream_byte_next, !N.add_0_l.
    replace (16 + N.of_nat i)%N with (N.of_nat (16 + i)) by lia.
    apply byte_xor_same_key.
Qed.

(** ** The message loop of the WebSocket transport *)

Lemma audio_calls_none (calls : list action) :
  (forall a, In a calls -> forall b, a <> CallIncomingAudio b) -> audio_calls calls = [].
Proof.
  induction calls as [| a calls IH]; intros H; [reflexivity |].
  change (audio_calls (a :: calls))
    with (match a with CallIncomingAudio b => [b] | _ => [] end ++ audio_calls calls).
  rewrite IH by (intros; apply H; now right).
  destruct a; try reflexivity.
  now destruct (H (CallIncomingAudio data) (or_introl eq_refl) data).
Qed.

Lemma json_calls_none (calls : list action) :
  (forall a, In a calls -> forall x, a <> CallIncomingJson x) -> json_calls calls = [].
Proof.
  induction calls as [| a calls IH]; intros H; [reflexivity |].
  change (json_calls (a :: calls))
    with (match a with CallIncomingJson x => [x] | _ => [] end ++ json_calls calls).
  rewrite IH by (intros; apply H; now right).
  destruct a; try reflexivity.
  now destruct (H (CallIncomingJson data) (or_introl eq_refl) data).
Qed.

Lemma ws_hello_calls (data : list (string * pyval)) :
  calls_only (fun a => (forall b, a <> CallIncomingAudio b)
                       /\ (forall x, a <> CallIncomingJson x))
    (WebSocketProtocol._handle_server_hello data).
Proof.
  unfold WebSocketProtocol._handle_server_hello.
  calls; try (apply calls_only_emit; split; intros; discriminate);
    apply calls_only_notify; split; intros; discriminate.
Qed.

Lemma ws_hello_keeps_listeners (data : list (string * pyval)) :
  preserves ws_listeners (WebSocketProtocol._handle_server_hello data).
Proof. unfold WebSocketProtocol._handle_server_hello. preserve. Qed.

Lemma ws_hello_keeps_websocket (data : list (string * pyval)) :
  preserves WebSocketProtocol.websocket (WebSocketProtocol._handle_server_hello data).
Proof. unfold WebSocketProtocol._handle_server_hello. preserve. Qed.

Lemma ws_hello_keeps_connected (data : list (string * pyval)) :
  preserves WebSocketProtocol.connected (WebSocketProtocol._handle_server_hello data).
Proof. unfold WebSocketProtocol._handle_server_hello. preserve. Qed.

Lemma audio_calls_app (t1 t2 : list action) :
  audio_calls (t1 ++ t2) = audio_calls t1 ++ audio_calls t2.
Proof. apply flat_map_app. Qed.

Lemma json_calls_app (t1 t2 : list action) :
  json_calls (t1 ++ t2) = json_calls t1 ++ json_calls t2.
Proof. apply flat_map_app. Qed.

Ltac slots :=
  repeat match goal with
         | |- context [match Protocol._on_incoming_audio ?b with _ => _ end] =>
             destruct (Protocol._on_incoming_audio b)
         | |- context [match Protocol._on_incoming_json ?b with _ => _ end] =>
             destruct (Protocol._on_incoming_json b)
         end.

(** One frame: the body of the loop returns, touches neither the listeners
    nor the connection, and hands the frame to the listener it is for. *)
Lemma _message_handler_once_facts (message : WebSocketProtocol.frame)
  (self : WebSocketProtocol.t) :
  let r := WebSocketProtocol._message_handler_once message self in
  result_of r = Returned tt /\
  ws_listeners (state_of r) = ws_listeners self /\
  WebSocketProtocol.websocket (state_of r) = WebSocketProtocol.websocket self /\
  WebSocketProtocol.connected (state_of r) = WebSocketProtocol.connected self /\
  audio_calls (trace_of r)
  = match Protocol._on_incoming_audio (WebSocketProtocol.base self) with
    | Some _ => binary_frames [message]
    | None => []
    end /\
  json_calls (trace_of r)
  = match Protocol._on_incoming_json (WebSocketProtocol.base self) with
    | Some _ => json_frames [message]
    | None => []
    end.
Proof.
  cbv zeta. unfold WebSocketProtocol._message_handler_once.
  destruct message as [[data |] | b].
  - destruct data as [| x | z | f | s | l | d].
    1-6: cbn; repeat split; slots; reflexivity.
    cbn [py_get]. rewrite try_except_run. steps.
    cbn [json_frames binary_frames flat_map app].
    destruct (str_eqb (dict_get d "type" (PStr "")) "hello").
    + pose proof (ws_hello_calls d self) as Hcalls.
      pose proof (ws_hello_keeps_listeners d self) as Hl.
      pose proof (ws_hello_keeps_websocket d self) as Hw.
      pose proof (ws_hello_keeps_connected d self) as Hc.
      destruct (WebSocketProtocol._handle_server_hello d self) as [[[[] | e] s1] t1];
        cbn [result_of state_of trace_of fst snd] in *; observe; steps; observe;
        rewrite ?audio_calls_app, ?json_calls_app;
        rewrite (audio_calls_none t1) by (intros a Ha; apply (Hcalls a Ha));
        rewrite (json_calls_none t1) by (intros a Ha; apply (Hcalls a Ha));
        repeat split; auto; slots; reflexivity.
    + steps. unfold ws_listeners.
      destruct (Protocol._on_incoming_json (WebSocketProtocol.base self))
        as [[[e |]] |] eqn:Ej;
        cbn; rewrite ?Ej; repeat split; slots; reflexivity.
  - cbn. repeat split; slots; reflexivity.
  - rewrite try_except_run. steps. unfold ws_listeners.
    destruct (Protocol._on_incoming_audio (WebSocketProtocol.base self))
      as [[[e |]] |] eqn:Ea;
      cbn; rewrite ?Ea; repeat split; slots; reflexivity.
Qed.

Lemma message_loop_facts (frames : list WebSocketProtocol.frame) :
  forall self : WebSocketProtocol.t,
    let r := WebSocketSetup.message_loop frames self in
    result_of r = Returned tt /\
    ws_listeners (state_of r) = ws_listeners self /\
    WebSocketProtocol.websocket (state_of r) = WebSocketProtocol.websocket self /\
    WebSocketProtocol.connected (state_of r) = WebSocketProtocol.connected self /\
    audio_calls (trace_of r)
    = match Protocol._on_incoming_audio (WebSocketProtocol.base self) with
      | Some _ => binary_frames frames
      | None => []
      end /\
    json_calls (trace_of r)
    = match Protocol._on_incoming_json (WebSocketProtocol.base self) with
      | Some _ => json_frames frames
      | None => []
      end.
Proof.
  induction frames as [| message frames IH]; intros self; cbv zeta.
  - cbn. repeat split; slots; reflexivity.
  - cbn [WebSocketSetup.message_loop]. unfold bind.
    destruct (_message_handler_once_facts message self)
      as (Hr & Hl & Hw & Hc & Ha & Hj).
    destruct (WebSocketProtocol._message_handler_once message self) as [[o s1] t1].
    cbn [result_of state_of trace_of fst snd] in Hr, Hl, Hw, Hc, Ha, Hj. subst o.
    destruct (IH s1) as (Hr' & Hl' & Hw' & Hc' & Ha' & Hj').
    observe. rewrite audio_calls_app, json_calls_app, Ha, Hj, Ha', Hj'.
    assert (Hl1 := Hl). unfold ws_listeners in Hl1.
    injection Hl1 as Ejson Eaudio _. rewrite Ejson, Eaudio.
    repeat split; try congruence;
      [ destruct (Protocol._on_incoming_audio _); [| reflexivity]
      | destruct (Protocol._on_incoming_json _); [| reflexivity] ].
    + unfold binary_frames. cbn [flat_map]. now rewrite app_nil_r.
    + unfold json_frames. cbn [flat_map]. now rewrite app_nil_r.
Qed.

Ltac run_all :=
  repeat (progress
            (cbv [bind gets modify emit lift ret raise may_raise when try_except
                  try_finally notify after result_of state_of trace_of fst snd
                  listener_raises sock_close sock_sendto task
                  MqttProtocol.is_some];
             cbn [app]; fields)).

(** [_message_handler] once the iteration has ended, on an object that
    holds a connection. *)
Lemma _message_handler_ended (frames : list WebSocketProtocol.frame)
  (e : WebSocketSetup.stream_end) (self : WebSocketProtocol.t) (w : ws_obj) :
  WebSocketProtocol.websocket self = Some w ->
  exists s1 t1,
    WebSocketSetup.message_loop frames self = (Returned tt, s1, t1) /\
    WebSocketSetup._message_handler frames (Some e) self
    = let logged := match e with
                    | WebSocketSetup.Exhausted => []
                    | WebSocketSetup.ConnectionClosed => [Log INFO]
                    | WebSocketSetup.Broken _ => [Log ERROR]
                    end in
      let s2 := WebSocketProtocol.set_connected false s1 in
      match Protocol._on_network_error (WebSocketProtocol.base self) with
      | None => (Returned tt, s2, t1 ++ logged)
      | Some l =>
          (match listener_raises l with Some e' => Raised e' | None => Returned tt end,
           s2, t1 ++ logged ++ [CallNetworkError])
      end.
Proof.
  intros Hw. unfold WebSocketSetup._message_handler. steps. rewrite Hw.
  destruct (message_loop_facts frames self) as (Hr & Hl & _).
  destruct (WebSocketSetup.message_loop frames self) as [[o s1] t1] eqn:Eloop.
  cbn [result_of state_of trace_of fst snd] in Hr, Hl. subst o.
  exists s1, t1. split; [reflexivity |].
  unfold ws_listeners in Hl. injection Hl as _ _ Hl. rewrite <- Hl.
  unfold try_finally, bind at 1. rewrite Eloop.
  destruct e as [| | e]; run_all;
    destruct (Protocol._on_network_error (WebSocketProtocol.base s1)) as [[[e' |]] |];
    run_all; rewrite ?app_nil_r, <- ?app_assoc; reflexivity.
Qed.

(** X8. The message loop of a WebSocket connection hands every binary
    frame to the incoming-audio listener and every JSON object that is not
    a hello to the incoming-JSON listener, each in the order of arrival and
    nothing else, whatever the listeners do and however the stream ends;
    without a listener nothing is handed over. *)
Theorem message_handler_routing (frames : list WebSocketProtocol.frame)
  (ending : option WebSocketSetup.stream_end) (self : WebSocketProtocol.t)
  (w : ws_obj) :
  WebSocketProtocol.websocket self = Some w ->
  let calls := trace_of (WebSocketSetup._message_handler frames ending self) in
  audio_calls calls
  = match Protocol._on_incoming_audio (WebSocketProtocol.base self) with
    | Some _ => binary_frames frames
    | None => []
    end /\
  json_calls calls
  = match Protocol._on_incoming_json (WebSocketProtocol.base self) with
    | Some _ => json_frames frames
    | None => []
    end.
Proof.
  intros Hw. cbv zeta.
  destruct (message_loop_facts frames self) as (_ & _ & _ & _ & Ha & Hj).
  destruct ending as [e |].
  - destruct (_message_handler_ended frames e self w Hw) as (s1 & t1 & Eloop & ->).
    rewrite Eloop in Ha, Hj. cbn [trace_of snd] in Ha, Hj.
    rewrite <- Ha, <- Hj. cbv zeta.
    destruct (Protocol._on_network_error _) as [l |]; cbn [trace_of snd];
      rewrite ?audio_calls_app, ?json_calls_app;
      destruct e; cbn; rewrite ?app_nil_r; split; reflexivity.
  - unfold WebSocketSetup._message_handler. steps. rewrite Hw. now split.
Qed.

(** X9. When the stream of a WebSocket connection ends, in order or not,
    [_message_handler] leaves [connected] false and the connection object
    in place, and tells the network-error listener last, whose exception
    leaves the handler. Without a connection the handler does nothing. *)
Theorem message_handler_exit (frames : list WebSocketProtocol.frame)
  (e : WebSocketSetup.stream_end) (self : WebSocketProtocol.t) :
  let r := WebSocketSetup._message_handler frames (Some e) self in
  match WebSocketProtocol.websocket self with
  | None => r = (Returned tt, self, [])
  | Some w =>
      WebSocketProtocol.websocket (state_of r) = Some w /\
      WebSocketProtocol.connected (state_of r) = false /\
      WebSocketProtocol.is_audio_channel_opened (state_of r) = false /\
      match Protocol._on_network_error (WebSocketProtocol.base self) with
      | None => result_of r = Returned tt
      | Some l =>
          (exists calls, trace_of r = calls ++ [CallNetworkError]) /\
          result_of r = match listener_raises l with
                        | Some e' => Raised e'
                        | None => Returned tt
                        end
      end
  end.
Proof.
  cbv zeta.
  destruct (WebSocketProtocol.websocket self) as [w |] eqn:Hw.
  - destruct (_message_handler_ended frames e self w Hw) as (s1 & t1 & Eloop & ->).
    destruct (message_loop_facts frames self) as (_ & _ & Hw' & _).
    rewrite Eloop in Hw'. cbn [state_of fst snd] in Hw'. rewrite Hw in Hw'.
    cbv zeta. unfold WebSocketProtocol.is_audio_channel_opened.
    destruct (Protocol._on_network_error _) as [l |];
      cbn [result_of state_of trace_of fst snd]; fields; rewrite Hw';
      repeat split.
    exists (t1 ++ match e with
                  | WebSocketSetup.Exhausted => []
                  | WebSocketSetup.ConnectionClosed => [Log INFO]
                  | WebSocketSetup.Broken _ => [Log ERROR]
                  end).
    now rewrite <- app_assoc.
  - unfold WebSocketSetup._message_handler. steps. rewrite Hw. reflexivity.
Qed.

(** ** The envelopes *)

Ltac envelope :=
  cbv [send_notification Envelopes.send_wake_word_detected
       Envelopes.send_start_listening Envelopes.send_stop_listening
       Envelopes.send_iot_descriptors Envelopes.send_iot_states
       Envelopes.send_abort_speaking Envelopes.session_id Envelopes.parsed
       Envelopes.send_text Envelopes.inherited mqtt_transport websocket_transport].

(** X10. A notification sent without a connection is lost without a sign:
    the five senders that return nothing return normally, over MQTT and
    over WebSocket with no call and no change, and over MQTT also when the
    broker does not confirm the publication. [send_abort_speaking] returns
    [False] instead. *)
Theorem notification_without_connection (json : json_module) (n : notification) :
  (forall v, exists text, dumps json v = Returned text) ->
  parses json n ->
  (forall self : MqttProtocol.t,
      MqttProtocol.mqtt_client self = None ->
      send_notification json n self = (Returned tt, self, [])) /\
  (forall (self : MqttProtocol.t) (c : mqtt_client_obj),
      MqttProtocol.mqtt_client self = Some c ->
      (forall text, client_publish c text = Returned false) ->
      result_of (send_notification json n self) = Returned tt) /\
  (forall self : WebSocketProtocol.t,
      WebSocketProtocol.websocket self = None ->
      send_notification json n self = (Returned tt, self, [])) /\
  (forall (reason : AbortReason) (self : MqttProtocol.t),
      MqttProtocol.mqtt_client self = None ->
      Envelopes.send_abort_speaking json reason self = (Returned false, self, [])) /\
  (forall (reason : AbortReason) (self : WebSocketProtocol.t),
      WebSocketProtocol.websocket self = None ->
      Envelopes.send_abort_speaking json reason self = (Returned false, self, [])).
Proof.
  intros Hdumps Hparses.
  assert (Hvalue : forall x : pyval,
             match x with
             | PStr s => exists v, loads json s = Returned v
             | _ => True
             end ->
             forall (S : Type) (s : S), exists v,
               match x with
               | PStr s => lift (loads json s)
               | _ => ret x
               end s = (Returned v, s, [])).
  { intros x Hx S s. destruct x; try (eexists; reflexivity).
    destruct Hx as [v ->]. now exists v. }
  split; [| split; [| split; [| split]]].
  - intros self Hc. destruct n as [w | mode | | x | x]; envelope; steps;
      try (destruct (Hvalue x Hparses _ self) as [v Hv];
           rewrite (bind_eq _ _ _ _ Hv); observe);
      match goal with
      | |- context [dumps json ?v] => destruct (Hdumps v) as [text ->]
      end;
      steps; unfold MqttProtocol.send_text; steps; rewrite Hc; steps; reflexivity.
  - intros self c Hc Hpub. destruct n as [w | mode | | x | x]; envelope; steps;
      try (destruct (Hvalue x Hparses _ self) as [v Hv];
           rewrite (bind_eq _ _ _ _ Hv); observe);
      match goal with
      | |- context [dumps json ?v] => destruct (Hdumps v) as [text ->]
      end;
      steps; unfold MqttProtocol.send_text; steps; rewrite Hc; run_all;
      rewrite Hpub; reflexivity.
  - intros self Hw. destruct n as [w | mode | | x | x]; envelope; steps;
      try (destruct (Hvalue x Hparses _ self) as [v Hv];
           rewrite (bind_eq _ _ _ _ Hv); observe);
      match goal with
      | |- context [dumps json ?v] => destruct (Hdumps v) as [text ->]
      end;
      steps; unfold WebSocketProtocol.send_text; steps; rewrite Hw; steps; reflexivity.
  - intros reason self Hc. envelope. steps.
    match goal with
    | |- context [dumps json ?v] => destruct (Hdumps v) as [text ->]
    end.
    steps. unfold MqttProtocol.send_text. steps. now rewrite Hc.
  - intros reason self Hw. envelope. steps.
    match goal with
    | |- context [dumps json ?v] => destruct (Hdumps v) as [text ->]
    end.
    steps. unfold WebSocketProtocol.send_text. steps. now rewrite Hw.
Qed.

(** What a [try] block stored at its start stays stored when neither the
    rest of the block nor the [except] clause touches it. *)
Lemma stored_by_try {S A} (P : S -> Prop) (a : action) (f : S -> S)
  (rest : M S A) (h : exn -> M S A) (s : S) :
  P (f s) -> keeps P rest -> (forall e, keeps P (h e)) ->
  P (state_of (try_except (emit a ;; modify f ;; rest) h s)).
Proof.
  intros Hf Hrest Hh. unfold try_except. rewrite bind_emit, bind_modify.
  specialize (Hrest (f s) Hf).
  destruct (rest (f s)) as [[[x | e] s1] t1]; cbn [state_of fst snd after] in *.
  - exact Hrest.
  - rewrite state_of_after. now apply Hh.
Qed.

Lemma mqtt_hello_keeps_client (created : outcome socket_obj)
  (data : list (string * pyval)) :
  preserves (fun self => (MqttProtocol.mqtt_client self, MqttProtocol.publish_topic self))
    (MqttProtocol._handle_server_hello created data).
Proof.
  unfold MqttProtocol._handle_server_hello, MqttProtocol._init_udp_socket. preserve.
Qed.

Lemma mqtt_hello_stores_session (created : outcome socket_obj)
  (data : list (string * pyval)) (self : MqttProtocol.t) :
  dict_get data "transport" PNone = PStr "mqtt" ->
  Protocol.session_id
    (MqttProtocol.base (state_of (MqttProtocol._handle_server_hello created data self)))
  = dict_get data "session_id" (PStr "").
Proof.
  intros Htag. unfold MqttProtocol._handle_server_hello. cbv zeta.
  rewrite Htag.
  cbn [truthy str_eqb String.eqb Ascii.eqb Bool.eqb negb orb andb].
  set (P := fun s : MqttProtocol.t =>
              Protocol.session_id (MqttProtocol.base s)
              = dict_get data "session_id" (PStr "")).
  match goal with
  | |- context [try_except (emit (Log INFO) ;; modify ?f ;; ?rest) ?h] =>
      assert (Hrest : keeps P rest)
        by (unfold P, MqttProtocol._init_udp_socket; keep);
      assert (Hh : forall e, keeps P (h e)) by (intros e; unfold P; keep);
      exact (stored_by_try P (Log INFO) f rest h self eq_refl Hrest Hh)
  end.
Qed.

(** X11. The session id of an envelope is the one of the last server hello:
    after a hello for the MQTT transport, [send_stop_listening] publishes
    the envelope built with that hello's [session_id] on the publish
    topic, and [disconnect] does not forget the id. *)
Theorem envelope_session_id (json : json_module) (created : outcome socket_obj)
  (data : list (string * pyval)) (self : MqttProtocol.t) (c : mqtt_client_obj)
  (text : string) :
  dict_get data "transport" PNone = PStr "mqtt" ->
  MqttProtocol.mqtt_client self = Some c ->
  dumps json (PDict [("session_id"%string, dict_get data "session_id" (PStr ""));
                     ("type"%string, PStr "listen");
                     ("state"%string, PStr "stop")]) = Returned text ->
  let greeted := state_of (MqttProtocol._handle_server_hello created data self) in
  Protocol.session_id (MqttProtocol.base greeted) = dict_get data "session_id" (PStr "") /\
  (exists more,
      trace_of (Envelopes.send_stop_listening json greeted)
      = MqttPublish (MqttProtocol.publish_topic self) text :: more) /\
  Protocol.session_id (MqttProtocol.base (state_of (MqttProtocol.disconnect greeted)))
  = dict_get data "session_id" (PStr "").
Proof.
  intros Htag Hc Htext greeted.
  pose proof (mqtt_hello_stores_session created data self Htag) as Hsid.
  pose proof (mqtt_hello_keeps_client created data self) as Hkeep.
  fold greeted in Hsid, Hkeep. clearbody greeted.
  injection Hkeep as Hclient Htopic.
  split; [exact Hsid | split].
  - envelope. steps. rewrite Hsid, Htext. steps.
    unfold MqttProtocol.send_text. steps. rewrite Hclient, Hc.
    unfold bind at 1. rewrite try_except_run. steps. rewrite Htopic.
    destruct (client_publish c text) as [b | e]; unfold lift; observe.
    + now eexists.
    + rewrite bind_handle_error.
      destruct (Protocol._on_network_error _) as [[[e' |]] |]; now eexists.
  - assert (H : preserves (fun s => Protocol.session_id (MqttProtocol.base s))
                  MqttProtocol.disconnect)
      by (unfold MqttProtocol.disconnect; preserve).
    now rewrite H.
Qed.

(** ** What an incomplete server hello stores *)

(** An incomplete hello whose [udp_audio] object can be read is stored
    before it is found incomplete. *)
Lemma incomplete_hello_stored (created : outcome socket_obj)
  (data info : list (string * pyval)) (port : Z) (self : MqttProtocol.t) :
  dict_get data "transport" PNone = PStr "mqtt" ->
  dict_get data "udp_audio" (PDict []) = PDict info ->
  py_int (dict_get info "port" (PInt 0)) = Returned port ->
  (missing_or_empty (hello_field data "host")
   || missing_or_empty (hello_field data "port")
   || missing_or_empty (hello_field data "aes_key")
   || missing_or_empty (hello_field data "aes_nonce")) = true ->
  MqttProtocol._handle_server_hello created data self
  = (Returned tt, hello_stored data info port self, [Log INFO; Log ERROR]).
Proof.
  intros Htag Hinfo Hport Hmiss.
  unfold MqttProtocol._handle_server_hello. cbv zeta.
  rewrite !try_except_run, Htag, Hinfo.
  cbn [truthy str_eqb String.eqb Ascii.eqb Bool.eqb negb orb andb py_get].
  steps. rewrite Hport. steps.
  rewrite !(hello_field_dict _ _ _ Hinfo) in Hmiss.
  destruct (truthy (dict_get info "host" (PStr "")) && negb (port =? 0)%Z
            && truthy (dict_get info "aes_key" (PStr ""))
            && truthy (dict_get info "aes_nonce" (PStr ""))) eqn:Eall;
    cbn [negb]; [exfalso | reflexivity].
  apply andb_prop in Eall as [Eall Hnonce].
  apply andb_prop in Eall as [Eall Hkey].
  apply andb_prop in Eall as [Hhost Hnz].
  apply negb_true_iff, Z.eqb_neq in Hnz.
  apply orb_prop in Hmiss as [Hmiss | Hmiss];
    [apply orb_prop in Hmiss as [Hmiss | Hmiss];
     [apply orb_prop in Hmiss as [Hmiss | Hmiss] |] |].
  - rewrite (dict_get_empty info "host" (PStr "") Hmiss eq_refl) in Hhost.
    discriminate.
  - apply Hnz, (py_int_empty (dict_get info "port" (PInt 0))); [| assumption].
    now apply dict_get_empty.
  - rewrite (dict_get_empty info "aes_key" (PStr "") Hmiss eq_refl) in Hkey.
    discriminate.
  - rewrite (dict_get_empty info "aes_nonce" (PStr "") Hmiss eq_refl) in Hnonce.
    discriminate.
Qed.

(** C5 as stated fails: a hello with the MQTT tag and no [udp_audio]
    object, received on an open session, is not dropped. Its [session_id]
    takes the place of the session's, the datagram server, port, key and
    nonce are replaced by the empty defaults, and the next [send_audio]
    returns [False] although the channel still counts as open. *)
Lemma incomplete_hello_replaces_session :
  let r := MqttProtocol._handle_server_hello (Returned demo_socket) bare_hello
             demo_session in
  dict_get bare_hello "transport" PNone = PStr "mqtt" /\
  hello_field bare_hello "host" = None /\
  Protocol.session_id (MqttProtocol.base demo_session) = PStr "s-1" /\
  Protocol.session_id (MqttProtocol.base (state_of r)) = PStr "s-2" /\
  MqttProtocol.udp_server demo_session = PStr "10.0.0.7" /\
  MqttProtocol.udp_server (state_of r) = PStr "" /\
  MqttProtocol.udp_port (state_of r) = 0%Z /\
  MqttProtocol.aes_key (state_of r) = PStr "" /\
  MqttProtocol.aes_nonce (state_of r) = PStr "" /\
  MqttProtocol.is_audio_channel_opened (state_of r) = true /\
  result_of (MqttProtocol.send_audio default_backend demo_audio demo_session)
  = Returned true /\
  result_of (MqttProtocol.send_audio default_backend demo_audio (state_of r))
  = Returned false.
Proof. vm_compute. repeat split. Qed.

(** C5, amended. A server hello with the MQTT tag in which the datagram
    host, port, key or base nonce is missing or empty does not complete the
    handshake: the event [connect] waits for is not set, no socket is
    created and no receive thread started, the audio-channel-opened listener
    is not called, and the audio channel is as open or closed as it was.
    The hello is not dropped, though: its [session_id] is stored, and when
    its [udp_audio] entry is an object (or is missing) and [int] accepts
    the port, the host, the port, the key and the base nonce it gives, or
    their empty defaults, take the place of the stored ones, with nothing
    else changed and only the two log calls made. *)
Theorem incomplete_server_hello_fails (cfg : AudioConfig)
  (created : outcome socket_obj) (data : list (string * pyval))
  (self : MqttProtocol.t) :
  dict_get data "transport" PNone
    = dict_get (MqttProtocol.hello_message cfg) "transport" PNone ->
  (missing_or_empty (hello_field data "host")
   || missing_or_empty (hello_field data "port")
   || missing_or_empty (hello_field data "aes_key")
   || missing_or_empty (hello_field data "aes_nonce")) = true ->
  let r := MqttProtocol._handle_server_hello created data self in
  ~ In EventSet (trace_of r) /\
  MqttProtocol.server_hello_event (state_of r) = MqttProtocol.server_hello_event self /\
  ~ In SocketCreate (trace_of r) /\
  ~ In ThreadStart (trace_of r) /\
  MqttProtocol.udp_socket (state_of r) = MqttProtocol.udp_socket self /\
  MqttProtocol.udp_running (state_of r) = MqttProtocol.udp_running self /\
  ~ In CallAudioChannelOpened (trace_of r) /\
  MqttProtocol.is_audio_channel_opened (state_of r)
  = MqttProtocol.is_audio_channel_opened self /\
  Protocol.session_id (MqttProtocol.base (state_of r))
  = dict_get data "session_id" (PStr "") /\
  (forall info port,
      dict_get data "udp_audio" (PDict []) = PDict info ->
      py_int (dict_get info "port" (PInt 0)) = Returned port ->
      r = (Returned tt, hello_stored data info port self, [Log INFO; Log ERROR])).
Proof.
  intros Htag Hmiss r.
  destruct (incomplete_hello_run created data self Htag Hmiss)
    as [Hquiet (Hev & Hsock & Hrun & _)].
  fold r in Hquiet, Hev, Hsock, Hrun.
  assert (Hnot : forall a, ~ quiet a -> ~ In a (trace_of r))
    by (intros a Hn Hin; exact (Hn (Hquiet a Hin))).
  repeat match goal with |- _ /\ _ => split end; try assumption;
    try (apply Hnot; unfold quiet; intuition discriminate).
  - unfold MqttProtocol.is_audio_channel_opened. now rewrite Hsock, Hrun.
  - now apply mqtt_hello_stores_session.
  - intros info port Hinfo Hport.
    now apply incomplete_hello_stored.
Qed.

Lemma incomplete_server_hello_fails_witness :
  let r := MqttProtocol._handle_server_hello (Returned demo_socket) bare_hello
             MqttProtocol.__init__ in
  ~ In EventSet (trace_of r) /\
  MqttProtocol.server_hello_event (state_of r) = false /\
  ~ In CallAudioChannelOpened (trace_of r) /\
  MqttProtocol.is_audio_channel_opened (state_of r) = false /\
  Protocol.session_id (MqttProtocol.base (state_of r)) = PStr "s-2".
Proof.
  destruct (incomplete_server_hello_fails demo_config (Returned demo_socket)
              bare_hello MqttProtocol.__init__ eq_refl eq_refl)
    as (H1 & H2 & _ & _ & _ & _ & H3 & H4 & H5 & _).
  repeat split; assumption.
Defined.

(** ** The callbacks of the MQTT client *)

Ltac setup_fields :=
  cbn [MqttSetup.protocol MqttSetup.endpoint MqttSetup.client_id MqttSetup.username
       MqttSetup.password MqttSetup.subscribe_topic
       MqttSetup.set_protocol MqttSetup.set_endpoint MqttSetup.set_client_id
       MqttSetup.set_username MqttSetup.set_password MqttSetup.set_subscribe_topic
       MqttSetup.set_publish_topic
       MqttProtocol.base MqttProtocol.mqtt_client MqttProtocol.udp_socket
       MqttProtocol.udp_thread MqttProtocol.udp_running MqttProtocol.publish_topic
       MqttProtocol.udp_server MqttProtocol.udp_port MqttProtocol.aes_key
       MqttProtocol.aes_nonce MqttProtocol.local_sequence MqttProtocol.remote_sequence
       MqttProtocol.server_hello_event
       MqttProtocol.set_base MqttProtocol.set_mqtt_client MqttProtocol.set_udp_socket
       MqttProtocol.set_udp_thread MqttProtocol.set_udp_running
       MqttProtocol.set_udp_server MqttProtocol.set_udp_port MqttProtocol.set_aes_key
       MqttProtocol.set_aes_nonce MqttProtocol.set_local_sequence
       MqttProtocol.set_server_hello_event
       Protocol.session_id Protocol._on_incoming_json Protocol._on_incoming_audio
       Protocol._on_audio_channel_opened Protocol._on_audio_channel_closed
       Protocol._on_network_error Protocol._on_audio_config_changed
       Protocol.set_session_id] in *.

Ltac run_setup :=
  repeat (progress
            (cbv [bind gets modify emit lift ret raise may_raise when try_except
                  try_finally notify after result_of state_of trace_of fst snd
                  listener_raises sock_close sock_sendto task
                  MqttProtocol.is_some MqttSetup.on_protocol
                  MqttSetup.on_network_error MqttSetup._run_callback];
             cbn [app]; setup_fields)).

(** X12. The client callbacks change no field. [_on_mqtt_disconnect] never
    raises; it and [_on_mqtt_connect] tell the network-error listener
    exactly when the code is not zero and the listener is there;
    [_on_mqtt_connect] raises only what [subscribe] raises. After a
    disconnect reported by the broker the client is still in place, so
    [open_audio_channel] returns [True] without connecting. *)
Theorem client_callbacks_report (lib : MqttSetup.paho) (rc : Z) (self : MqttSetup.t) :
  let closed := MqttSetup._on_mqtt_disconnect rc self in
  let opened := MqttSetup._on_mqtt_connect lib rc self in
  let slot := Protocol._on_network_error (MqttProtocol.base (MqttSetup.protocol self)) in
  result_of closed = Returned tt /\
  state_of closed = self /\
  (In CallNetworkError (trace_of closed) <-> rc <> 0%Z /\ slot <> None) /\
  state_of opened = self /\
  (In CallNetworkError (trace_of opened) <-> rc <> 0%Z /\ slot <> None) /\
  result_of opened
  = (if (rc =? 0)%Z
     then match MqttSetup.subscribe lib (MqttSetup.subscribe_topic self) with
          | Some e => Raised e
          | None => Returned tt
          end
     else Returned tt) /\
  (forall cfg json text_of mqtt_info deliveries,
      MqttProtocol.mqtt_client (MqttSetup.protocol self) <> None ->
      MqttSetup.open_audio_channel cfg json lib text_of mqtt_info deliveries
        (state_of closed)
      = (Returned true, self, [])).
Proof.
  cbv zeta.
  assert (Hclosed : MqttSetup._on_mqtt_disconnect rc self
                    = (Returned tt, self,
                       Log INFO ::
                       match Protocol._on_network_error
                               (MqttProtocol.base (MqttSetup.protocol self)) with
                       | Some l =>
                           if (rc =? 0)%Z then []
                           else CallNetworkError ::
                                match listener_raises l with
                                | Some _ => [Log ERROR]
                                | None => []
                                end
                       | None => []
                       end)).
  { unfold MqttSetup._on_mqtt_disconnect. run_setup.
    destruct (Protocol._on_network_error _) as [[[e |]] |]; run_setup;
      destruct (rc =? 0)%Z; reflexivity. }
  assert (Hopened : MqttSetup._on_mqtt_connect lib rc self
                    = if (rc =? 0)%Z
                      then (match MqttSetup.subscribe lib (MqttSetup.subscribe_topic self) with
                            | Some e => Raised e
                            | None => Returned tt
                            end, self, [Log INFO])
                      else (Returned tt, self,
                            Log ERROR ::
                            match Protocol._on_network_error
                                    (MqttProtocol.base (MqttSetup.protocol self)) with
                            | Some l =>
                                CallNetworkError ::
                                match listener_raises l with
                                | Some _ => [Log ERROR]
                                | None => []
                                end
                            | None => []
                            end)).
  { unfold MqttSetup._on_mqtt_connect. destruct (rc =? 0)%Z; run_setup.
    - destruct (MqttSetup.subscribe lib _); reflexivity.
    - destruct (Protocol._on_network_error _) as [[[e |]] |]; reflexivity. }
  rewrite Hclosed, Hopened. clear Hclosed Hopened.
  cbn [result_of state_of trace_of fst snd].
  destruct (Z.eqb_spec rc 0) as [Hrc | Hrc];
    cbn [result_of state_of trace_of fst snd];
    destruct (Protocol._on_network_error _) as [[[e |]] |];
    (repeat match goal with |- _ /\ _ => split end;
     try reflexivity;
     try (intros cfg json text_of mqtt_info deliveries Hc;
          unfold MqttSetup.open_audio_channel; steps;
          destruct (MqttProtocol.mqtt_client (MqttSetup.protocol self));
          [reflexivity | contradiction]);
     try (cbn; intuition (discriminate || congruence))).
Qed.

(** ** Connecting over MQTT *)

Lemma on_protocol_run {A} (m : M MqttProtocol.t A) (self : MqttSetup.t) :
  MqttSetup.on_protocol m self
  = (result_of (m (MqttSetup.protocol self)),
     MqttSetup.set_protocol (state_of (m (MqttSetup.protocol self))) self,
     trace_of (m (MqttSetup.protocol self))).
Proof.
  unfold MqttSetup.on_protocol.
  now destruct (m (MqttSetup.protocol self)) as [[o p] t].
Qed.

Lemma preserves_on_protocol {A X} (proj : MqttProtocol.t -> X)
  (m : M MqttProtocol.t A) :
  preserves proj m ->
  preserves (fun self => proj (MqttSetup.protocol self)) (MqttSetup.on_protocol m).
Proof. intros Hm self. rewrite on_protocol_run. apply Hm. Qed.

Lemma keeps_on_protocol {A} (P : MqttProtocol.t -> Prop) (m : M MqttProtocol.t A) :
  keeps P m ->
  keeps (fun self => P (MqttSetup.protocol self)) (MqttSetup.on_protocol m).
Proof. intros Hm self H. rewrite on_protocol_run. now apply Hm. Qed.

Lemma calls_only_on_protocol {A} (P : action -> Prop) (m : M MqttProtocol.t A) :
  calls_only P m -> calls_only P (MqttSetup.on_protocol m).
Proof. intros Hm self a. rewrite on_protocol_run. apply Hm. Qed.

(** The [except] clause of [connect]: whatever was raised, the transport
    is torn down and [ConnectionError] is raised. *)
Lemma connect_handler_leaves (self : MqttSetup.t) :
  leaves (emit (Log ERROR) ;;
          MqttSetup.on_protocol MqttProtocol.disconnect ;;
          raise ConnectionError)
    (fun (o : outcome bool) s1 =>
       o = Raised ConnectionError /\
       MqttProtocol.mqtt_client (MqttSetup.protocol s1) = None /\
       MqttProtocol.udp_socket (MqttSetup.protocol s1) = None /\
       MqttProtocol.udp_running (MqttSetup.protocol s1) = false)
    self.
Proof.
  unfold leaves. rewrite bind_emit. observe.
  unfold bind. rewrite on_protocol_run.
  destruct (mqtt_disconnect_run (MqttSetup.protocol self))
    as ((b & Hb & _) & Hs & Hc & Hr & _).
  rewrite Hb. cbn. auto.
Qed.

Lemma mqtt_send_text_state (message : string) (self : MqttProtocol.t) :
  state_of (MqttProtocol.send_text message self) = self.
Proof.
  unfold MqttProtocol.send_text. steps.
  destruct (MqttProtocol.mqtt_client self) as [c |]; [| reflexivity].
  rewrite try_except_run. steps.
  destruct (client_publish c message) as [b | e]; unfold lift; observe; [reflexivity |].
  rewrite bind_handle_error.
  destruct (Protocol._on_network_error _) as [[[e' |]] |]; reflexivity.
Qed.

Lemma _on_mqtt_message_keeps_client (created : outcome socket_obj) (data : pyval) :
  preserves MqttProtocol.mqtt_client (MqttProtocol._on_mqtt_message created data).
Proof.
  unfold MqttProtocol._on_mqtt_message, MqttProtocol._handle_server_hello,
    MqttProtocol._init_udp_socket.
  preserve.
Qed.

Lemma _on_mqtt_message_keeps_event (created : outcome socket_obj) (data : pyval) :
  keeps (fun self => MqttProtocol.server_hello_event self = true)
    (MqttProtocol._on_mqtt_message created data).
Proof.
  unfold MqttProtocol._on_mqtt_message, MqttProtocol._handle_server_hello,
    MqttProtocol._init_udp_socket.
  keep.
Qed.

Lemma deliver_keeps_client (lib : MqttSetup.paho) (d : MqttSetup.delivery) :
  preserves (fun self => MqttProtocol.mqtt_client (MqttSetup.protocol self))
    (MqttSetup.deliver lib d).
Proof.
  unfold MqttSetup.deliver, task. apply preserves_try_except; [| intros; auto with preserves].
  destruct d as [rc | created [data |] | rc].
  - unfold MqttSetup._on_mqtt_connect, MqttSetup.on_network_error,
      MqttSetup._run_callback. preserve.
  - apply (preserves_on_protocol MqttProtocol.mqtt_client).
    apply _on_mqtt_message_keeps_client.
  - cbn. auto with preserves.
  - unfold MqttSetup._on_mqtt_disconnect, MqttSetup.on_network_error,
      MqttSetup._run_callback. preserve.
Qed.

Lemma deliver_keeps_event (lib : MqttSetup.paho) (d : MqttSetup.delivery) :
  keeps (fun self => MqttProtocol.server_hello_event (MqttSetup.protocol self) = true)
    (MqttSetup.deliver lib d).
Proof.
  unfold MqttSetup.deliver, task. apply keeps_try_except; [| intros; auto with keeps].
  destruct d as [rc | created [data |] | rc].
  - unfold MqttSetup._on_mqtt_connect, MqttSetup.on_network_error,
      MqttSetup._run_callback. keep.
  - apply (keeps_on_protocol (fun p => MqttProtocol.server_hello_event p = true)).
    apply _on_mqtt_message_keeps_event.
  - cbn. auto with keeps.
  - unfold MqttSetup._on_mqtt_disconnect, MqttSetup.on_network_error,
      MqttSetup._run_callback. keep.
Qed.

Lemma deliver_all_facts (lib : MqttSetup.paho) (ds : list MqttSetup.delivery) :
  forall self : MqttSetup.t,
    let r := MqttSetup.deliver_all lib ds self in
    result_of r = Returned tt /\
    MqttProtocol.mqtt_client (MqttSetup.protocol (state_of r))
    = MqttProtocol.mqtt_client (MqttSetup.protocol self) /\
    (MqttProtocol.server_hello_event (MqttSetup.protocol self) = true ->
     MqttProtocol.server_hello_event (MqttSetup.protocol (state_of r)) = true).
Proof.
  induction ds as [| d ds IH]; intros self; cbv zeta.
  - cbn. auto.
  - cbn [MqttSetup.deliver_all]. unfold bind.
    pose proof (deliver_keeps_client lib d self) as Hc.
    pose proof (deliver_keeps_event lib d self) as He.
    destruct (never_raises_returns (MqttSetup.deliver lib d) self
                (task_never_raises _)) as [[] Hr].
    destruct (MqttSetup.deliver lib d self) as [[o s1] t1].
    cbn [result_of state_of fst snd] in Hc, He, Hr. subst o.
    destruct (IH s1) as (Hr' & Hc' & He').
    observe. repeat split; [assumption | congruence | auto].
Qed.

Ltac walk_step :=
  lazymatch goal with
  | |- leaves (bind _ _) _ _ => apply leaves_bind
  | |- leaves (lift _) _ _ => apply leaves_lift
  | |- leaves (may_raise _) _ _ => apply leaves_may_raise
  | |- leaves (gets _) _ _ => apply leaves_gets
  | |- leaves (modify _) _ _ => apply leaves_modify
  | |- leaves (emit _) _ _ => apply leaves_emit
  | |- leaves (ret _) _ _ => apply leaves_ret
  | |- leaves (raise _) _ _ => apply leaves_raise
  | |- leaves (if ?b then _ else _) _ _ => destruct b eqn:?
  | |- leaves (match ?x with _ => _ end) _ _ => destruct x eqn:?
  | |- match ?o with _ => _ end => destruct o eqn:?
  end;
  cbv beta.

Ltac walk_with tac := repeat first [ tac | walk_step ].

(** X13. [connect] over MQTT has two outcomes, whatever the configuration,
    the libraries and the broker do: it returns [True], with the event set
    and the client in place, or it raises [ConnectionError], with the
    client and the socket gone and the channel closed. *)
Theorem mqtt_connect_outcome (cfg : AudioConfig) (json : json_module)
  (lib : MqttSetup.paho) (text_of : pyval -> string) (mqtt_info : pyval)
  (deliveries : list MqttSetup.delivery) (self : MqttSetup.t) :
  let r := MqttSetup.connect cfg json lib text_of mqtt_info deliveries self in
  (result_of r = Returned true /\
   MqttProtocol.server_hello_event (MqttSetup.protocol (state_of r)) = true /\
   MqttProtocol.mqtt_client (MqttSetup.protocol (state_of r)) <> None) \/
  (result_of r = Raised ConnectionError /\
   MqttProtocol.mqtt_client (MqttSetup.protocol (state_of r)) = None /\
   MqttProtocol.udp_socket (MqttSetup.protocol (state_of r)) = None /\
   MqttProtocol.is_audio_channel_opened (MqttSetup.protocol (state_of r)) = false).
Proof.
  cbv zeta.
  set (Q := fun (o : outcome bool) (s1 : MqttSetup.t) =>
              (o = Returned true /\
               MqttProtocol.server_hello_event (MqttSetup.protocol s1) = true /\
               MqttProtocol.mqtt_client (MqttSetup.protocol s1) <> None) \/
              (o = Raised ConnectionError /\
               MqttProtocol.mqtt_client (MqttSetup.protocol s1) = None /\
               MqttProtocol.udp_socket (MqttSetup.protocol s1) = None /\
               MqttProtocol.is_audio_channel_opened (MqttSetup.protocol s1) = false)).
  change (leaves (MqttSetup.connect cfg json lib text_of mqtt_info deliveries) Q self).
  assert (Hfail : forall s1 : MqttSetup.t,
             leaves (emit (Log ERROR) ;;
                     MqttSetup.on_protocol MqttProtocol.disconnect ;;
                     raise ConnectionError) Q s1).
  { intros s1. apply (leaves_weaken _ _ _ _ (connect_handler_leaves s1)).
    intros o s2 (Ho & Hc & Hs & Hr). right.
    unfold MqttProtocol.is_audio_channel_opened. rewrite Hs. auto. }
  unfold MqttSetup.connect. apply leaves_try_except.
  walk_with ltac:(apply Hfail).
  (* the hello is published *)
  unfold leaves at 1.
  rewrite on_protocol_run, mqtt_send_text_state. cbn [result_of state_of fst snd].
  setup_fields.
  walk_with ltac:(apply Hfail).
  (* the wait *)
  match goal with
  | |- leaves (MqttSetup.deliver_all lib deliveries) _ ?s =>
      destruct (deliver_all_facts lib deliveries s) as (Hr & Hc & He);
      unfold leaves at 1; rewrite Hr
  end.
  walk_with ltac:(apply Hfail).
  - left. split; [reflexivity | split; [assumption |]].
    rewrite Hc. setup_fields. discriminate.
  - unfold leaves at 1. rewrite on_protocol_run.
    match goal with
    | |- context [MqttProtocol.disconnect ?p] =>
        destruct (mqtt_disconnect_run p) as ((b & Hb & _) & _)
    end.
    cbn [result_of state_of fst snd]. rewrite Hb.
    apply leaves_raise, Hfail.
Qed.

Lemma connect_incomplete_run (cfg : AudioConfig) (json : json_module)
  (lib : MqttSetup.paho) (text_of : pyval -> string) (mqtt_info : pyval)
  (deliveries : list MqttSetup.delivery) (self : MqttSetup.t) :
  complete_configuration mqtt_info = false ->
  MqttSetup.connect cfg json lib text_of mqtt_info deliveries self
  = connect_failed match mqtt_info with
                   | PDict [] => self
                   | PDict d => configured text_of d self
                   | _ => self
                   end.
Proof.
  intros Hbad. unfold MqttSetup.connect. fold connect_failed.
  rewrite try_except_run.
  destruct mqtt_info as [| b | z | f | s | l | d];
    try (destruct (negb (truthy _)); cbn; rewrite ?after_nil; reflexivity).
  destruct d as [| entry d]; [cbn; rewrite ?after_nil; reflexivity |].
  cbn [truthy negb py_get]. steps. setup_fields.
  cbn [complete_configuration] in Hbad. rewrite Hbad. cbn [negb].
  steps. observe. cbn [result_of state_of trace_of fst snd].
  rewrite ?after_nil. reflexivity.
Qed.

Lemma connect_failed_calls :
  calls_only (fun a => forall topic message, a <> MqttPublish topic message)
    connect_failed.
Proof.
  unfold connect_failed.
  apply calls_only_bind; [apply calls_only_emit; intros; discriminate | intros _].
  apply calls_only_bind; [| intros _; auto with calls].
  apply calls_only_on_protocol. unfold MqttProtocol.disconnect. calls.
Qed.

(** X14. With a configuration that is missing, not an object, or short of
    one of its four values, [connect] over MQTT raises [ConnectionError]
    before it touches a library: nothing is published, and the outcome is
    the same for every library and every broker. *)
Theorem mqtt_connect_incomplete_configuration (cfg : AudioConfig)
  (json : json_module) (lib : MqttSetup.paho) (text_of : pyval -> string)
  (mqtt_info : pyval) (deliveries : list MqttSetup.delivery) (self : MqttSetup.t) :
  complete_configuration mqtt_info = false ->
  let r := MqttSetup.connect cfg json lib text_of mqtt_info deliveries self in
  result_of r = Raised ConnectionError /\
  (forall topic message, ~ In (MqttPublish topic message) (trace_of r)) /\
  (forall json' lib' deliveries',
      MqttSetup.connect cfg json' lib' text_of mqtt_info deliveries' self = r).
Proof.
  intros Hbad r. subst r.
  rewrite (connect_incomplete_run _ _ _ _ _ _ _ Hbad).
  split; [| split].
  - apply (connect_handler_leaves _).
  - intros topic message Hin.
    exact (connect_failed_calls _ _ Hin topic message eq_refl).
  - intros json' lib' deliveries'.
    apply (connect_incomplete_run _ _ _ _ _ _ _ Hbad).
Qed.

Lemma try_except_congr {S A} (m m' : M S A) (h : exn -> M S A) (s : S) :
  m s = m' s -> try_except m h s = try_except m' h s.
Proof. unfold try_except. now intros ->. Qed.

Lemma split_empty_address (d : list (string * pyval)) (address : string)
  (host port_text : pystr) :
  dict_get d "endpoint" PNone = PStr address ->
  split ":" (py address) = [host; port_text] ->
  truthy (PDict d) = true /\ truthy (PStr address) = true.
Proof.
  intros Ha Hs. split.
  - destruct d; [discriminate Ha | reflexivity].
  - destruct address; [discriminate Hs | reflexivity].
Qed.

Lemma mqtt_send_text_published (text : string) (self : MqttProtocol.t)
  (c : mqtt_client_obj) (b : bool) :
  MqttProtocol.mqtt_client self = Some c ->
  client_publish c text = Returned b ->
  MqttProtocol.send_text text self
  = (Returned b, self, [MqttPublish (MqttProtocol.publish_topic self) text]).
Proof.
  intros Hc Hb. unfold MqttProtocol.send_text. steps. rewrite Hc, try_except_run.
  steps. rewrite Hb. reflexivity.
Qed.

Lemma connect_reaches_wait (cfg : AudioConfig) (json : json_module)
  (lib : MqttSetup.paho) (text_of : pyval -> string) (d : list (string * pyval))
  (client : mqtt_client_obj) (text : string)
  (deliveries : list MqttSetup.delivery) (self : MqttSetup.t) :
  broker_accepts cfg json lib d client text ->
  MqttSetup.connect cfg json lib text_of (PDict d) deliveries self
  = try_except
      (fun _ =>
         after [Log INFO;
                MqttPublish (fstring text_of "from_device/" (dict_get d "client_id" PNone))
                            text]
               (connect_wait lib deliveries (waiting text_of d client self)))
      (fun _ => connect_failed) self.
Proof.
  intros (address & host & port_text & port & Haddress & Hsplit & Hport & Hid & Huser
          & Hsecret & Hclient & Hpw & Hconnect & Hloop & Hdumps & Hpublish).
  destruct (split_empty_address _ _ _ _ Haddress Hsplit) as [Hd Ha].
  unfold MqttSetup.connect. fold connect_failed.
  apply try_except_congr.
  rewrite Hd. cbn [negb py_get]. steps. setup_fields.
  rewrite Haddress, Ha, Hid, Huser, Hsecret. cbn [negb andb].
  rewrite Hclient. steps. setup_fields. rewrite Hpw. steps.
  cbn [split_field]. rewrite Hsplit. steps. rewrite Hport. steps.
  rewrite Hconnect. steps. rewrite Hloop. steps. rewrite Hdumps. steps.
  observe.
  match goal with
  | |- context [bind (MqttSetup.on_protocol (MqttProtocol.send_text text)) ?k ?s] =>
      rewrite (bind_eq (MqttSetup.on_protocol (MqttProtocol.send_text text)) k s
                 (Returned true, s,
                  [MqttPublish (fstring text_of "from_device/"
                                  (dict_get d "client_id" PNone)) text]))
  end.
  - cbn [negb]. observe. rewrite <- Haddress. reflexivity.
  - rewrite on_protocol_run.
    rewrite (mqtt_send_text_published text _ client true) by (setup_fields; auto).
    cbn [result_of state_of trace_of fst snd]. reflexivity.
Qed.

Lemma connect_wait_run (lib : MqttSetup.paho) (deliveries : list MqttSetup.delivery)
  (self : MqttSetup.t) :
  let arrived := MqttSetup.deliver_all lib deliveries self in
  connect_wait lib deliveries self
  = after (trace_of arrived)
      (if MqttProtocol.server_hello_event (MqttSetup.protocol (state_of arrived))
       then (Returned true, state_of arrived, [Log INFO])
       else (Raised ConnectionError,
             MqttSetup.set_protocol
               (state_of (MqttProtocol.disconnect (MqttSetup.protocol (state_of arrived))))
               (state_of arrived),
             Log ERROR
               :: trace_of (MqttProtocol.disconnect
                              (MqttSetup.protocol (state_of arrived))))).
Proof.
  cbv zeta. unfold connect_wait, bind at 1.
  destruct (deliver_all_facts lib deliveries self) as (Hr & _).
  destruct (MqttSetup.deliver_all lib deliveries self) as [[o s1] t1].
  cbn [result_of state_of trace_of fst snd] in Hr |- *. subst o.
  f_equal. steps.
  destruct (MqttProtocol.server_hello_event (MqttSetup.protocol s1)); [reflexivity |].
  steps. unfold bind. rewrite on_protocol_run.
  destruct (mqtt_disconnect_run (MqttSetup.protocol s1)) as ((b & Hb & _) & _).
  rewrite Hb. cbn. now rewrite app_nil_r.
Qed.

(** X15. The event [connect] over MQTT waits for is the one made by
    [__init__], which [disconnect] does not clear: once a server hello has
    set it, a later [connect] that the broker accepts returns [True]
    whatever arrives, also nothing; with the event not set and nothing
    arriving, [connect] raises [ConnectionError]. *)
Theorem mqtt_connect_stale_event (cfg : AudioConfig) (json : json_module)
  (lib : MqttSetup.paho) (text_of : pyval -> string) (d : list (string * pyval))
  (client : mqtt_client_obj) (text : string) (self : MqttSetup.t) :
  broker_accepts cfg json lib d client text ->
  (MqttProtocol.server_hello_event (MqttSetup.protocol self) = true ->
   forall deliveries,
     result_of (MqttSetup.connect cfg json lib text_of (PDict d) deliveries self)
     = Returned true) /\
  (MqttProtocol.server_hello_event (MqttSetup.protocol self) = false ->
   result_of (MqttSetup.connect cfg json lib text_of (PDict d) [] self)
   = Raised ConnectionError) /\
  (forall p : MqttProtocol.t,
      MqttProtocol.server_hello_event (state_of (MqttProtocol.disconnect p))
      = MqttProtocol.server_hello_event p).
Proof.
  intros Hbroker. split; [| split].
  - intros Hset deliveries.
    rewrite (connect_reaches_wait _ _ _ _ _ _ _ _ _ Hbroker), try_except_run.
    rewrite connect_wait_run. cbv zeta.
    destruct (deliver_all_facts lib deliveries (waiting text_of d client self))
      as (_ & _ & He).
    rewrite He by exact Hset. reflexivity.
  - intros Hunset.
    rewrite (connect_reaches_wait _ _ _ _ _ _ _ _ _ Hbroker), try_except_run.
    rewrite connect_wait_run. cbv zeta.
    cbn [MqttSetup.deliver_all ret result_of state_of trace_of fst snd].
    unfold waiting, configured. setup_fields.
    rewrite Hunset.
    observe. apply (connect_handler_leaves _).
  - assert (H : preserves MqttProtocol.server_hello_event MqttProtocol.disconnect)
      by (unfold MqttProtocol.disconnect; preserve).
    exact H.
Qed.

Lemma _on_mqtt_message_hello_state (created : outcome socket_obj)
  (data : list (string * pyval)) (self : MqttProtocol.t) :
  dict_get data "type" (PStr "") = PStr "hello" ->
  state_of (MqttProtocol._on_mqtt_message created (PDict data) self)
  = state_of (MqttProtocol._handle_server_hello created data self).
Proof.
  intros Htype. unfold MqttProtocol._on_mqtt_message.
  cbn [py_get]. rewrite try_except_run. steps. rewrite Htype.
  cbn [str_eqb String.eqb Ascii.eqb Bool.eqb].
  destruct (MqttProtocol._handle_server_hello created data self) as [[[[] | e] s1] t1];
    reflexivity.
Qed.

Lemma state_of_task {S} (m : M S unit) (s : S) :
  state_of (task m s) = state_of (m s).
Proof.
  unfold task, try_except. destruct (m s) as [[[[] | e] s1] t1]; reflexivity.
Qed.

Lemma state_of_then_ret {S A} (m : M S A) (s : S) :
  state_of (bind m (fun _ => ret tt) s) = state_of (m s).
Proof.
  unfold bind. destruct (m s) as [[[a | e] s1] t1]; reflexivity.
Qed.

(** One server hello arrives during the wait. *)
Lemma deliver_hello_state (lib : MqttSetup.paho) (created : outcome socket_obj)
  (data : list (string * pyval)) (self : MqttSetup.t) :
  dict_get data "type" (PStr "") = PStr "hello" ->
  state_of (MqttSetup.deliver_all lib
              [MqttSetup.Message created (Some (PDict data))] self)
  = MqttSetup.set_protocol
      (state_of (MqttProtocol._handle_server_hello created data
                   (MqttSetup.protocol self))) self.
Proof.
  intros Htype.
  change (MqttSetup.deliver_all lib [MqttSetup.Message created (Some (PDict data))])
    with (bind (task (MqttSetup.on_protocol
                        (MqttProtocol._on_mqtt_message created (PDict data))))
               (fun _ => @ret MqttSetup.t unit tt)).
  rewrite state_of_then_ret, state_of_task, on_protocol_run.
  cbn [state_of fst snd].
  now rewrite (_on_mqtt_message_hello_state _ _ _ Htype).
Qed.

(** X16. [connect] over MQTT, accepted by the broker and answered by a
    complete server hello, returns [True] with the datagram channel open,
    the client in place, the two topics derived from the client id, the
    session id and the datagram server of the hello stored, and the client
    hello published on the publish topic. *)
Theorem mqtt_connect_completes_handshake (cfg : AudioConfig) (json : json_module)
  (lib : MqttSetup.paho) (text_of : pyval -> string) (d : list (string * pyval))
  (client : mqtt_client_obj) (text : string) (s : socket_obj)
  (data info : list (string * pyval)) (port : Z) (self : MqttSetup.t) :
  broker_accepts cfg json lib d client text ->
  dict_get data "type" (PStr "") = PStr "hello" ->
  complete_hello data info port ->
  (forall old,
      MqttProtocol.udp_socket (MqttSetup.protocol self) = Some old ->
      sock_close old = None) ->
  let r := MqttSetup.connect cfg json lib text_of (PDict d)
             [MqttSetup.Message (Returned s) (Some (PDict data))] self in
  let topic := fstring text_of "from_device/" (dict_get d "client_id" PNone) in
  result_of r = Returned true /\
  MqttProtocol.is_audio_channel_opened (MqttSetup.protocol (state_of r)) = true /\
  MqttProtocol.mqtt_client (MqttSetup.protocol (state_of r)) = Some client /\
  MqttProtocol.publish_topic (MqttSetup.protocol (state_of r)) = topic /\
  MqttSetup.subscribe_topic (state_of r)
  = fstring text_of "to_device/" (dict_get d "client_id" PNone) /\
  Protocol.session_id (MqttProtocol.base (MqttSetup.protocol (state_of r)))
  = dict_get data "session_id" (PStr "") /\
  MqttProtocol.udp_server (MqttSetup.protocol (state_of r))
  = dict_get info "host" (PStr "") /\
  MqttProtocol.udp_port (MqttSetup.protocol (state_of r)) = port /\
  In (MqttPublish topic text) (trace_of r).
Proof.
  intros Hbroker Htype Hhello Hold r topic. subst r topic.
  rewrite (connect_reaches_wait _ _ _ _ _ _ _ _ _ Hbroker), try_except_run.
  rewrite connect_wait_run. cbv zeta.
  rewrite (deliver_hello_state _ _ _ _ Htype).
  destruct (complete_hello_fields s data info port
              (MqttSetup.protocol (waiting text_of d client self)) Hhello)
    as (Hsock & Hrun & Hevent & Hserver & Hport & Hsid & Hclient & Htopic).
  { unfold waiting, configured. setup_fields. exact Hold. }
  cbn [MqttSetup.protocol MqttSetup.set_protocol]. rewrite Hevent.
  observe. cbn [MqttSetup.protocol MqttSetup.set_protocol MqttSetup.subscribe_topic].
  unfold MqttProtocol.is_audio_channel_opened.
  rewrite Hsock, Hrun, Hserver, Hport, Hsid, Hclient, Htopic.
  unfold waiting, configured. setup_fields.
  repeat match goal with |- _ /\ _ => split end; try reflexivity.
  right. left. reflexivity.
Qed.

Lemma connect_malformed_run (cfg : AudioConfig) (json : json_module)
  (lib : MqttSetup.paho) (text_of : pyval -> string) (d : list (string * pyval))
  (deliveries : list MqttSetup.delivery) (self : MqttSetup.t) :
  complete_configuration (PDict d) = true ->
  (forall host port_text port,
      split_field (dict_get d "endpoint" PNone) = Returned [host; port_text] ->
      int_of_str port_text <> Returned port) ->
  MqttSetup.connect cfg json lib text_of (PDict d) deliveries self
  = connect_failed
      match MqttSetup.Client lib (dict_get d "client_id" PNone) with
      | Returned client => waiting text_of d client self
      | Raised _ => configured text_of d self
      end.
Proof.
  intros Hcomplete Hbad. unfold MqttSetup.connect. fold connect_failed.
  rewrite try_except_run.
  assert (Hd : truthy (PDict d) = true)
    by (destruct d; [discriminate Hcomplete | reflexivity]).
  rewrite Hd. cbn [negb py_get]. steps. setup_fields.
  cbn [complete_configuration] in Hcomplete. rewrite Hcomplete. cbn [negb].
  unfold waiting. fold (configured text_of d self).
  destruct (MqttSetup.Client lib _) as [client | e]; steps; setup_fields;
    [| observe; rewrite ?after_nil; reflexivity].
  destruct (MqttSetup.username_pw_set lib _ _) as [e |]; steps;
    [observe; rewrite ?after_nil; reflexivity |].
  destruct (split_field (dict_get d "endpoint" PNone)) as [pieces | e] eqn:Hsplit;
    steps; [| observe; rewrite ?after_nil; reflexivity].
  destruct pieces as [| host [| port_text [| extra pieces]]]; steps;
    try (observe; rewrite ?after_nil; reflexivity).
  destruct (int_of_str port_text) as [port | e] eqn:Hport;
    [destruct (Hbad _ _ port eq_refl Hport) |].
  steps. observe. rewrite ?after_nil. reflexivity.
Qed.

(** X17. With a complete configuration whose endpoint does not read
    [host:port] with a port [int] accepts, [connect] over MQTT raises
    [ConnectionError]: nothing is published, and the outcome depends on
    the libraries only through the creation of the client. *)
Theorem mqtt_connect_malformed_endpoint (cfg : AudioConfig) (json : json_module)
  (lib : MqttSetup.paho) (text_of : pyval -> string) (d : list (string * pyval))
  (deliveries : list MqttSetup.delivery) (self : MqttSetup.t) :
  complete_configuration (PDict d) = true ->
  (forall host port_text port,
      split_field (dict_get d "endpoint" PNone) = Returned [host; port_text] ->
      int_of_str port_text <> Returned port) ->
  let r := MqttSetup.connect cfg json lib text_of (PDict d) deliveries self in
  result_of r = Raised ConnectionError /\
  (forall topic message, ~ In (MqttPublish topic message) (trace_of r)) /\
  (forall json' lib' deliveries',
      MqttSetup.Client lib' = MqttSetup.Client lib ->
      MqttSetup.connect cfg json' lib' text_of (PDict d) deliveries' self = r).
Proof.
  intros Hcomplete Hbad r. subst r.
  rewrite (connect_malformed_run _ _ _ _ _ _ _ Hcomplete Hbad).
  split; [| split].
  - apply (connect_handler_leaves _).
  - intros topic message Hin.
    exact (connect_failed_calls _ _ Hin topic message eq_refl).
  - intros json' lib' deliveries' Hclient.
    rewrite (connect_malformed_run _ _ _ _ _ _ _ Hcomplete Hbad).
    now rewrite Hclient.
Qed.

(** ** Connecting over WebSocket *)

Lemma ws_connect_failed_leaves (self : WebSocketProtocol.t) :
  leaves ws_connect_failed
    (fun (o : outcome bool) s1 =>
       o = Raised ConnectionError /\
       WebSocketProtocol.websocket s1 = None /\
       WebSocketProtocol.is_audio_channel_opened s1 = false)
    self.
Proof.
  unfold leaves, ws_connect_failed. rewrite bind_emit. observe.
  rewrite (bind_eq _ _ _ _ (ws_disconnect_eq self)).
  unfold WebSocketProtocol.is_audio_channel_opened.
  destruct (WebSocketProtocol.websocket self) as [w |] eqn:Hw; cbv zeta.
  - destruct (ws_close w); cbn; auto.
  - cbn. rewrite Hw. auto.
Qed.

Lemma ws_send_text_returned (message : string) (self : WebSocketProtocol.t) :
  leaves (WebSocketProtocol.send_text message)
    (fun o s1 => match o with
                 | Returned _ => s1 = self
                 | Raised _ => True
                 end)
    self.
Proof.
  unfold leaves, WebSocketProtocol.send_text. steps.
  destruct (WebSocketProtocol.websocket self) as [w |]; [| reflexivity].
  rewrite try_except_run. steps.
  destruct (ws_send w (WsText message)) as [e |]; steps; [| reflexivity].
  observe. unfold WebSocketProtocol.close_audio_channel.
  rewrite (bind_eq _ _ _ _ (ws_disconnect_eq self)).
  destruct (WebSocketProtocol.websocket self) as [w' |]; cbv zeta;
    [destruct (ws_close w') |];
    observe; rewrite bind_handle_error; fields;
    destruct (Protocol._on_network_error _) as [[[e' |]] |]; exact I.
Qed.

Lemma once_event (message : WebSocketProtocol.frame) (self : WebSocketProtocol.t)
  (b : bool) :
  WebSocketProtocol.hello_received self = Some b ->
  WebSocketProtocol.hello_received
    (state_of (WebSocketProtocol._message_handler_once message self))
  = Some (b || accepted_hello message).
Proof.
  intros Hev. unfold WebSocketProtocol._message_handler_once.
  destruct message as [[data |] | x]; cbn [accepted_hello].
  - destruct data as [| x | z | f | s | l | d];
      try (cbn; now rewrite Hev, orb_false_r).
    cbn [py_get]. rewrite try_except_run. steps.
    destruct (str_eqb (dict_get d "type" (PStr "")) "hello"); cbn [andb].
    + unfold WebSocketProtocol._handle_server_hello. cbv zeta.
      destruct (truthy (dict_get d "transport" PNone)); cbn [negb orb andb];
        [| cbn; now rewrite Hev, orb_false_r].
      destruct (str_eqb (dict_get d "transport" PNone) "websocket");
        cbn [negb orb andb]; [| cbn; now rewrite Hev, orb_false_r].
      rewrite orb_true_r.
      destruct self as [[sid j a [[[e |]] |] c [[[e' |]] |] g] ws conn ev];
        cbn in Hev; subst ev; run_all; reflexivity.
    + steps. rewrite orb_false_r.
      destruct (Protocol._on_incoming_json (WebSocketProtocol.base self))
        as [[[e |]] |]; cbn; exact Hev.
  - cbn. now rewrite Hev, orb_false_r.
  - rewrite try_except_run. steps. rewrite orb_false_r.
    destruct (Protocol._on_incoming_audio (WebSocketProtocol.base self))
      as [[[e |]] |]; cbn; exact Hev.
Qed.

Lemma message_loop_event (frames : list WebSocketProtocol.frame) :
  forall (self : WebSocketProtocol.t) (b : bool),
    WebSocketProtocol.hello_received self = Some b ->
    WebSocketProtocol.hello_received (state_of (WebSocketSetup.message_loop frames self))
    = Some (b || existsb accepted_hello frames).
Proof.
  induction frames as [| message frames IH]; intros self b Hev.
  - cbn. now rewrite orb_false_r.
  - cbn [WebSocketSetup.message_loop existsb]. unfold bind.
    pose proof (once_event message self b Hev) as Hone.
    destruct (_message_handler_once_facts message self) as (Hr & _).
    destruct (WebSocketProtocol._message_handler_once message self) as [[o s1] t1].
    cbn [result_of state_of fst snd] in Hr, Hone. subst o.
    rewrite state_of_after, (IH s1 _ Hone). now rewrite orb_assoc.
Qed.

(** The task [connect] created, over what arrives during the wait. *)
Lemma handler_task_facts (frames : list WebSocketProtocol.frame)
  (ending : option WebSocketSetup.stream_end) (self : WebSocketProtocol.t)
  (w : ws_obj) (b : bool) :
  WebSocketProtocol.websocket self = Some w ->
  WebSocketProtocol.hello_received self = Some b ->
  let r := task (WebSocketSetup._message_handler frames ending) self in
  result_of r = Returned tt /\
  WebSocketProtocol.websocket (state_of r) = Some w /\
  WebSocketProtocol.hello_received (state_of r)
  = Some (b || existsb accepted_hello frames).
Proof.
  intros Hw Hev. cbv zeta.
  destruct (never_raises_returns _ self
              (task_never_raises (WebSocketSetup._message_handler frames ending)))
    as [[] Hr].
  rewrite Hr, state_of_task. split; [reflexivity |].
  pose proof (message_loop_event frames self b Hev) as Hloop.
  destruct (message_loop_facts frames self) as (_ & _ & Hw' & _).
  destruct ending as [e |].
  - destruct (_message_handler_ended frames e self w Hw) as (s1 & t1 & Eloop & ->).
    rewrite Eloop in Hloop, Hw'. cbn [state_of fst snd] in Hloop, Hw'.
    cbv zeta.
    destruct (Protocol._on_network_error _); cbn [state_of fst snd]; fields;
      rewrite Hw', Hw; auto.
  - unfold WebSocketSetup._message_handler. steps. rewrite Hw.
    rewrite Hw', Hw. auto.
Qed.

Ltac ws_walk_step :=
  lazymatch goal with
  | |- leaves (bind _ _) _ _ => apply leaves_bind
  | |- leaves (try_except _ _) _ _ => apply leaves_try_except
  | |- leaves (lift _) _ _ => apply leaves_lift
  | |- leaves (may_raise _) _ _ => apply leaves_may_raise
  | |- leaves (gets _) _ _ => apply leaves_gets
  | |- leaves (modify _) _ _ => apply leaves_modify
  | |- leaves (emit _) _ _ => apply leaves_emit
  | |- leaves (ret _) _ _ => apply leaves_ret
  | |- leaves (raise _) _ _ => apply leaves_raise
  | |- leaves (if ?b then _ else _) _ _ => destruct b eqn:?
  | |- leaves (match ?x with _ => _ end) _ _ => destruct x eqn:?
  | |- match ?o with _ => _ end => destruct o eqn:?
  end;
  cbv beta.

(** X18. [connect] over WebSocket has two outcomes, whatever the library
    and the server do: it returns [True], with [connected] set, the
    connection in place and the channel open, or it raises
    [ConnectionError], with the connection gone and the channel closed. *)
Theorem ws_connect_outcome (cfg : AudioConfig) (json : json_module)
  (lib : WebSocketSetup.websockets_module) (text_of : pyval -> string)
  (config : WebSocketSetup.settings) (frames : list WebSocketProtocol.frame)
  (ending : option WebSocketSetup.stream_end) (self : WebSocketProtocol.t) :
  let r := WebSocketSetup.connect cfg json lib text_of config frames ending self in
  (result_of r = Returned true /\
   WebSocketProtocol.connected (state_of r) = true /\
   WebSocketProtocol.websocket (state_of r) <> None /\
   WebSocketProtocol.hello_received (state_of r) = Some true /\
   WebSocketProtocol.is_audio_channel_opened (state_of r) = true) \/
  (result_of r = Raised ConnectionError /\
   WebSocketProtocol.websocket (state_of r) = None /\
   WebSocketProtocol.is_audio_channel_opened (state_of r) = false).
Proof.
  cbv zeta.
  set (Q := fun (o : outcome bool) (s1 : WebSocketProtocol.t) =>
              (o = Returned true /\
               WebSocketProtocol.connected s1 = true /\
               WebSocketProtocol.websocket s1 <> None /\
               WebSocketProtocol.hello_received s1 = Some true /\
               WebSocketProtocol.is_audio_channel_opened s1 = true) \/
              (o = Raised ConnectionError /\
               WebSocketProtocol.websocket s1 = None /\
               WebSocketProtocol.is_audio_channel_opened s1 = false)).
  change (leaves (WebSocketSetup.connect cfg json lib text_of config frames ending)
            Q self).
  assert (Hfail : forall s1 : WebSocketProtocol.t, leaves ws_connect_failed Q s1).
  { intros s1. apply (leaves_weaken _ _ _ _ (ws_connect_failed_leaves s1)).
    intros o s2 H. now right. }
  unfold WebSocketSetup.connect. fold ws_connect_failed. apply leaves_try_except.
  repeat first [ apply Hfail | ws_walk_step ].
  all: eapply leaves_weaken; [apply ws_send_text_returned |];
    intros [sent | err] s1 Hs1; [subst s1 | apply Hfail];
    apply leaves_bind;
    match goal with
    | |- leaves (task _) _ ?s =>
        destruct (handler_task_facts frames ending s _ false eq_refl eq_refl)
          as (Hr & Hw & Hev);
        unfold leaves at 1; rewrite Hr
    end;
    apply leaves_bind, leaves_gets; cbv beta; rewrite Hev; cbn [orb];
    destruct (existsb accepted_hello frames);
    repeat first [ apply Hfail | ws_walk_step ].
  all: try (apply (leaves_weaken _ _ _ _ (ws_connect_failed_leaves _));
            intros o s2 (-> & H); apply Hfail).
  all: unfold Q; left; unfold WebSocketProtocol.is_audio_channel_opened; fields;
    rewrite Hw, Hev; repeat split; discriminate.
Qed.

Lemma ws_send_text_sent (message : string) (self : WebSocketProtocol.t) (w : ws_obj) :
  WebSocketProtocol.websocket self = Some w ->
  ws_send w (WsText message) = None ->
  leaves (WebSocketProtocol.send_text message)
    (fun o s1 => o = Returned true /\ s1 = self) self.
Proof.
  intros Hw Hsend. unfold leaves, WebSocketProtocol.send_text. steps.
  rewrite Hw, try_except_run. steps. rewrite Hsend. steps. auto.
Qed.

(** X19. [connect] over WebSocket makes a new event, so only a hello that
    arrives during this call counts: when the connection is opened and the
    client hello sent, [connect] returns [True] with that connection in
    place if a server hello for the WebSocket transport is among the
    frames that arrive, and raises [ConnectionError] if none is, whatever
    the object held before. *)
Theorem ws_connect_needs_hello (cfg : AudioConfig) (json : json_module)
  (lib : WebSocketSetup.websockets_module) (text_of : pyval -> string)
  (config : WebSocketSetup.settings) (frames : list WebSocketProtocol.frame)
  (ending : option WebSocketSetup.stream_end) (self : WebSocketProtocol.t)
  (ws : ws_obj) (text : string) :
  server_accepts cfg json lib text_of config ws text ->
  let r := WebSocketSetup.connect cfg json lib text_of config frames ending self in
  (existsb accepted_hello frames = true ->
   result_of r = Returned true /\
   WebSocketProtocol.websocket (state_of r) = Some ws) /\
  (existsb accepted_hello frames = false ->
   result_of r = Raised ConnectionError).
Proof.
  intros (Hopen & Hdumps & Hsend). cbv zeta in *.
  set (Q := fun (o : outcome bool) (s1 : WebSocketProtocol.t) =>
              (existsb accepted_hello frames = true ->
               o = Returned true /\ WebSocketProtocol.websocket s1 = Some ws) /\
              (existsb accepted_hello frames = false ->
               o = Raised ConnectionError)).
  change (leaves (WebSocketSetup.connect cfg json lib text_of config frames ending)
            Q self).
  assert (Hfail : forall s1 : WebSocketProtocol.t,
             existsb accepted_hello frames = false ->
             leaves ws_connect_failed Q s1).
  { intros s1 Hnone. apply (leaves_weaken _ _ _ _ (ws_connect_failed_leaves s1)).
    intros o s2 (-> & _). unfold Q. rewrite Hnone. split; [discriminate | reflexivity]. }
  unfold WebSocketSetup.connect. fold ws_connect_failed.
  apply leaves_try_except, leaves_bind, leaves_modify. cbv beta.
  apply leaves_bind.
  assert (Hopened :
    leaves (try_except
              (lift (WebSocketSetup.connect_additional_headers lib
                       (WebSocketSetup.websocket_url config)
                       (WebSocketSetup.headers text_of config)))
              (fun e => match e with
                        | TypeError =>
                            lift (WebSocketSetup.connect_extra_headers lib
                                    (WebSocketSetup.websocket_url config)
                                    (WebSocketSetup.headers text_of config))
                        | _ => raise e
                        end))
      (fun o s1 => o = Returned ws /\
                   s1 = WebSocketProtocol.set_hello_received (Some false) self)
      (WebSocketProtocol.set_hello_received (Some false) self)).
  { apply leaves_try_except, leaves_lift.
    destruct Hopen as [-> | [-> Hsecond]]; [now split |].
    apply leaves_lift. rewrite Hsecond. now split. }
  apply (leaves_weaken _ _ _ _ Hopened). intros o s1 (-> & ->).
  apply leaves_bind, leaves_modify. cbv beta.
  apply leaves_bind, leaves_lift. rewrite Hdumps.
  apply leaves_bind.
  eapply leaves_weaken;
    [apply ws_send_text_sent with (w := ws); [reflexivity | exact Hsend] |].
  intros o s1 (-> & ->). cbv beta iota.
  apply leaves_bind.
  match goal with
  | |- leaves (task _) _ ?s =>
      destruct (handler_task_facts frames ending s ws false eq_refl eq_refl)
        as (Hr & Hw & Hev);
      unfold leaves at 1; rewrite Hr
  end.
  apply leaves_bind, leaves_gets. cbv beta. rewrite Hev. cbn [orb].
  destruct (existsb accepted_hello frames) eqn:Hany.
  - repeat ws_walk_step. unfold Q. split; [intros _ | discriminate].
    split; [reflexivity |]. fields. exact Hw.
  - apply (leaves_weaken _ _ _ _ (ws_connect_failed_leaves _)).
    intros o s2 (-> & _). now apply Hfail.
Qed.

(** ** The properties above, on the examples *)

Lemma server_hello_opens_channel_witness :
  MqttProtocol.is_audio_channel_opened demo_session = true /\
  MqttProtocol.udp_port demo_session = 8884%Z /\
  MqttProtocol.local_sequence demo_session = 0%Z.
Proof.
  assert (Hcomplete : complete_hello demo_hello demo_udp_audio 8884).
  { unfold complete_hello. repeat split; try reflexivity. discriminate. }
  destruct (server_hello_opens_channel demo_socket demo_hello demo_udp_audio 8884
              MqttProtocol.__init__ Hcomplete)
    as (_ & _ & Hopened & _ & _ & Hport & _ & _ & _ & Hseq & _).
  - intros old Hold. discriminate Hold.
  - repeat split; assumption.
Defined.

Lemma server_hello_without_socket_witness :
  let r := MqttProtocol._handle_server_hello (Raised OSError) demo_hello
             MqttProtocol.__init__ in
  MqttProtocol.server_hello_event (state_of r) = true /\
  MqttProtocol.is_audio_channel_opened (state_of r) = false.
Proof.
  assert (Hcomplete : complete_hello demo_hello demo_udp_audio 8884).
  { unfold complete_hello. repeat split; try reflexivity. discriminate. }
  destruct (server_hello_without_socket OSError demo_hello demo_udp_audio 8884
              MqttProtocol.__init__ Hcomplete I)
    as (Hevent & _ & _ & _ & _ & _ & Hopened & _).
  split; [exact Hevent | exact Hopened].
Defined.

Lemma consecutive_packets_share_key_stream_witness :
  let sent := MqttProtocol.send_audio default_backend demo_frame demo_session in
  let packet1 := hd [] (datagrams (trace_of sent)) in
  let packet2 :=
    hd [] (datagrams (trace_of (MqttProtocol.send_audio default_backend next_frame
                                  (state_of sent)))) in
  byte_xor (nth 32 packet1 x00) (nth 16 packet2 x00)
  = byte_xor (nth 16 demo_frame x00) (nth 0 next_frame x00).
Proof.
  intros sent packet1 packet2.
  apply (proj2 (consecutive_packets_share_key_stream default_backend
                  demo_frame next_frame demo_session packet1 packet2
                  (PStr "10.0.0.7") (PStr "10.0.0.7") 8884%Z 8884%Z
                  eq_refl
                  ltac:(cbn; lia)
                  ltac:(cbn; lia)
                  ltac:(vm_compute; right; left; reflexivity)
                  ltac:(vm_compute; right; left; reflexivity))
           0%nat).
  cbn. lia.
Defined.

Lemma message_handler_routing_witness :
  let calls := trace_of (WebSocketSetup._message_handler demo_frames None
                           demo_ws_session) in
  audio_calls calls = [[x01; x02]] /\
  json_calls calls = [PDict [("type"%string, PStr "tts")]].
Proof.
  exact (message_handler_routing demo_frames None demo_ws_session demo_ws eq_refl).
Defined.

Lemma notification_without_connection_witness :
  send_notification demo_json StopListening MqttProtocol.__init__
  = (Returned tt, MqttProtocol.__init__, []).
Proof.
  apply (proj1 (notification_without_connection demo_json StopListening
                  (fun v => ex_intro _ "{...}"%string eq_refl) I)).
  reflexivity.
Defined.

Lemma envelope_session_id_witness :
  let greeted :=
    state_of (MqttProtocol._handle_server_hello (Returned demo_socket) demo_hello
                (MqttProtocol.set_mqtt_client (Some demo_client)
                   MqttProtocol.__init__)) in
  Protocol.session_id (MqttProtocol.base greeted) = PStr "s-1" /\
  Protocol.session_id (MqttProtocol.base (state_of (MqttProtocol.disconnect greeted)))
  = PStr "s-1".
Proof.
  destruct (envelope_session_id demo_json (Returned demo_socket) demo_hello
              (MqttProtocol.set_mqtt_client (Some demo_client) MqttProtocol.__init__)
              demo_client "{...}" eq_refl eq_refl eq_refl)
    as (Hstored & _ & Hkept).
  split; [exact Hstored | exact Hkept].
Defined.

Lemma mqtt_connect_incomplete_configuration_witness :
  result_of (MqttSetup.connect demo_config demo_json demo_paho demo_text_of
               (PDict [("endpoint"%string, PStr "broker.example:1883")]) []
               MqttSetup.__init__)
  = Raised ConnectionError.
Proof.
  apply (mqtt_connect_incomplete_configuration demo_config demo_json demo_paho
           demo_text_of (PDict [("endpoint"%string, PStr "broker.example:1883")]) []
           MqttSetup.__init__ eq_refl).
Defined.

Lemma mqtt_connect_stale_event_witness :
  result_of (MqttSetup.connect demo_config demo_json demo_paho demo_text_of
               (PDict demo_info) []
               (MqttSetup.set_protocol (state_of (MqttProtocol.disconnect demo_session))
                  MqttSetup.__init__))
  = Returned true /\
  result_of (MqttSetup.connect demo_config demo_json demo_paho demo_text_of
               (PDict demo_info) [] MqttSetup.__init__)
  = Raised ConnectionError.
Proof.
  assert (Haccepts : broker_accepts demo_config demo_json demo_paho demo_info
                       demo_client "{...}").
  { exists "broker.example:1883"%string, (py "broker.example"), (py "1883"), 1883%Z.
    repeat split; reflexivity. }
  split.
  - apply (proj1 (mqtt_connect_stale_event demo_config demo_json demo_paho
                    demo_text_of demo_info demo_client "{...}"
                    (MqttSetup.set_protocol
                       (state_of (MqttProtocol.disconnect demo_session))
                       MqttSetup.__init__)
                    Haccepts)).
    reflexivity.
  - apply (proj1 (proj2 (mqtt_connect_stale_event demo_config demo_json demo_paho
                           demo_text_of demo_info demo_client "{...}"
                           MqttSetup.__init__ Haccepts))).
    reflexivity.
Defined.

Lemma mqtt_connect_completes_handshake_witness :
  let r := MqttSetup.connect demo_config demo_json demo_paho demo_text_of
             (PDict demo_info)
             [MqttSetup.Message (Returned demo_socket) (Some (PDict demo_hello))]
             MqttSetup.__init__ in
  result_of r = Returned true /\
  MqttProtocol.is_audio_channel_opened (MqttSetup.protocol (state_of r)) = true /\
  MqttProtocol.publish_topic (MqttSetup.protocol (state_of r))
  = PStr "from_device/dev-1".
Proof.
  assert (Hcomplete : complete_hello demo_hello demo_udp_audio 8884).
  { unfold complete_hello. repeat split; try reflexivity. discriminate. }
  assert (Haccepts : broker_accepts demo_config demo_json demo_paho demo_info
                       demo_client "{...}").
  { exists "broker.example:1883"%string, (py "broker.example"), (py "1883"), 1883%Z.
    repeat split; reflexivity. }
  destruct (mqtt_connect_completes_handshake demo_config demo_json demo_paho
              demo_text_of demo_info demo_client "{...}" demo_socket demo_hello
              demo_udp_audio 8884 MqttSetup.__init__ Haccepts eq_refl
              Hcomplete)
    as (Hresult & Hopened & _ & Htopic & _).
  - intros old Hold. discriminate Hold.
  - repeat split; assumption.
Defined.

Lemma mqtt_connect_malformed_endpoint_witness :
  result_of (MqttSetup.connect demo_config demo_json demo_paho demo_text_of
               (PDict odd_info) [] MqttSetup.__init__)
  = Raised ConnectionError.
Proof.
  apply (mqtt_connect_malformed_endpoint demo_config demo_json demo_paho
           demo_text_of odd_info [] MqttSetup.__init__ eq_refl).
  intros host port_text port Hsplit. discriminate Hsplit.
Defined.

Lemma ws_connect_needs_hello_witness :
  result_of (WebSocketSetup.connect demo_config demo_json demo_websockets
               demo_text_of demo_settings demo_frames None
               WebSocketProtocol.__init__)
  = Returned true /\
  result_of (WebSocketSetup.connect demo_config demo_json demo_websockets
               demo_text_of demo_settings [WebSocketProtocol.BinaryFrame [x01]]
               (Some WebSocketSetup.Exhausted) WebSocketProtocol.__init__)
  = Raised ConnectionError.
Proof.
  assert (Haccepts : server_accepts demo_config demo_json demo_websockets
                       demo_text_of demo_settings demo_ws "{...}").
  { split; [right; split; reflexivity | split; reflexivity]. }
  split.
  - apply (proj1 (ws_connect_needs_hello demo_config demo_json demo_websockets
                    demo_text_of demo_settings demo_frames None
                    WebSocketProtocol.__init__ demo_ws "{...}" Haccepts)).
    reflexivity.
  - apply (proj2 (ws_connect_needs_hello demo_config demo_json demo_websockets
                    demo_text_of demo_settings [WebSocketProtocol.BinaryFrame [x01]]
                    (Some WebSocketSetup.Exhausted)
                    WebSocketProtocol.__init__ demo_ws "{...}" Haccepts)).
    reflexivity.
Defined.
